(** * Cypher-X: the trading guardrails policy and the swap executor

    A shallow embedding of
    - [tradingGuardrailsPolicy.ts]: [validateTokenWhitelist],
      [getTokenPrices], [validateDailyVolumeLimit], [validateSlippage],
      [validateTradingGuardrails];
    - [executeSwapTool.ts]: [initializeLitWallet], [getTokenInfo],
      [calculateMinAmountOut], [executeSwap].

    JavaScript [number]s are IEEE 754 binary64 values (Rocq's primitive
    floats), [bigint]s are [Z], strings are [string].  The module-level
    [dailyVolumeTracker] map and the sequence of calls made to the outside
    world are threaded through a state-and-exception monad; the answers
    of the outside world (environment variables, clock, contracts, HTTP)
    are gathered in a [World] record. *)

From Stdlib Require Import ZArith Floats Lia List Ascii String.
From Stdlib Require Import DecimalString DecimalZ DecimalPos.
From stdpp Require Import gmap strings.
Import ListNotations.

Local Open Scope string_scope.
Local Open Scope Z_scope.

(** ** JavaScript values *)

Module JS.

(** A JS [number]. *)
Abbreviation number := float (only parsing).

(** What a [throw] carries: an [Error] object with its message, or any
    other value ([error instanceof Error] is false for it). *)
Inductive thrown : Type :=
| ErrorObj (message : string)
| NonError.

(** [error instanceof Error ? error.message : 'Unknown error'] *)
Definition error_message (e : thrown) : string :=
  match e with
  | ErrorObj m => m
  | NonError => "Unknown error"
  end.

(** The completion of an evaluation (or the settlement of a promise):
    a value, or something thrown (a rejection). *)
Inductive completion (A : Type) : Type :=
| Returned (a : A)
| Thrown (e : thrown).
Arguments Returned {A} a.
Arguments Thrown {A} e.

(** [Number(z)] for a bigint [z]: the nearest binary64, ties to even. *)
Definition Number_of_bigint (z : Z) : number :=
  SF2Prim (binary_normalize prec emax z 0 false).

(** [ToBoolean] on a number: [0], [-0] and [NaN] are falsy. *)
Definition truthy_number (x : number) : bool :=
  negb (PrimFloat.eqb x 0 || PrimFloat.is_nan x).

(** [x || d] on numbers. *)
Definition number_or (x d : number) : number :=
  if truthy_number x then x else d.

(** [ToBoolean] on an optional string ([process.env.X]): [undefined] and
    the empty string are falsy. *)
Definition truthy_env (v : option string) : bool :=
  match v with
  | Some (String _ _) => true
  | _ => false
  end.

(** [BigInt(x)] for a number [x]: the integer [x] denotes, and a
    [RangeError] when [x] is not an integer (NaN and the infinities
    included). *)
Definition BigInt_of_number (x : number) : completion Z :=
  match Prim2SF x with
  | S754_zero _ => Returned 0
  | S754_finite s m e =>
      let sgn := if s then -1 else 1 in
      if 0 <=? e then Returned (sgn * (Z.pos m * 2 ^ e))
      else if (Z.pos m mod 2 ^ (- e)) =? 0
           then Returned (sgn * (Z.pos m / 2 ^ (- e)))
           else Thrown (ErrorObj "The number cannot be converted to a BigInt because it is not an integer")
  | _ => Thrown (ErrorObj "The number cannot be converted to a BigInt because it is not an integer")
  end.

(** The value of a digit character in radix up to 36. *)
Definition digit_value (c : ascii) : option Z :=
  let n := Z.of_nat (nat_of_ascii c) in
  if (48 <=? n) && (n <=? 57) then Some (n - 48)
  else if (97 <=? n) && (n <=? 122) then Some (n - 87)
  else if (65 <=? n) && (n <=? 90) then Some (n - 55)
  else None.

Fixpoint digits_value (radix acc : Z) (s : string) : option Z :=
  match s with
  | EmptyString => Some acc
  | String c r =>
      match digit_value c with
      | Some d => if d <? radix then digits_value radix (acc * radix + d) r else None
      | None => None
      end
  end.

(** A non-empty run of digits of the radix. *)
Definition digits (radix : Z) (s : string) : option Z :=
  match s with
  | EmptyString => None
  | _ => digits_value radix 0 s
  end.

Definition is_white_space (c : ascii) : bool :=
  let n := nat_of_ascii c in
  ((9 <=? n) && (n <=? 13))%nat || (n =? 32)%nat.

Fixpoint trim_start (s : string) : string :=
  match s with
  | String c r => if is_white_space c then trim_start r else s
  | EmptyString => EmptyString
  end.

Fixpoint trim_end (s : string) : string :=
  match s with
  | EmptyString => EmptyString
  | String c r =>
      match trim_end r with
      | EmptyString => if is_white_space c then EmptyString else String c EmptyString
      | r' => String c r'
      end
  end.

Definition syntax_error {A} (s : string) : completion A :=
  Thrown (ErrorObj ("Cannot convert " +:+ s +:+ " to a BigInt")).

(** [BigInt(s)] for a string [s] (StringToBigInt): white space is
    trimmed, the empty text is [0n], a decimal literal may carry a sign,
    [0x], [0o] and [0b] literals may not; anything else is a
    [SyntaxError].  (White space is the ASCII part of the JS set.) *)
Definition BigInt_of_string (s : string) : completion Z :=
  let of_digits (radix : Z) (sign : Z) (t : string) : completion Z :=
    match digits radix t with
    | Some v => Returned (sign * v)
    | None => syntax_error s
    end in
  match trim_end (trim_start s) with
  | EmptyString => Returned 0
  | String "0" (String ("x" | "X") t) => of_digits 16 1 t
  | String "0" (String ("o" | "O") t) => of_digits 8 1 t
  | String "0" (String ("b" | "B") t) => of_digits 2 1 t
  | String "-" t => of_digits 10 (-1) t
  | String "+" t => of_digits 10 1 t
  | t => of_digits 10 1 t
  end.

(** [z.toString()] for a bigint [z]. *)
Definition bigint_toString (z : Z) : string :=
  NilZero.string_of_int (Z.to_int z).

(** [a / b] on bigints: truncation toward zero, [RangeError] on [0n]. *)
Definition bigint_div (a b : Z) : completion Z :=
  if b =? 0 then Thrown (ErrorObj "Division by zero") else Returned (Z.quot a b).

Definition lower_ascii (c : ascii) : ascii :=
  let n := nat_of_ascii c in
  if ((65 <=? n) && (n <=? 90))%nat then ascii_of_nat (n + 32) else c.

(** [s.toLowerCase()], on ASCII text (addresses are hexadecimal). *)
Fixpoint toLowerCase (s : string) : string :=
  match s with
  | EmptyString => EmptyString
  | String c r => String (lower_ascii c) (toLowerCase r)
  end.

(** [l.join(',')] *)
Fixpoint join_comma (l : list string) : string :=
  match l with
  | [] => ""
  | [x] => x
  | x :: r => x +:+ "," +:+ join_comma r
  end.

(** [s.split('T')[0]]: the text before the first ['T']. *)
Fixpoint before_T (s : string) : string :=
  match s with
  | EmptyString => EmptyString
  | String c r => if Ascii.eqb c "T" then EmptyString else String c (before_T r)
  end.

End JS.
Import JS.

(** ** The outside world *)

(** The argument of the router's [exactInputSingle]. *)
Module Router.
Record ExactInputSingleParams : Type := {
  tokenIn : string;
  tokenOut : string;
  fee : Z;
  recipient : string;
  deadline : Z;
  amountIn : Z;
  amountOutMinimum : Z;
  sqrtPriceLimitX96 : Z }.
End Router.

Record TokenPrice : Type := { usd : number }.

(** What the ethers library hands back for a mined transaction. *)
Module Ethers.
Record Log : Type := { topics : list string; data : string }.

Record TransactionReceipt : Type := {
  hash : string;
  gasUsed : option Z;
  blockNumber : Z;
  logs : list Log }.

(** A submitted transaction: its hash and what [wait()] settles to. *)
Record TransactionResponse : Type := {
  tx_hash : string;
  wait : completion TransactionReceipt }.
End Ethers.

(** [process.env].  The two numeric variables are held as read by
    [parseFloat] and [parseInt]; [None] stands for a variable that is unset
    or empty, for which the source's [|| '10000'] and [|| '300'] choose the
    default text. *)
Record Env : Type := {
  TOKEN_WHITELIST_CONTRACT : option string;
  MAX_DAILY_VOLUME_USD : option number;
  MAX_SLIPPAGE_BPS : option number;
  LIT_PKP_PUBLIC_KEY : option string;
  UNISWAP_V3_ROUTER : option string }.

(** Everything the two files read from outside during one call. *)
Record World : Type := {
  env : Env;
  (** [new Date().toISOString()] *)
  now_iso : string;
  (** [Date.now()], in milliseconds *)
  now_ms : Z;
  (** the whitelist contract's [isWhitelisted(token)] *)
  isWhitelisted : string -> completion bool;
  (** [response.data] of the CoinGecko request for [contract_addresses] *)
  token_price : string -> completion (gmap string TokenPrice);
  (** [litNodeClient.connect()], [pkpWallet.init()], [pkpWallet.getAddress()] *)
  lit_connect : completion unit;
  pkp_init : completion unit;
  pkp_getAddress : completion string;
  (** the ERC20 contract at a token address *)
  erc20_decimals : string -> completion Z;
  erc20_balanceOf : string -> string -> completion Z;
  erc20_approve : string -> string -> Z -> completion Ethers.TransactionResponse;
  (** the router contract at an address *)
  exactInputSingle : string -> Router.ExactInputSingleParams -> completion Ethers.TransactionResponse }.

(** [parseFloat(process.env.MAX_DAILY_VOLUME_USD || '10000')] *)
Definition maxDailyVolumeUsd (w : World) : number :=
  match MAX_DAILY_VOLUME_USD (env w) with
  | Some x => x
  | None => 10000%float
  end.

(** [parseInt(process.env.MAX_SLIPPAGE_BPS || '300')] *)
Definition maxSlippageBps (w : World) : number :=
  match MAX_SLIPPAGE_BPS (env w) with
  | Some x => x
  | None => 300%float
  end.

(** [new Date().toISOString().split('T')[0]] *)
Definition today (w : World) : string := before_T (now_iso w).

(** ** Program state and the monad of effects *)

Record DailyVolume : Type := { date : string; volume : number }.

(** The calls that leave the process. *)
Inductive Call : Type :=
| Call_isWhitelisted (token : string)
| Call_token_price (contract_addresses : string)
| Call_lit_connect
| Call_pkp_init
| Call_pkp_getAddress
| Call_decimals (token : string)
| Call_balanceOf (token account : string)
| Call_approve (token spender : string) (amount : Z)
| Call_wait (tx : string)
| Call_exactInputSingle (router : string) (params : Router.ExactInputSingleParams).

(** [dailyVolumeTracker] is the module-level [Map]; [calls] lists the
    outside calls made so far, oldest first. *)
Record State : Type := {
  dailyVolumeTracker : gmap string DailyVolume;
  calls : list Call }.

Definition M (A : Type) : Type := State -> completion A * State.

Definition ret {A} (a : A) : M A := fun s => (Returned a, s).

Definition throw {A} (e : thrown) : M A := fun s => (Thrown e, s).

Definition bind {A B} (m : M A) (k : A -> M B) : M B :=
  fun s =>
    match m s with
    | (Returned a, s') => k a s'
    | (Thrown e, s') => (Thrown e, s')
    end.

(** [try { m } catch (error) { h error }] *)
Definition try_catch {A} (m : M A) (h : thrown -> M A) : M A :=
  fun s =>
    match m s with
    | (Returned a, s') => (Returned a, s')
    | (Thrown e, s') => h e s'
    end.

(** A builtin that may throw and touches nothing. *)
Definition lift {A} (c : completion A) : M A := fun s => (c, s).

(** An outside call: it is recorded, then settles as the world says. *)
Definition call {A} (ev : Call) (answer : completion A) : M A :=
  fun s =>
    (answer, {| dailyVolumeTracker := dailyVolumeTracker s; calls := calls s ++ [ev] |}).

(** [dailyVolumeTracker.get(key)] and [dailyVolumeTracker.set(key, v)] *)
Definition tracker_get (key : string) : M (option DailyVolume) :=
  fun s => (Returned (dailyVolumeTracker s !! key), s).

Definition tracker_set (key : string) (v : DailyVolume) : M unit :=
  fun s =>
    (Returned tt, {| dailyVolumeTracker := <[key := v]> (dailyVolumeTracker s); calls := calls s |}).

(** [await Promise.all([a, b])]: both are started; it rejects when one
    of them does. *)
Definition Promise_all2 {A B} (a : M A) (b : M B) : M (A * B) :=
  fun s =>
    let (ra, s1) := a s in
    let (rb, s2) := b s1 in
    match ra, rb with
    | Returned x, Returned y => (Returned (x, y), s2)
    | Thrown e, _ => (Thrown e, s2)
    | _, Thrown e => (Thrown e, s2)
    end.

Declare Scope js_scope.
Delimit Scope js_scope with js.
Notation "'let*' x ':=' m 'in' k" := (bind m (fun x => k))
  (at level 10, x name, m at level 100, k at level 200,
   format "'[v' 'let*'  x  ':='  m  'in' '/' k ']'") : js_scope.
Notation "'let*' ' p ':=' m 'in' k" := (bind m (fun x => let 'p := x in k))
  (at level 10, p pattern, m at level 100, k at level 200) : js_scope.
Notation "'do' m 'in' k" := (bind m (fun _ => k))
  (at level 10, m at level 100, k at level 200) : js_scope.

(** ** tradingGuardrailsPolicy.ts *)

Module Policy.

Record TradingParams : Type := {
  tokenIn : string;
  tokenOut : string;
  amountIn : string;
  slippageBps : number;
  walletAddress : string }.

(** The shapes the source gives to [details]. *)
#[warnings="-register-all"]
Inductive Details : Type :=
| SlippageDetails (requestedSlippage maxAllowed : number)
| SlippageLowDetails (requestedSlippage minimum : number)
| VolumeDetails (currentVolume tradeValue newTotal limit : number)
| TokensDetails (tokenIn tokenOut : string)
| AmountDetails (amountIn : string)
| ErrorDetails (error : string)
| PassedDetails (whitelistValidated : bool)
    (slippageValidated volumeValidated : option Details)
    (tradeValueUsd : number) (timestamp : string).

Record PolicyValidationResult : Type := {
  isValid : bool;
  reason : option string;
  details : option Details }.

Local Open Scope js_scope.

(** Building the provider and the contract handle sends nothing; what can
    fail is the pair of queries, whose answers are the world's
    [isWhitelisted]. *)
Definition validateTokenWhitelist (w : World) (tokenIn tokenOut : string) : M bool :=
  try_catch
    (if negb (truthy_env (TOKEN_WHITELIST_CONTRACT (env w))) then
       ret true
     else
       let* '(tokenInWhitelisted, tokenOutWhitelisted) :=
         Promise_all2 (call (Call_isWhitelisted tokenIn) (isWhitelisted w tokenIn))
                      (call (Call_isWhitelisted tokenOut) (isWhitelisted w tokenOut)) in
       ret (tokenInWhitelisted && tokenOutWhitelisted))
    (fun error => ret false).

Definition getTokenPrices (w : World) (tokenAddresses : list string)
  : M (gmap string TokenPrice) :=
  try_catch
    (let addressList := join_comma tokenAddresses in
     call (Call_token_price addressList) (token_price w addressList))
    (fun error =>
       let defaultPrices :=
         fold_left (fun prices address => <[toLowerCase address := {| usd := 1 |}]> prices)
                   tokenAddresses (∅ : gmap string TokenPrice) in
       ret defaultPrices).

Definition trackerKey (walletAddress today : string) : string :=
  walletAddress +:+ "-" +:+ today.

Definition validateDailyVolumeLimit (w : World) (walletAddress : string)
    (tradeValueUsd : number) : M PolicyValidationResult :=
  let today := today w in
  let maxDailyVolumeUsd := maxDailyVolumeUsd w in
  let trackerKey := trackerKey walletAddress today in
  let* found := tracker_get trackerKey in
  let currentData := default {| date := today; volume := 0 |} found in
  let newTotalVolume := (volume currentData + tradeValueUsd)%float in
  if (maxDailyVolumeUsd <? newTotalVolume)%float then
    ret {| isValid := false;
           reason := Some "Daily volume limit exceeded";
           details := Some (VolumeDetails (volume currentData) tradeValueUsd
                                          newTotalVolume maxDailyVolumeUsd) |}
  else
    do tracker_set trackerKey {| date := today; volume := newTotalVolume |} in
    ret {| isValid := true;
           reason := None;
           details := Some (VolumeDetails (volume currentData) tradeValueUsd
                                          newTotalVolume maxDailyVolumeUsd) |}.

Definition validateSlippage (w : World) (slippageBps : number) : PolicyValidationResult :=
  let maxSlippageBps := maxSlippageBps w in
  if (maxSlippageBps <? slippageBps)%float then
    {| isValid := false;
       reason := Some "Slippage exceeds maximum allowed";
       details := Some (SlippageDetails slippageBps maxSlippageBps) |}
  else if (slippageBps <? 1)%float then
    {| isValid := false;
       reason := Some "Slippage too low (unrealistic)";
       details := Some (SlippageLowDetails slippageBps 1) |}
  else
    {| isValid := true;
       reason := None;
       details := Some (SlippageDetails slippageBps maxSlippageBps) |}.

(** [tokenPrices[tokenIn.toLowerCase()]?.usd || 1] *)
Definition tokenInPrice (tokenPrices : gmap string TokenPrice) (tokenIn : string) : number :=
  match tokenPrices !! toLowerCase tokenIn with
  | Some p => number_or (usd p) 1
  | None => 1%float
  end.

(** [Number(amountInBigInt) * tokenInPrice / 1e18] *)
Definition tradeValueUsd (amountInBigInt : Z) (tokenInPrice : number) : number :=
  (Number_of_bigint amountInBigInt * tokenInPrice / 1e18)%float.

Definition validateTradingGuardrails (w : World) (params : TradingParams)
  : M PolicyValidationResult :=
  let tokenIn := tokenIn params in
  let tokenOut := tokenOut params in
  let amountIn := amountIn params in
  let slippageBps := slippageBps params in
  let walletAddress := walletAddress params in
  try_catch
    ((* Step 1: Validate slippage parameters *)
     let slippageValidation := validateSlippage w slippageBps in
     if negb (isValid slippageValidation) then ret slippageValidation else
     (* Step 2: Validate token whitelist *)
     let* isWhitelisted := validateTokenWhitelist w tokenIn tokenOut in
     if negb isWhitelisted then
       ret {| isValid := false;
              reason := Some "One or both tokens not whitelisted";
              details := Some (TokensDetails tokenIn tokenOut) |}
     else
     (* Step 3: Get token prices for volume calculation *)
     let* tokenPrices := getTokenPrices w [tokenIn; tokenOut] in
     let tokenInPrice := tokenInPrice tokenPrices tokenIn in
     let* amountInBigInt := lift (BigInt_of_string amountIn) in
     let tradeValueUsd := tradeValueUsd amountInBigInt tokenInPrice in
     (* Step 4: Validate daily volume limits *)
     let* volumeValidation := validateDailyVolumeLimit w walletAddress tradeValueUsd in
     if negb (isValid volumeValidation) then ret volumeValidation else
     (* Step 5: Additional safety checks *)
     if amountInBigInt <=? 0 then
       ret {| isValid := false;
              reason := Some "Invalid trade amount";
              details := Some (AmountDetails amountIn) |}
     else if String.eqb tokenIn tokenOut then
       ret {| isValid := false;
              reason := Some "Cannot swap token to itself";
              details := Some (TokensDetails tokenIn tokenOut) |}
     else
       ret {| isValid := true;
              reason := None;
              details := Some (PassedDetails true (details slippageValidation)
                                 (details volumeValidation) tradeValueUsd (now_iso w)) |})
    (fun error =>
       ret {| isValid := false;
              reason := Some "Validation error occurred";
              details := Some (ErrorDetails (error_message error)) |}).

End Policy.

(** ** executeSwapTool.ts *)

Module Swap.

Record SwapParams : Type := {
  tokenIn : string;
  tokenOut : string;
  amountIn : string;
  slippageBps : number;
  recipient : string }.

Record SwapResult : Type := {
  success : bool;
  txHash : option string;
  amountOut : option string;
  gasUsed : option string;
  effectiveSlippage : option number;
  error : option string }.

(** A result that only says it failed and why. *)
Definition failure (message : string) : SwapResult :=
  {| success := false; txHash := None; amountOut := None; gasUsed := None;
     effectiveSlippage := None; error := Some message |}.

(** The signing wallet handle; what it answers is in the [World]. *)
Inductive PKPEthersWallet : Type := pkpWallet.

Record TokenInfo : Type := { decimals : number; balance : string }.

Local Open Scope js_scope.

Definition initializeLitWallet (w : World) : M PKPEthersWallet :=
  try_catch
    (do call Call_lit_connect (lit_connect w) in
     let pkpPublicKey := LIT_PKP_PUBLIC_KEY (env w) in
     if negb (truthy_env pkpPublicKey) then
       throw (ErrorObj "LIT_PKP_PUBLIC_KEY not configured")
     else
       do call Call_pkp_init (pkp_init w) in
       (* the address is fetched for the log line *)
       let* pkpAddress := call Call_pkp_getAddress (pkp_getAddress w) in
       ret pkpWallet)
    (fun error =>
       throw (ErrorObj ("Lit wallet initialization failed: " +:+ error_message error))).

Definition getTokenInfo (w : World) (tokenAddress walletAddress : string) : M TokenInfo :=
  let* '(decimals, balance) :=
    Promise_all2
      (call (Call_decimals tokenAddress) (erc20_decimals w tokenAddress))
      (call (Call_balanceOf tokenAddress walletAddress)
            (erc20_balanceOf w tokenAddress walletAddress)) in
  ret {| decimals := Number_of_bigint decimals; balance := bigint_toString balance |}.

Definition calculateMinAmountOut (expectedAmountOut : Z) (slippageBps : number)
  : completion Z :=
  match BigInt_of_number (10000 - slippageBps)%float with
  | Returned slippageMultiplier =>
      bigint_div (expectedAmountOut * slippageMultiplier) 10000
  | Thrown e => Thrown e
  end.

(** [amountInBigInt * BigInt(98) / BigInt(100)] *)
Definition estimatedAmountOut (amountInBigInt : Z) : Z :=
  Z.quot (amountInBigInt * 98) 100.

(** [ethers.id('Transfer(address,address,uint256)')]: the Keccak-256 hash
    of the event signature. *)
Definition Transfer_topic : string :=
  "0xddf252ad1be2c89b69c2b068fc378daa952ba7f163c4a11628f55a4df523b3ef".

(** [log.topics[0] === ethers.id('Transfer(address,address,uint256)')] *)
Definition is_Transfer (log : Ethers.Log) : bool :=
  match Ethers.topics log with
  | t :: _ => String.eqb t Transfer_topic
  | [] => false
  end.

(** [receipt.logs.find(...)?.data || '0'] *)
Definition actualAmountOut (receipt : Ethers.TransactionReceipt) : string :=
  match List.find is_Transfer (Ethers.logs receipt) with
  | Some log =>
      match Ethers.data log with
      | EmptyString => "0"
      | d => d
      end
  | None => "0"
  end.

Definition executeSwap (w : World) (params : SwapParams) : M SwapResult :=
  let tokenIn := tokenIn params in
  let tokenOut := tokenOut params in
  let amountIn := amountIn params in
  let slippageBps := slippageBps params in
  let recipient := recipient params in
  try_catch
    ((* Step 1: Initialize Lit Protocol PKP wallet *)
     let* pkpWallet := initializeLitWallet w in
     let* walletAddress := call Call_pkp_getAddress (pkp_getAddress w) in
     (* Step 2: Validate against the trading guardrails policy *)
     let* policyValidation :=
       Policy.validateTradingGuardrails w
         {| Policy.tokenIn := tokenIn;
            Policy.tokenOut := tokenOut;
            Policy.amountIn := amountIn;
            Policy.slippageBps := slippageBps;
            Policy.walletAddress := walletAddress |} in
     if negb (Policy.isValid policyValidation) then
       ret (failure ("Policy validation failed: "
                       +:+ default "undefined" (Policy.reason policyValidation)))
     else
     (* Step 3: Get token information and validate balance *)
     let* tokenInInfo := getTokenInfo w tokenIn walletAddress in
     let* amountInBigInt := lift (BigInt_of_string amountIn) in
     let* balanceBigInt := lift (BigInt_of_string (balance tokenInInfo)) in
     if balanceBigInt <? amountInBigInt then
       ret (failure ("Insufficient balance. Required: " +:+ amountIn
                       +:+ ", Available: " +:+ balance tokenInInfo))
     else
     (* Step 4: Approve Uniswap router if needed *)
     if negb (truthy_env (UNISWAP_V3_ROUTER (env w))) then
       throw (ErrorObj "UNISWAP_V3_ROUTER not configured")
     else
     let routerAddress := default "" (UNISWAP_V3_ROUTER (env w)) in
     let* approveTx :=
       call (Call_approve tokenIn routerAddress amountInBigInt)
            (erc20_approve w tokenIn routerAddress amountInBigInt) in
     let* approveReceipt := call (Call_wait (Ethers.tx_hash approveTx)) (Ethers.wait approveTx) in
     (* Step 5: Prepare swap parameters;
        [Math.floor(Date.now() / 1000) + 600] *)
     let deadline := now_ms w / 1000 + 600 in
     let fee := 3000 in
     let estimatedAmountOut := estimatedAmountOut amountInBigInt in
     let* amountOutMinimum := lift (calculateMinAmountOut estimatedAmountOut slippageBps) in
     let swapParams :=
       {| Router.tokenIn := tokenIn;
          Router.tokenOut := tokenOut;
          Router.fee := fee;
          Router.recipient := recipient;
          Router.deadline := deadline;
          Router.amountIn := amountInBigInt;
          Router.amountOutMinimum := amountOutMinimum;
          Router.sqrtPriceLimitX96 := 0 |} in
     (* Step 6: Execute the swap *)
     let* swapTx :=
       call (Call_exactInputSingle routerAddress swapParams)
            (exactInputSingle w routerAddress swapParams) in
     let* receipt := call (Call_wait (Ethers.tx_hash swapTx)) (Ethers.wait swapTx) in
     (* Step 7: Calculate actual results *)
     let actualAmountOut := actualAmountOut receipt in
     let* effectiveSlippage :=
       if negb (String.eqb actualAmountOut "0") then
         let* actual := lift (BigInt_of_string actualAmountOut) in
         let* ratio :=
           lift (bigint_div ((estimatedAmountOut - actual) * 10000) estimatedAmountOut) in
         ret (Number_of_bigint ratio / 100)%float
       else ret 0%float in
     ret {| success := true;
            txHash := Some (Ethers.hash receipt);
            amountOut := Some actualAmountOut;
            gasUsed := option_map bigint_toString (Ethers.gasUsed receipt);
            effectiveSlippage := Some effectiveSlippage;
            error := None |})
    (fun error => ret (failure (error_message error))).

End Swap.

(** ** Derived notions used to state the properties *)

(** [!!process.env.TOKEN_WHITELIST_CONTRACT] *)
Definition whitelist_configured (w : World) : bool :=
  truthy_env (TOKEN_WHITELIST_CONTRACT (env w)).

(** The whitelist queries one validation sends, and what they amount to. *)
Definition whitelist_calls (w : World) (tokenIn tokenOut : string) : list Call :=
  if whitelist_configured w
  then [Call_isWhitelisted tokenIn; Call_isWhitelisted tokenOut]
  else [].

Definition whitelist_answer (w : World) (tokenIn tokenOut : string) : bool :=
  if whitelist_configured w then
    match isWhitelisted w tokenIn, isWhitelisted w tokenOut with
    | Returned a, Returned b => a && b
    | _, _ => false
    end
  else true.

(** The price table one validation works with. *)
Definition price_answer (w : World) (tokenAddresses : list string) : gmap string TokenPrice :=
  match token_price w (join_comma tokenAddresses) with
  | Returned prices => prices
  | Thrown _ =>
      fold_left (fun prices address => <[toLowerCase address := {| usd := 1 |}]> prices)
                tokenAddresses (∅ : gmap string TokenPrice)
  end.

(** Calls to the whitelist oracle or to the price oracle. *)
Definition is_oracle_call (c : Call) : bool :=
  match c with
  | Call_isWhitelisted _ | Call_token_price _ => true
  | _ => false
  end.

(** Today's running total of a wallet, [0] when it has no entry yet. *)
Definition running_total (w : World) (walletAddress : string) (st : State) : number :=
  volume (default {| date := today w; volume := 0 |}
            (dailyVolumeTracker st !! Policy.trackerKey walletAddress (today w))).

(** [slippageBps] lies outside [[1, maxSlippageBps]]. *)
Definition slippage_outside (w : World) (slippageBps : number) : bool :=
  (maxSlippageBps w <? slippageBps)%float || (slippageBps <? 1)%float.

Definition with_calls (st : State) (extra : list Call) : State :=
  {| dailyVolumeTracker := dailyVolumeTracker st; calls := calls st ++ extra |}.

Definition with_entry (st : State) (key : string) (v : DailyVolume) : State :=
  {| dailyVolumeTracker := <[key := v]> (dailyVolumeTracker st); calls := calls st |}.

(** The policy with its effects written out: which result comes back and
    which state is left, as a function of what the world answers. *)
Definition guardrails_outcome (w : World) (params : Policy.TradingParams) (st : State)
  : completion Policy.PolicyValidationResult * State :=
  let tokenIn := Policy.tokenIn params in
  let tokenOut := Policy.tokenOut params in
  let amountIn := Policy.amountIn params in
  let walletAddress := Policy.walletAddress params in
  let slippageValidation := Policy.validateSlippage w (Policy.slippageBps params) in
  let queried := whitelist_calls w tokenIn tokenOut in
  let priced := (queried ++ [Call_token_price (join_comma [tokenIn; tokenOut])])%list in
  if negb (Policy.isValid slippageValidation) then (Returned slippageValidation, st)
  else if negb (whitelist_answer w tokenIn tokenOut) then
    (Returned {| Policy.isValid := false;
                 Policy.reason := Some "One or both tokens not whitelisted";
                 Policy.details := Some (Policy.TokensDetails tokenIn tokenOut) |},
     with_calls st queried)
  else
    match BigInt_of_string amountIn with
    | Thrown e =>
        (Returned {| Policy.isValid := false;
                     Policy.reason := Some "Validation error occurred";
                     Policy.details := Some (Policy.ErrorDetails (error_message e)) |},
         with_calls st priced)
    | Returned amountInBigInt =>
        let price := Policy.tokenInPrice (price_answer w [tokenIn; tokenOut]) tokenIn in
        let tradeValueUsd := Policy.tradeValueUsd amountInBigInt price in
        let running := running_total w walletAddress st in
        let newTotal := (running + tradeValueUsd)%float in
        let info :=
          Some (Policy.VolumeDetails running tradeValueUsd newTotal (maxDailyVolumeUsd w)) in
        if (maxDailyVolumeUsd w <? newTotal)%float then
          (Returned {| Policy.isValid := false;
                       Policy.reason := Some "Daily volume limit exceeded";
                       Policy.details := info |},
           with_calls st priced)
        else
          let committed :=
            with_entry (with_calls st priced) (Policy.trackerKey walletAddress (today w))
              {| date := today w; volume := newTotal |} in
          if amountInBigInt <=? 0 then
            (Returned {| Policy.isValid := false;
                         Policy.reason := Some "Invalid trade amount";
                         Policy.details := Some (Policy.AmountDetails amountIn) |},
             committed)
          else if String.eqb tokenIn tokenOut then
            (Returned {| Policy.isValid := false;
                         Policy.reason := Some "Cannot swap token to itself";
                         Policy.details := Some (Policy.TokensDetails tokenIn tokenOut) |},
             committed)
          else
            (Returned {| Policy.isValid := true;
                         Policy.reason := None;
                         Policy.details :=
                           Some (Policy.PassedDetails true
                                   (Policy.details slippageValidation) info
                                   tradeValueUsd (now_iso w)) |},
             committed)
    end.

(** ** Sample worlds *)

Module Sample.

Definition env_dev : Env :=
  {| TOKEN_WHITELIST_CONTRACT := None;
     MAX_DAILY_VOLUME_USD := None;
     MAX_SLIPPAGE_BPS := None;
     LIT_PKP_PUBLIC_KEY := Some "0x04pkp";
     UNISWAP_V3_ROUTER := Some "0xE592427A0AEce92De3Edee1F18E0157C05861564" |}.

Definition env_prod : Env :=
  {| TOKEN_WHITELIST_CONTRACT := Some "0xWhitelist";
     MAX_DAILY_VOLUME_USD := None;
     MAX_SLIPPAGE_BPS := None;
     LIT_PKP_PUBLIC_KEY := Some "0x04pkp";
     UNISWAP_V3_ROUTER := Some "0xE592427A0AEce92De3Edee1F18E0157C05861564" |}.

Definition USDC : string := "0x2791Bca1f2de4661ED88A30C99A7a9449Aa84174".
Definition WETH : string := "0x7ceB23fD6bC0adD59E62ac25578270cFf1b9f619".
Definition wallet : string := "0x1111111111111111111111111111111111111111".

(** A receipt without any log, and a transaction that confirms with it. *)
Definition receipt_no_logs : Ethers.TransactionReceipt :=
  {| Ethers.hash := "0xswap"; Ethers.gasUsed := Some 150000;
     Ethers.blockNumber := 57000000; Ethers.logs := [] |}.

Definition tx_confirmed : Ethers.TransactionResponse :=
  {| Ethers.tx_hash := "0xswap"; Ethers.wait := Returned receipt_no_logs |}.

(** A world in which every collaborator answers; the price oracle knows
    no token. *)
Definition world (e : Env) : World :=
  {| env := e;
     now_iso := "2024-05-01T10:20:30.000Z";
     now_ms := 1714558830000;
     isWhitelisted := fun _ => Returned true;
     token_price := fun _ => Returned ∅;
     lit_connect := Returned tt;
     pkp_init := Returned tt;
     pkp_getAddress := Returned wallet;
     erc20_decimals := fun _ => Returned 18;
     erc20_balanceOf := fun _ _ => Returned (10 ^ 24);
     erc20_approve := fun _ _ _ => Returned tx_confirmed;
     exactInputSingle := fun _ _ => Returned tx_confirmed |}.

(** The same with a whitelist contract whose node is unreachable. *)
Definition world_whitelist_down : World :=
  {| env := env_prod;
     now_iso := "2024-05-01T10:20:30.000Z";
     now_ms := 1714558830000;
     isWhitelisted := fun _ => Thrown (ErrorObj "could not detect network");
     token_price := fun _ => Returned ∅;
     lit_connect := Returned tt;
     pkp_init := Returned tt;
     pkp_getAddress := Returned wallet;
     erc20_decimals := fun _ => Returned 18;
     erc20_balanceOf := fun _ _ => Returned (10 ^ 24);
     erc20_approve := fun _ _ _ => Returned tx_confirmed;
     exactInputSingle := fun _ _ => Returned tx_confirmed |}.

Definition fresh : State := {| dailyVolumeTracker := ∅; calls := [] |}.

(** The wallet has already traded 9000 USD today. *)
Definition traded_9000 : State :=
  {| dailyVolumeTracker :=
       {[ Policy.trackerKey wallet "2024-05-01" := {| date := "2024-05-01"; volume := 9000 |} ]};
     calls := [] |}.

Definition intent (tokenIn tokenOut amountIn : string) (slippageBps : number)
  : Policy.TradingParams :=
  {| Policy.tokenIn := tokenIn;
     Policy.tokenOut := tokenOut;
     Policy.amountIn := amountIn;
     Policy.slippageBps := slippageBps;
     Policy.walletAddress := wallet |}.

End Sample.


Definition is_digit (c : ascii) : bool :=
  let n := nat_of_ascii c in ((48 <=? n) && (n <=? 57))%nat.

(** The calendar day of [toISOString()]: [YYYY-MM-DD], and [+YYYYYY-MM-DD]
    or [-YYYYYY-MM-DD] for a year outside 0..9999. *)
Definition iso_day (d : string) : bool :=
  match list_ascii_of_string d with
  | [y1; y2; y3; y4; h1; m1; m2; h2; d1; d2] =>
      forallb is_digit [y1; y2; y3; y4; m1; m2; d1; d2]
      && Ascii.eqb h1 "-" && Ascii.eqb h2 "-"
  | [sg; y1; y2; y3; y4; y5; y6; h1; m1; m2; h2; d1; d2] =>
      (Ascii.eqb sg "+" || Ascii.eqb sg "-")
      && forallb is_digit [y1; y2; y3; y4; y5; y6; m1; m2; d1; d2]
      && Ascii.eqb h1 "-" && Ascii.eqb h2 "-"
  | _ => false
  end.

(** The world [w] with a price oracle that answers [table]. *)
Definition with_price_table (w : World) (table : gmap string TokenPrice) : World :=
  {| env := env w;
     now_iso := now_iso w;
     now_ms := now_ms w;
     isWhitelisted := isWhitelisted w;
     token_price := fun _ => Returned table;
     lit_connect := lit_connect w;
     pkp_init := pkp_init w;
     pkp_getAddress := pkp_getAddress w;
     erc20_decimals := erc20_decimals w;
     erc20_balanceOf := erc20_balanceOf w;
     erc20_approve := erc20_approve w;
     exactInputSingle := exactInputSingle w |}.


(** The submission of a swap to the router. *)
Definition is_swap_call (c : Call) : bool :=
  match c with
  | Call_exactInputSingle _ _ => true
  | _ => false
  end.

Definition no_swap_call (l : list Call) : bool :=
  forallb (fun c => negb (is_swap_call c)) l.

(** The calls made between two states. *)
Definition calls_since (st st' : State) : list Call :=
  drop (length (calls st)) (calls st').

(** What [executeSwap] hands to the router for an amount and a minimum. *)
Definition swapParams (w : World) (params : Swap.SwapParams) (amountInBigInt minimum : Z)
  : Router.ExactInputSingleParams :=
  {| Router.tokenIn := Swap.tokenIn params;
     Router.tokenOut := Swap.tokenOut params;
     Router.fee := 3000;
     Router.recipient := Swap.recipient params;
     Router.deadline := now_ms w / 1000 + 600;
     Router.amountIn := amountInBigInt;
     Router.amountOutMinimum := minimum;
     Router.sqrtPriceLimitX96 := 0 |}.

(** What [executeSwap] returns once the swap has been handed to the
    router, as a function of the router's answer: steps 6 and 7 together
    with the [catch] clause. *)
Definition settled (amountInBigInt : Z) (answer : completion Ethers.TransactionResponse)
  : Swap.SwapResult :=
  match answer with
  | Thrown e => Swap.failure (error_message e)
  | Returned swapTx =>
      match Ethers.wait swapTx with
      | Thrown e => Swap.failure (error_message e)
      | Returned receipt =>
          let estimated := Swap.estimatedAmountOut amountInBigInt in
          let actual := Swap.actualAmountOut receipt in
          let done slippage :=
            {| Swap.success := true;
               Swap.txHash := Some (Ethers.hash receipt);
               Swap.amountOut := Some actual;
               Swap.gasUsed := option_map bigint_toString (Ethers.gasUsed receipt);
               Swap.effectiveSlippage := Some slippage;
               Swap.error := None |} in
          if negb (String.eqb actual "0") then
            match BigInt_of_string actual with
            | Thrown e => Swap.failure (error_message e)
            | Returned actualBigInt =>
                match bigint_div ((estimated - actualBigInt) * 10000) estimated with
                | Thrown e => Swap.failure (error_message e)
                | Returned ratio => done (Number_of_bigint ratio / 100)%float
                end
            end
          else done 0%float
      end
  end.


(** For an integer slippage [s], [BigInt(10000 - s)] is [10000 - s]. *)
Definition multiplier_exact (s : Z) : bool :=
  match BigInt_of_number (10000 - Number_of_bigint s)%float with
  | Returned k => k =? 10000 - s
  | Thrown _ => false
  end.

(** ** Further notions: the ledger, the executor path by path *)

(** No stored running total exceeds the limit. *)
Definition within_limit (limit : number) (st : State) : Prop :=
  forall key entry,
    dailyVolumeTracker st !! key = Some entry -> (limit <? volume entry)%float = false.

(** The USD value the policy gives to an intent whose amount is [a]. *)
Definition intent_value (w : World) (params : Policy.TradingParams) (a : Z) : number :=
  Policy.tradeValueUsd a
    (Policy.tokenInPrice
       (price_answer w [Policy.tokenIn params; Policy.tokenOut params])
       (Policy.tokenIn params)).

(** What [initializeLitWallet] settles to and the calls it makes. *)
Definition lit_outcome (w : World) : completion Swap.PKPEthersWallet * list Call :=
  let failed (e : thrown) : completion Swap.PKPEthersWallet :=
    Thrown (ErrorObj ("Lit wallet initialization failed: " +:+ error_message e)) in
  match lit_connect w with
  | Thrown e => (failed e, [Call_lit_connect])
  | Returned _ =>
      if negb (truthy_env (LIT_PKP_PUBLIC_KEY (env w))) then
        (failed (ErrorObj "LIT_PKP_PUBLIC_KEY not configured"), [Call_lit_connect])
      else
        match pkp_init w with
        | Thrown e => (failed e, [Call_lit_connect; Call_pkp_init])
        | Returned _ =>
            match pkp_getAddress w with
            | Thrown e => (failed e, [Call_lit_connect; Call_pkp_init; Call_pkp_getAddress])
            | Returned _ =>
                (Returned Swap.pkpWallet,
                 [Call_lit_connect; Call_pkp_init; Call_pkp_getAddress])
            end
        end
  end.

(** The intent [executeSwap] submits to the policy for a wallet address. *)
Definition policy_params (params : Swap.SwapParams) (walletAddress : string)
  : Policy.TradingParams :=
  {| Policy.tokenIn := Swap.tokenIn params;
     Policy.tokenOut := Swap.tokenOut params;
     Policy.amountIn := Swap.amountIn params;
     Policy.slippageBps := Swap.slippageBps params;
     Policy.walletAddress := walletAddress |}.

(** The calls by which the wallet is obtained, when it is obtained. *)
Definition wallet_calls : list Call :=
  [Call_lit_connect; Call_pkp_init; Call_pkp_getAddress; Call_pkp_getAddress].

(** The wallet is obtained and its address is [walletAddress]. *)
Definition wallet_ready (w : World) (walletAddress : string) : Prop :=
  (exists u, lit_connect w = Returned u)
  /\ truthy_env (LIT_PKP_PUBLIC_KEY (env w)) = true
  /\ (exists u, pkp_init w = Returned u)
  /\ pkp_getAddress w = Returned walletAddress.

(** [executeSwap] with its effects written out, path by path: the result
    and the state left, as a function of what the world answers. *)
Definition swap_outcome (w : World) (params : Swap.SwapParams) (st : State)
  : completion Swap.SwapResult * State :=
  let tokenIn := Swap.tokenIn params in
  let amountIn := Swap.amountIn params in
  let caught (e : thrown) : completion Swap.SwapResult :=
    Returned (Swap.failure (error_message e)) in
  match lit_outcome w with
  | (Thrown e, started) => (caught e, with_calls st started)
  | (Returned _, started) =>
  match pkp_getAddress w with
  | Thrown e => (caught e, with_calls st (started ++ [Call_pkp_getAddress]))
  | Returned walletAddress =>
  match Policy.validateTradingGuardrails w (policy_params params walletAddress)
          (with_calls st (started ++ [Call_pkp_getAddress])) with
  | (Thrown e, checked) => (caught e, checked)
  | (Returned policyValidation, checked) =>
  if negb (Policy.isValid policyValidation) then
    (Returned (Swap.failure ("Policy validation failed: "
                               +:+ default "undefined" (Policy.reason policyValidation))),
     checked)
  else
  let read := [Call_decimals tokenIn; Call_balanceOf tokenIn walletAddress] in
  match erc20_decimals w tokenIn, erc20_balanceOf w tokenIn walletAddress with
  | Thrown e, _ => (caught e, with_calls checked read)
  | Returned _, Thrown e => (caught e, with_calls checked read)
  | Returned _, Returned balance =>
  match BigInt_of_string amountIn with
  | Thrown e => (caught e, with_calls checked read)
  | Returned amountInBigInt =>
  if balance <? amountInBigInt then
    (Returned (Swap.failure ("Insufficient balance. Required: " +:+ amountIn
                               +:+ ", Available: " +:+ bigint_toString balance)),
     with_calls checked read)
  else if negb (truthy_env (UNISWAP_V3_ROUTER (env w))) then
    (Returned (Swap.failure "UNISWAP_V3_ROUTER not configured"), with_calls checked read)
  else
  let routerAddress := default "" (UNISWAP_V3_ROUTER (env w)) in
  let approve := Call_approve tokenIn routerAddress amountInBigInt in
  match erc20_approve w tokenIn routerAddress amountInBigInt with
  | Thrown e => (caught e, with_calls checked (read ++ [approve]))
  | Returned approveTx =>
  let approved := (read ++ [approve; Call_wait (Ethers.tx_hash approveTx)])%list in
  match Ethers.wait approveTx with
  | Thrown e => (caught e, with_calls checked approved)
  | Returned _ =>
  match Swap.calculateMinAmountOut (Swap.estimatedAmountOut amountInBigInt)
          (Swap.slippageBps params) with
  | Thrown e => (caught e, with_calls checked approved)
  | Returned minimum =>
  let sp := swapParams w params amountInBigInt minimum in
  let answer := exactInputSingle w routerAddress sp in
  (Returned (settled amountInBigInt answer),
   with_calls checked
     (approved ++ Call_exactInputSingle routerAddress sp
        :: match answer with
           | Returned swapTx => [Call_wait (Ethers.tx_hash swapTx)]
           | Thrown _ => []
           end))
  end end end end end end end end.

(** Calls to the token contract, to the router, or waiting for a
    transaction. *)
Definition is_chain_call (c : Call) : bool :=
  match c with
  | Call_decimals _ | Call_balanceOf _ _ | Call_approve _ _ _
  | Call_wait _ | Call_exactInputSingle _ _ => true
  | _ => false
  end.

(** A swap request of the samples: one WETH-sized unit of USDC at 3%. *)
Definition sample_swap (amountIn : string) : Swap.SwapParams :=
  {| Swap.tokenIn := Sample.USDC; Swap.tokenOut := Sample.WETH;
     Swap.amountIn := amountIn; Swap.slippageBps := 300;
     Swap.recipient := Sample.wallet |}.

(** The world [w] with a token balance of [balance] for every account,
    and with a router whose swaps confirm with [receipt]. *)
Definition with_balance (w : World) (balance : Z) : World :=
  {| env := env w; now_iso := now_iso w; now_ms := now_ms w;
     isWhitelisted := isWhitelisted w; token_price := token_price w;
     lit_connect := lit_connect w; pkp_init := pkp_init w;
     pkp_getAddress := pkp_getAddress w;
     erc20_decimals := erc20_decimals w;
     erc20_balanceOf := fun _ _ => Returned balance;
     erc20_approve := erc20_approve w;
     exactInputSingle := exactInputSingle w |}.

Definition with_receipt (w : World) (receipt : Ethers.TransactionReceipt) : World :=
  {| env := env w; now_iso := now_iso w; now_ms := now_ms w;
     isWhitelisted := isWhitelisted w; token_price := token_price w;
     lit_connect := lit_connect w; pkp_init := pkp_init w;
     pkp_getAddress := pkp_getAddress w;
     erc20_decimals := erc20_decimals w;
     erc20_balanceOf := erc20_balanceOf w;
     erc20_approve := erc20_approve w;
     exactInputSingle := fun _ _ =>
       Returned {| Ethers.tx_hash := Ethers.hash receipt;
                   Ethers.wait := Returned receipt |} |}.

(** A receipt with an approval-like log followed by two Transfer logs. *)
Definition receipt_two_transfers : Ethers.TransactionReceipt :=
  {| Ethers.hash := "0xswap"; Ethers.gasUsed := Some 150000;
     Ethers.blockNumber := 57000000;
     Ethers.logs :=
       [ {| Ethers.topics := ["0x8c5be1e5ebec7d5bd14f71427d1e84f3dd0314c0f7b2291e5b200ac8c7c3b925"];
            Ethers.data := "0x01" |};
         {| Ethers.topics := [Swap.Transfer_topic]; Ethers.data := "0x0de0b6b3a7640000" |};
         {| Ethers.topics := [Swap.Transfer_topic]; Ethers.data := "0x0c7d713b49da0000" |} ] |}.

(** A configuration without the PKP public key. *)
Definition env_no_key : Env :=
  {| TOKEN_WHITELIST_CONTRACT := None;
     MAX_DAILY_VOLUME_USD := None;
     MAX_SLIPPAGE_BPS := None;
     LIT_PKP_PUBLIC_KEY := None;
     UNISWAP_V3_ROUTER := Some "0xE592427A0AEce92De3Edee1F18E0157C05861564" |}.

(** ** vincentSwapTool: the tool that wraps [executeSwap] *)

(** [ToBoolean] on a string, and [v || d] on an optional string. *)
Definition truthy_string (s : string) : bool :=
  match s with
  | EmptyString => false
  | String _ _ => true
  end.

Definition string_or (v : option string) (d : string) : string :=
  match v with
  | Some (String c r) => String c r
  | _ => d
  end.

Module Tool.

Record Output : Type := {
  txHash : string;
  amountOut : string;
  gasUsed : option string;
  effectiveSlippage : option number;
  timestamp : string }.

Definition is_hex_digit (c : ascii) : bool :=
  let n := nat_of_ascii c in
  (((48 <=? n) && (n <=? 57)) || ((97 <=? n) && (n <=? 102))
   || ((65 <=? n) && (n <=? 70)))%nat.

Fixpoint all_hex (s : string) : bool :=
  match s with
  | EmptyString => true
  | String c r => is_hex_digit c && all_hex r
  end.

(** [/^0x[a-fA-F0-9]{40}$/.test(s)] *)
Definition is_address (s : string) : bool :=
  match s with
  | String "0" (String "x" r) => (String.length r =? 40)%nat && all_hex r
  | _ => false
  end.

Local Open Scope js_scope.

(** The tool's [execute]. *)
Definition execute (w : World) (inputData : Swap.SwapParams) : M Output :=
  let tokenIn := Swap.tokenIn inputData in
  let tokenOut := Swap.tokenOut inputData in
  let amountIn := Swap.amountIn inputData in
  let slippageBps := Swap.slippageBps inputData in
  let recipient := Swap.recipient inputData in
  try_catch
    ((* Input validation *)
     if negb (truthy_string tokenIn) || negb (truthy_string tokenOut)
        || negb (truthy_string amountIn) || negb (truthy_string recipient) then
       throw (ErrorObj "Missing required swap parameters")
     else if String.eqb tokenIn tokenOut then
       throw (ErrorObj "Cannot swap token to itself")
     else if negb (is_address tokenIn) then
       throw (ErrorObj ("Invalid tokenIn address: " +:+ tokenIn))
     else if negb (is_address tokenOut) then
       throw (ErrorObj ("Invalid tokenOut address: " +:+ tokenOut))
     else if negb (is_address recipient) then
       throw (ErrorObj ("Invalid recipient address: " +:+ recipient))
     else
     let* amountBigInt := lift (BigInt_of_string amountIn) in
     if amountBigInt <=? 0 then
       throw (ErrorObj ("Invalid amount: " +:+ amountIn))
     else
     (* Call the Vincent tool with policy enforcement *)
     let* swapResult :=
       Swap.executeSwap w
         {| Swap.tokenIn := tokenIn;
            Swap.tokenOut := tokenOut;
            Swap.amountIn := amountIn;
            Swap.slippageBps := slippageBps;
            Swap.recipient := recipient |} in
     if negb (Swap.success swapResult) || negb (truthy_env (Swap.txHash swapResult)) then
       throw (ErrorObj (string_or (Swap.error swapResult) "Swap execution failed"))
     else
       ret {| txHash := default "" (Swap.txHash swapResult);
              amountOut := string_or (Swap.amountOut swapResult) "0";
              gasUsed := Swap.gasUsed swapResult;
              effectiveSlippage := Swap.effectiveSlippage swapResult;
              timestamp := now_iso w |})
    (fun error => throw (ErrorObj ("Vincent swap failed: " +:+ error_message error))).

End Tool.

(** ** The standalone agent: [executeTrade] and [reportTrade] *)

Module Agent.

Record Signal : Type := { signal : string; confidence : number }.

(** The variables of [process.env] that only the agent reads, and what
    the report request to the Recall platform settles to (a rejection of
    [axios.post] is an error object); that request is not among the calls
    the [State] records. *)
Record AgentEnv : Type := {
  USDC_ADDRESS : option string;
  WETH_ADDRESS : option string;
  PKP_ADDRESS : option string;
  RECALL_API_URL : option string;
  RECALL_API_KEY : option string;
  recall_post : completion unit }.

(** [tradeParams]; the amounts are [(1000 * 1e6).toString()] and
    [(0.5 * 1e18).toString()]. *)
Definition tradeParams (ae : AgentEnv) (s : Signal) : Swap.SwapParams :=
  let isBuy := String.eqb (signal s) "BUY" in
  let tokenIn := if isBuy then USDC_ADDRESS ae else WETH_ADDRESS ae in
  let tokenOut := if isBuy then WETH_ADDRESS ae else USDC_ADDRESS ae in
  let defaultTokenIn :=
    if isBuy then "0x2791Bca1f2de4661ED88A30C99A7a9449Aa84174"
    else "0x7ceB23fD6bC0adD59E62ac25578270cFf1b9f619" in
  let defaultTokenOut :=
    if isBuy then "0x7ceB23fD6bC0adD59E62ac25578270cFf1b9f619"
    else "0x2791Bca1f2de4661ED88A30C99A7a9449Aa84174" in
  {| Swap.tokenIn := string_or tokenIn defaultTokenIn;
     Swap.tokenOut := string_or tokenOut defaultTokenOut;
     Swap.amountIn := if isBuy then "1000000000" else "500000000000000000";
     Swap.slippageBps := 300;
     Swap.recipient :=
       string_or (PKP_ADDRESS ae) "0x0000000000000000000000000000000000000000" |}.

Local Open Scope js_scope.

Definition reportTrade (ae : AgentEnv) (tradeResult : Swap.SwapResult) (s : Signal)
  : M unit :=
  try_catch
    (if negb (truthy_env (RECALL_API_URL ae)) || negb (truthy_env (RECALL_API_KEY ae)) then
       ret tt
     else
       do lift (recall_post ae) in
       ret tt)
    (fun error => ret tt).

Definition executeTrade (w : World) (ae : AgentEnv) (s : Signal) : M unit :=
  try_catch
    (let tradeParams := tradeParams ae s in
     (* Validate trade through Vincent policies *)
     let* validation :=
       Policy.validateTradingGuardrails w
         (policy_params tradeParams (Swap.recipient tradeParams)) in
     if negb (Policy.isValid validation) then ret tt
     else
     (* Execute the swap *)
     let* result := Swap.executeSwap w tradeParams in
     if Swap.success result then reportTrade ae result s
     else ret tt)
    (fun error => ret tt).

End Agent.

(** An agent configured with the sample wallet only, and a sell signal. *)
Definition sample_agent : Agent.AgentEnv :=
  {| Agent.USDC_ADDRESS := None; Agent.WETH_ADDRESS := None;
     Agent.PKP_ADDRESS := Some Sample.wallet;
     Agent.RECALL_API_URL := None; Agent.RECALL_API_KEY := None;
     Agent.recall_post := Returned tt |}.

Definition sell : Agent.Signal := {| Agent.signal := "SELL"; Agent.confidence := 0.5 |}.

(** * Properties *)

(** ** The builtins on sample values *)

Example BigInt_dec : BigInt_of_string "500000000000000000000" = Returned 500000000000000000000.
Proof. reflexivity. Qed.
Example BigInt_neg : BigInt_of_string " -42 " = Returned (-42).
Proof. reflexivity. Qed.
Example BigInt_hex : BigInt_of_string "0x00ff" = Returned 255.
Proof. reflexivity. Qed.
Example BigInt_empty : BigInt_of_string "" = Returned 0.
Proof. reflexivity. Qed.
Example BigInt_bad : exists e, BigInt_of_string "1.5" = Thrown e.
Proof. eexists. reflexivity. Qed.
Example BigInt_bad_hex : exists e, BigInt_of_string "0x" = Thrown e.
Proof. eexists. reflexivity. Qed.
Example BigInt_9700 : BigInt_of_number (10000 - 300)%float = Returned 9700.
Proof. vm_compute. reflexivity. Qed.
Example BigInt_frac : exists e, BigInt_of_number (10000 - 1.5)%float = Thrown e.
Proof. eexists. vm_compute. reflexivity. Qed.
Example Number_5e20 : Number_of_bigint 500000000000000000000 = 5e20%float.
Proof. vm_compute. reflexivity. Qed.
Example toString_neg : bigint_toString (-1200) = "-1200".
Proof. reflexivity. Qed.
Example lower_addr : toLowerCase "0xAbCd" = "0xabcd".
Proof. reflexivity. Qed.
Example before_T_iso : before_T "2024-05-01T10:20:30.000Z" = "2024-05-01".
Proof. reflexivity. Qed.

(** ** [BigInt] reads back what [toString] prints *)

Lemma digits_value_uint (d acc : Decimal.uint) :
  digits_value 10 (Z.of_N (Unsigned.of_lu acc)) (NilEmpty.string_of_uint d)
  = Some (Z.of_N (Unsigned.of_lu (Decimal.revapp d acc))).
Proof.
  revert acc. induction d as [|d IH|d IH|d IH|d IH|d IH|d IH|d IH|d IH|d IH|d IH];
    intros acc; [reflexivity|..];
    cbn [NilEmpty.string_of_uint digits_value Decimal.revapp];
    change (digit_value _) with (Some 0) || change (digit_value _) with (Some 1)
    || change (digit_value _) with (Some 2) || change (digit_value _) with (Some 3)
    || change (digit_value _) with (Some 4) || change (digit_value _) with (Some 5)
    || change (digit_value _) with (Some 6) || change (digit_value _) with (Some 7)
    || change (digit_value _) with (Some 8) || change (digit_value _) with (Some 9);
    cbn [Z.ltb Z.compare Pos.compare Pos.compare_cont]; rewrite <- IH; f_equal;
    cbn [Unsigned.of_lu]; lia.
Qed.

Lemma trim_end_uint (d : Decimal.uint) :
  trim_end (NilEmpty.string_of_uint d) = NilEmpty.string_of_uint d.
Proof.
  induction d as [|d IH|d IH|d IH|d IH|d IH|d IH|d IH|d IH|d IH|d IH];
    [reflexivity|..];
    cbn [NilEmpty.string_of_uint trim_end]; rewrite IH;
    by destruct (NilEmpty.string_of_uint d).
Qed.

Lemma BigInt_of_uint (d : Decimal.uint) :
  d <> Decimal.Nil ->
  BigInt_of_string (NilEmpty.string_of_uint d) = Returned (Z.of_uint d)
  /\ BigInt_of_string (String "-" (NilEmpty.string_of_uint d)) = Returned (- Z.of_uint d).
Proof.
  intros Hd.
  assert (digits 10 (NilEmpty.string_of_uint d) = Some (Z.of_uint d)) as Hdigits.
  { unfold digits, Z.of_uint. rewrite Unsigned.of_uint_alt.
    pose proof (digits_value_uint d Decimal.Nil) as H. cbn [Unsigned.of_lu Z.of_N] in H.
    destruct d; [by destruct Hd|exact H..]. }
  split.
  - unfold BigInt_of_string.
    assert (trim_start (NilEmpty.string_of_uint d) = NilEmpty.string_of_uint d) as ->
      by (by destruct d).
    rewrite trim_end_uint.
    destruct d as [|d|d|d|d|d|d|d|d|d|d]; [by destruct Hd|..];
      try (cbn [NilEmpty.string_of_uint] in *; rewrite Hdigits; f_equal; lia).
    destruct d; cbn [NilEmpty.string_of_uint] in *; rewrite Hdigits; f_equal; lia.
  - unfold BigInt_of_string.
    change (trim_start (String "-" ?s)) with (String "-" s).
    cbn [trim_end]. rewrite trim_end_uint.
    destruct (NilEmpty.string_of_uint d) eqn:Hs; [by destruct d|].
    cbv beta iota zeta. rewrite Hdigits. f_equal; lia.
Qed.

(** [BigInt(z.toString())] is [z]: the balance that [getTokenInfo] prints
    is read back unchanged by [executeSwap]. *)
Lemma BigInt_of_toString (z : Z) : BigInt_of_string (bigint_toString z) = Returned z.
Proof.
  unfold bigint_toString. destruct z as [|p|p]; [reflexivity|..];
    cbn [Z.to_int NilZero.string_of_int];
    pose proof (Unsigned.to_uint_nonnil p) as Hp;
    destruct (BigInt_of_uint (Pos.to_uint p) Hp) as [Hpos Hneg];
    unfold NilZero.string_of_uint;
    destruct (Pos.to_uint p) eqn:E; try (by destruct Hp);
    rewrite ?Hpos, ?Hneg; f_equal; unfold Z.of_uint; rewrite <- E, Unsigned.of_to;
    reflexivity.
Qed.

Lemma getTokenInfo_balance w tokenAddress walletAddress st info st' amount :
  Swap.getTokenInfo w tokenAddress walletAddress st = (Returned info, st') ->
  erc20_balanceOf w tokenAddress walletAddress = Returned amount ->
  BigInt_of_string (Swap.balance info) = Returned amount.
Proof.
  unfold Swap.getTokenInfo, bind, Promise_all2, ret, call. intros Hrun Hbalance.
  rewrite Hbalance in Hrun.
  destruct (erc20_decimals w tokenAddress); [|discriminate].
  injection Hrun as <- _. apply BigInt_of_toString.
Qed.

(** ** How each step of the policy runs *)

Lemma with_calls_nil st : with_calls st [] = st.
Proof. destruct st; unfold with_calls; cbn. by rewrite app_nil_r. Qed.

Lemma with_calls_app st l1 l2 : with_calls (with_calls st l1) l2 = with_calls st (l1 ++ l2).
Proof. unfold with_calls; cbn. by rewrite app_assoc. Qed.

Lemma call_run {A} (ev : Call) (answer : completion A) st :
  call ev answer st = (answer, with_calls st [ev]).
Proof. reflexivity. Qed.

Lemma validateTokenWhitelist_run w tokenIn tokenOut st :
  Policy.validateTokenWhitelist w tokenIn tokenOut st
  = (Returned (whitelist_answer w tokenIn tokenOut),
     with_calls st (whitelist_calls w tokenIn tokenOut)).
Proof.
  unfold Policy.validateTokenWhitelist, whitelist_answer, whitelist_calls,
    whitelist_configured, try_catch, bind, Promise_all2, ret.
  destruct (truthy_env _); cbn [negb].
  - rewrite !call_run, with_calls_app.
    destruct (isWhitelisted w tokenIn), (isWhitelisted w tokenOut); reflexivity.
  - by rewrite with_calls_nil.
Qed.

Lemma getTokenPrices_run w tokenAddresses st :
  Policy.getTokenPrices w tokenAddresses st
  = (Returned (price_answer w tokenAddresses),
     with_calls st [Call_token_price (join_comma tokenAddresses)]).
Proof.
  unfold Policy.getTokenPrices, price_answer, try_catch. rewrite call_run.
  destruct (token_price w _); reflexivity.
Qed.

Lemma validateDailyVolumeLimit_run w walletAddress tradeValueUsd st :
  Policy.validateDailyVolumeLimit w walletAddress tradeValueUsd st
  = let running := running_total w walletAddress st in
    let newTotal := (running + tradeValueUsd)%float in
    let info := Some (Policy.VolumeDetails running tradeValueUsd newTotal (maxDailyVolumeUsd w)) in
    if (maxDailyVolumeUsd w <? newTotal)%float then
      (Returned {| Policy.isValid := false;
                   Policy.reason := Some "Daily volume limit exceeded";
                   Policy.details := info |}, st)
    else
      (Returned {| Policy.isValid := true; Policy.reason := None; Policy.details := info |},
       with_entry st (Policy.trackerKey walletAddress (today w))
         {| date := today w; volume := newTotal |}).
Proof.
  unfold Policy.validateDailyVolumeLimit, running_total, bind, tracker_get, tracker_set, ret.
  cbn. destruct (_ <? _)%float; reflexivity.
Qed.

Lemma running_total_with_calls w walletAddress st extra :
  running_total w walletAddress (with_calls st extra) = running_total w walletAddress st.
Proof. reflexivity. Qed.

(** The embedding of [validateTradingGuardrails] runs as
    [guardrails_outcome] says. *)
Lemma guardrails_run w params st :
  Policy.validateTradingGuardrails w params st = guardrails_outcome w params st.
Proof.
  unfold Policy.validateTradingGuardrails, guardrails_outcome, try_catch.
  destruct (Policy.isValid (Policy.validateSlippage w _)); cbn [negb]; [|reflexivity].
  unfold bind at 1. rewrite validateTokenWhitelist_run.
  destruct (whitelist_answer w _ _); cbn [negb]; [|reflexivity].
  unfold bind at 1. rewrite getTokenPrices_run, with_calls_app.
  unfold bind at 1, lift at 1.
  destruct (BigInt_of_string _) as [a|e]; [|reflexivity].
  unfold bind at 1. rewrite validateDailyVolumeLimit_run, running_total_with_calls.
  cbv zeta.
  destruct (_ <? _)%float; cbn [negb Policy.isValid]; [reflexivity|].
  destruct (a <=? 0); [reflexivity|].
  destruct (String.eqb _ _); reflexivity.
Qed.

(** ** Slippage bounds *)

Lemma Prim2SF_one : Prim2SF 1 = S754_finite false 4503599627370496 (-52).
Proof. vm_compute. reflexivity. Qed.

(** On binary64 numbers, [s < 1] and [1 <= m] exclude [m < s]. *)
Lemma below_one_not_above (s m : number) :
  (s <? 1)%float = true -> (1 <=? m)%float = true -> (m <? s)%float = false.
Proof.
  rewrite !ltb_spec, leb_spec, Prim2SF_one.
  unfold SFltb, SFleb.
  generalize 4503599627370496%positive as one_m. intros one_m.
  destruct (Prim2SF s) as [ | [] | | [] ms es], (Prim2SF m) as [ | [] | | [] mm em];
    cbn [SFcompare]; try discriminate; try reflexivity.
  change (PosDef.Pos.compare_cont Eq) with Pos.compare.
  destruct (Z.compare_spec es (-52)), (Z.compare_spec (-52) em), (Z.compare_spec em es);
    try discriminate; try reflexivity; try lia.
  destruct (Pos.compare_spec ms one_m), (Pos.compare_spec one_m mm), (Pos.compare_spec mm ms);
    try discriminate; try reflexivity; try lia.
Qed.

Lemma validateSlippage_above w s :
  (maxSlippageBps w <? s)%float = true ->
  Policy.validateSlippage w s
  = {| Policy.isValid := false;
       Policy.reason := Some "Slippage exceeds maximum allowed";
       Policy.details := Some (Policy.SlippageDetails s (maxSlippageBps w)) |}.
Proof. intros H. unfold Policy.validateSlippage. by rewrite H. Qed.

Lemma validateSlippage_below w s :
  (maxSlippageBps w <? s)%float = false -> (s <? 1)%float = true ->
  Policy.validateSlippage w s
  = {| Policy.isValid := false;
       Policy.reason := Some "Slippage too low (unrealistic)";
       Policy.details := Some (Policy.SlippageLowDetails s 1) |}.
Proof. intros H1 H2. unfold Policy.validateSlippage. by rewrite H1, H2. Qed.

Lemma validateSlippage_valid w s :
  Policy.isValid (Policy.validateSlippage w s) = negb (slippage_outside w s).
Proof.
  unfold Policy.validateSlippage, slippage_outside.
  destruct (_ <? s)%float; [reflexivity|]. destruct (s <? 1)%float; reflexivity.
Qed.

(** C4: a slippage outside [1, maxSlippageBps] is rejected at the first
    step, with "Slippage exceeds maximum allowed" above the maximum and
    "Slippage too low (unrealistic)" below 1, and the state (the ledger,
    and the calls made) is left as it was. *)
Theorem slippage_out_of_bounds_rejected (w : World) (params : Policy.TradingParams)
    (st : State) :
  let s := Policy.slippageBps params in
  slippage_outside w s = true ->
  exists r,
    Policy.validateTradingGuardrails w params st = (Returned r, st)
    /\ Policy.isValid r = false
    /\ ((maxSlippageBps w <? s)%float = true ->
        r = {| Policy.isValid := false;
               Policy.reason := Some "Slippage exceeds maximum allowed";
               Policy.details := Some (Policy.SlippageDetails s (maxSlippageBps w)) |})
    /\ ((s <? 1)%float = true ->
        (maxSlippageBps w <? s)%float = false \/ (1 <=? maxSlippageBps w)%float = true ->
        r = {| Policy.isValid := false;
               Policy.reason := Some "Slippage too low (unrealistic)";
               Policy.details := Some (Policy.SlippageLowDetails s 1) |}).
Proof.
  intros s Hout. exists (Policy.validateSlippage w s).
  rewrite guardrails_run. unfold guardrails_outcome. fold s.
  rewrite validateSlippage_valid, Hout. cbn [negb].
  repeat split.
  - apply validateSlippage_above.
  - intros Hlow Hmax. apply validateSlippage_below; [|exact Hlow].
    destruct Hmax as [Hmax|Hmax]; [exact Hmax|]. by apply below_one_not_above.
Qed.

Lemma slippage_out_of_bounds_rejected_witness :
  let w := Sample.world Sample.env_dev in
  let high := Sample.intent Sample.USDC Sample.WETH "1000000" 301 in
  let low := Sample.intent Sample.USDC Sample.WETH "1000000" 0.5 in
  (exists r, Policy.validateTradingGuardrails w high Sample.traded_9000
             = (Returned r, Sample.traded_9000)
             /\ Policy.reason r = Some "Slippage exceeds maximum allowed")
  /\ (exists r, Policy.validateTradingGuardrails w low Sample.traded_9000
                = (Returned r, Sample.traded_9000)
                /\ Policy.reason r = Some "Slippage too low (unrealistic)").
Proof.
  intros w high low. split.
  - destruct (slippage_out_of_bounds_rejected w high Sample.traded_9000)
      as (r & Hrun & _ & Hhigh & _); [reflexivity|].
    exists r. split; [exact Hrun|]. by rewrite Hhigh.
  - destruct (slippage_out_of_bounds_rejected w low Sample.traded_9000)
      as (r & Hrun & _ & _ & Hlow); [reflexivity|].
    exists r. split; [exact Hrun|]. rewrite Hlow; [reflexivity..|].
    right. reflexivity.
Defined.

(** A slippage that is not a number compares neither way: it is neither
    above the maximum nor below 1, and the slippage step lets it through. *)
Example nan_slippage_is_not_outside :
  slippage_outside (Sample.world Sample.env_dev) nan = false
  /\ Policy.isValid (Policy.validateSlippage (Sample.world Sample.env_dev) nan) = true.
Proof. split; reflexivity. Qed.

(** ** The whitelist check *)

(** C5: the whitelist check fails open when the contract address is not
    configured (no rejection on whitelist grounds, whatever the tokens, and
    no whitelist query is sent) and fails closed when the contract is
    configured and a query throws: the validation, having passed the
    slippage step, is rejected with "One or both tokens not whitelisted". *)
Theorem whitelist_fail_open_fail_closed (w : World) (params : Policy.TradingParams)
    (st : State) :
  let tokenIn := Policy.tokenIn params in
  let tokenOut := Policy.tokenOut params in
  (whitelist_configured w = false ->
   exists r st' extra,
     Policy.validateTradingGuardrails w params st = (Returned r, st')
     /\ Policy.reason r <> Some "One or both tokens not whitelisted"
     /\ calls st' = (calls st ++ extra)%list
     /\ forall token, ~ In (Call_isWhitelisted token) extra)
  /\ (whitelist_configured w = true ->
      slippage_outside w (Policy.slippageBps params) = false ->
      (exists e, isWhitelisted w tokenIn = Thrown e)
      \/ (exists e, isWhitelisted w tokenOut = Thrown e) ->
      Policy.validateTradingGuardrails w params st
      = (Returned {| Policy.isValid := false;
                     Policy.reason := Some "One or both tokens not whitelisted";
                     Policy.details := Some (Policy.TokensDetails tokenIn tokenOut) |},
         with_calls st [Call_isWhitelisted tokenIn; Call_isWhitelisted tokenOut])).
Proof.
  intros tokenIn tokenOut. subst tokenIn tokenOut. rewrite guardrails_run. split.
  - intros Hoff. unfold guardrails_outcome, whitelist_answer, whitelist_calls.
    rewrite Hoff. cbn [negb app].
    destruct (Policy.isValid (Policy.validateSlippage w _)) eqn:Hs; cbn [negb].
    + destruct (BigInt_of_string _) as [a|e].
      * cbv zeta. destruct (_ <? _)%float;
          [|destruct (a <=? 0); [|destruct (String.eqb _ _)]];
          (eexists; eexists; eexists; split; [reflexivity|]; split; [discriminate|];
           split; [reflexivity|]; intros token [[=]|[]]).
      * eexists; eexists; eexists; split; [reflexivity|]; split; [discriminate|].
        split; [reflexivity|]. intros token [[=]|[]].
    + exists (Policy.validateSlippage w (Policy.slippageBps params)), st, [].
      split; [reflexivity|]. split; [|split; [by rewrite app_nil_r | intros token []]].
      unfold Policy.validateSlippage.
      destruct (_ <? _)%float; [discriminate|]. destruct (_ <? _)%float; discriminate.
  - intros Hon Hs Hthrow. unfold guardrails_outcome.
    rewrite validateSlippage_valid, Hs. cbn [negb].
    assert (whitelist_answer w (Policy.tokenIn params) (Policy.tokenOut params) = false) as ->.
    { unfold whitelist_answer. rewrite Hon.
      destruct Hthrow as [[e ->]|[e He]]; [reflexivity|].
      rewrite He. by destruct (isWhitelisted w (Policy.tokenIn params)). }
    unfold whitelist_calls. by rewrite Hon.
Qed.

Lemma whitelist_fail_open_fail_closed_witness :
  (exists r st',
     Policy.validateTradingGuardrails (Sample.world Sample.env_dev)
       (Sample.intent Sample.USDC Sample.WETH "1000000" 50) Sample.fresh = (Returned r, st')
     /\ Policy.reason r <> Some "One or both tokens not whitelisted")
  /\ (exists r st',
        Policy.validateTradingGuardrails Sample.world_whitelist_down
          (Sample.intent Sample.USDC Sample.WETH "1000000" 50) Sample.fresh = (Returned r, st')
        /\ Policy.reason r = Some "One or both tokens not whitelisted").
Proof.
  split.
  - destruct (whitelist_fail_open_fail_closed (Sample.world Sample.env_dev)
                (Sample.intent Sample.USDC Sample.WETH "1000000" 50) Sample.fresh)
      as [Hopen _].
    destruct Hopen as (r & st' & extra & Hrun & Hreason & _); [reflexivity|].
    exists r, st'. split; [exact Hrun | exact Hreason].
  - destruct (whitelist_fail_open_fail_closed Sample.world_whitelist_down
                (Sample.intent Sample.USDC Sample.WETH "1000000" 50) Sample.fresh)
      as [_ Hclosed].
    eexists. eexists. split; [apply Hclosed|reflexivity].
    + reflexivity.
    + reflexivity.
    + left. eexists. reflexivity.
Defined.

(** ** The ledger and the checks that come after it *)

(** A rejection for any reason other than the two Step 5 guards leaves the
    ledger as it was. *)
Lemma rejected_before_commit_ledger_unchanged w params st r st' :
  Policy.validateTradingGuardrails w params st = (Returned r, st') ->
  Policy.isValid r = false ->
  Policy.reason r <> Some "Invalid trade amount" ->
  Policy.reason r <> Some "Cannot swap token to itself" ->
  dailyVolumeTracker st' = dailyVolumeTracker st.
Proof.
  rewrite guardrails_run. unfold guardrails_outcome.
  destruct (Policy.isValid (Policy.validateSlippage w _)); cbn [negb];
    [|by intros [= <- <-]].
  destruct (whitelist_answer w _ _); cbn [negb]; [|by intros [= <- <-]].
  destruct (BigInt_of_string _) as [a|e]; [|by intros [= <- <-]].
  cbv zeta. destruct (_ <? _)%float; [by intros [= <- <-]|].
  destruct (a <=? 0); [intros [= <- <-] _ H; by destruct H|].
  destruct (String.eqb _ _); intros [= <- <-]; [intros _ _ H; by destruct H|discriminate].
Qed.

(** C1 (the code departs from the claim): a swap of a token to itself that
    passes the slippage, whitelist and volume checks is rejected with
    "Cannot swap token to itself", and yet the wallet's entry for the day,
    absent before the call, holds the trade's value after it. *)
Theorem self_swap_rejected_after_commit :
  let w := Sample.world Sample.env_dev in
  let params := Sample.intent Sample.WETH Sample.WETH "1000000000000000000" 50 in
  let key := Policy.trackerKey Sample.wallet "2024-05-01" in
  exists r st',
    Policy.validateTradingGuardrails w params Sample.fresh = (Returned r, st')
    /\ Policy.isValid r = false
    /\ Policy.reason r = Some "Cannot swap token to itself"
    /\ dailyVolumeTracker Sample.fresh !! key = None
    /\ dailyVolumeTracker st' !! key = Some {| date := "2024-05-01"; volume := 1 |}.
Proof.
  intros w params key. eexists. eexists.
  split; [rewrite guardrails_run; vm_compute; reflexivity|].
  repeat split.
Qed.

(** The same defect with a negative amount: the call is rejected with
    "Invalid trade amount" and the running total goes down from 9000 to
    8000. *)
Lemma negative_amount_lowers_running_total :
  let w := Sample.world Sample.env_dev in
  let params := Sample.intent Sample.USDC Sample.WETH "-1000000000000000000000" 50 in
  exists r st',
    Policy.validateTradingGuardrails w params Sample.traded_9000 = (Returned r, st')
    /\ Policy.reason r = Some "Invalid trade amount"
    /\ running_total w Sample.wallet Sample.traded_9000 = 9000%float
    /\ running_total w Sample.wallet st' = 8000%float.
Proof.
  intros w params. eexists. eexists.
  split; [rewrite guardrails_run; vm_compute; reflexivity|].
  repeat split.
Qed.

(** ** The amount guard *)

(** C2, as stated, fails: an intent with amount 0, in a deployment without
    whitelist contract, is rejected with "Invalid trade amount" only after
    the price oracle has been asked. *)
Lemma zero_amount_reaches_price_oracle :
  let w := Sample.world Sample.env_dev in
  let params := Sample.intent Sample.USDC Sample.WETH "0" 50 in
  let run := Policy.validateTradingGuardrails w params Sample.fresh in
  BigInt_of_string (Policy.amountIn params) = Returned 0
  /\ (exists r, fst run = Returned r /\ Policy.reason r = Some "Invalid trade amount")
  /\ ~ (filter is_oracle_call (calls (snd run)) = [])
  /\ calls (snd run) = [Call_token_price (join_comma [Sample.USDC; Sample.WETH])].
Proof.
  intros w params run. subst run. rewrite guardrails_run.
  split; [reflexivity|]. split; [eexists; split; reflexivity|].
  split; [discriminate|reflexivity].
Qed.

(** With a whitelist contract that cannot be reached, the same intent is
    not even rejected for its amount. *)
Example zero_amount_whitelist_first :
  let run := Policy.validateTradingGuardrails Sample.world_whitelist_down
               (Sample.intent Sample.USDC Sample.WETH "0" 50) Sample.fresh in
  (exists r, fst run = Returned r
             /\ Policy.reason r = Some "One or both tokens not whitelisted")
  /\ calls (snd run) = [Call_isWhitelisted Sample.USDC; Call_isWhitelisted Sample.WETH].
Proof.
  cbv zeta. rewrite guardrails_run. split; [eexists; split; reflexivity|reflexivity].
Qed.

(** C2, amended: an intent whose amount is 0 or negative is never valid;
    its amount is looked at in Step 5, after the slippage check, the
    whitelist queries and the price request.  When the slippage is in
    bounds and the whitelist check passes, the calls made are the
    whitelist queries (if the contract is configured) followed by the
    price request, and the reason is "Invalid trade amount" unless the
    volume check has already answered "Daily volume limit exceeded". *)
Theorem nonpositive_amount_rejected_at_step5 (w : World) (params : Policy.TradingParams)
    (st : State) (a : Z) :
  let tokenIn := Policy.tokenIn params in
  let tokenOut := Policy.tokenOut params in
  BigInt_of_string (Policy.amountIn params) = Returned a ->
  a <= 0 ->
  exists r st',
    Policy.validateTradingGuardrails w params st = (Returned r, st')
    /\ Policy.isValid r = false
    /\ (Policy.reason r = Some "Invalid trade amount" ->
        In (Call_token_price (join_comma [tokenIn; tokenOut])) (calls st'))
    /\ (slippage_outside w (Policy.slippageBps params) = false ->
        whitelist_answer w tokenIn tokenOut = true ->
        calls st' = (calls st ++ whitelist_calls w tokenIn tokenOut
                       ++ [Call_token_price (join_comma [tokenIn; tokenOut])])%list
        /\ (Policy.reason r = Some "Invalid trade amount"
            \/ Policy.reason r = Some "Daily volume limit exceeded")).
Proof.
  intros tokenIn tokenOut Ha Hle. subst tokenIn tokenOut.
  rewrite guardrails_run. unfold guardrails_outcome.
  rewrite validateSlippage_valid, Ha.
  assert ((a <=? 0) = true) as -> by lia.
  destruct (slippage_outside w _) eqn:Hs; cbn [negb].
  - eexists. eexists. split; [reflexivity|]. split.
    { rewrite validateSlippage_valid, Hs. reflexivity. }
    split; [|discriminate].
    unfold Policy.validateSlippage.
    destruct (_ <? _)%float; [discriminate|]. destruct (_ <? _)%float; discriminate.
  - destruct (whitelist_answer w _ _); cbn [negb].
    + cbv zeta. destruct (_ <? _)%float;
        (eexists; eexists; split; [reflexivity|]; split; [reflexivity|]; split;
         [try discriminate | intros _ _; split; [reflexivity|auto]]).
      intros _. cbn [calls with_entry with_calls].
      rewrite !in_app_iff. right. right. by left.
    + eexists. eexists. split; [reflexivity|]. split; [reflexivity|].
      split; discriminate.
Qed.

Lemma nonpositive_amount_rejected_at_step5_witness :
  exists r st',
    Policy.validateTradingGuardrails (Sample.world Sample.env_prod)
      (Sample.intent Sample.USDC Sample.WETH "0" 50) Sample.fresh = (Returned r, st')
    /\ Policy.isValid r = false
    /\ calls st' = [Call_isWhitelisted Sample.USDC; Call_isWhitelisted Sample.WETH;
                    Call_token_price (join_comma [Sample.USDC; Sample.WETH])].
Proof.
  destruct (nonpositive_amount_rejected_at_step5 (Sample.world Sample.env_prod)
              (Sample.intent Sample.USDC Sample.WETH "0" 50) Sample.fresh 0)
    as (r & st' & Hrun & Hinvalid & _ & Hcalls); [reflexivity|lia|].
  exists r, st'. split; [exact Hrun|]. split; [exact Hinvalid|].
  destruct Hcalls as [Hcalls _]; [reflexivity|reflexivity|exact Hcalls].
Defined.

(** ** The daily volume ledger *)

Lemma running_total_with_entry w walletAddress st total :
  running_total w walletAddress
    (with_entry st (Policy.trackerKey walletAddress (today w))
       {| date := today w; volume := total |}) = total.
Proof. unfold running_total, with_entry; cbn. by rewrite lookup_insert_eq. Qed.

(** C3: the volume check rejects exactly when the running total plus the
    trade value exceeds the limit, and an accepted call stores the new
    running total.  With the default limit of 10000 and 9000 USD already
    traded, 500 USD is accepted and the total becomes 9500; 600 USD more is
    then rejected with "Daily volume limit exceeded" and newTotal = 10100.
    A call that was accepted is rejected when repeated, if the repetition
    would cross the limit. *)
Theorem daily_volume_accumulates :
  (forall w walletAddress tradeValueUsd st,
      let running := running_total w walletAddress st in
      let newTotal := (running + tradeValueUsd)%float in
      exists r st',
        Policy.validateDailyVolumeLimit w walletAddress tradeValueUsd st = (Returned r, st')
        /\ Policy.isValid r = negb (maxDailyVolumeUsd w <? newTotal)%float
        /\ Policy.details r
           = Some (Policy.VolumeDetails running tradeValueUsd newTotal (maxDailyVolumeUsd w))
        /\ (Policy.isValid r = false ->
            Policy.reason r = Some "Daily volume limit exceeded" /\ st' = st)
        /\ (Policy.isValid r = true ->
            running_total w walletAddress st' = newTotal
            /\ st' = with_entry st (Policy.trackerKey walletAddress (today w))
                       {| date := today w; volume := newTotal |}))
  /\ (let w := Sample.world Sample.env_dev in
      exists r1 st1 r2,
        Policy.validateDailyVolumeLimit w Sample.wallet 500 Sample.traded_9000
        = (Returned r1, st1)
        /\ Policy.isValid r1 = true
        /\ running_total w Sample.wallet st1 = 9500%float
        /\ Policy.validateDailyVolumeLimit w Sample.wallet 600 st1 = (Returned r2, st1)
        /\ Policy.isValid r2 = false
        /\ Policy.reason r2 = Some "Daily volume limit exceeded"
        /\ Policy.details r2 = Some (Policy.VolumeDetails 9500 600 10100 10000))
  /\ (forall w walletAddress tradeValueUsd st r1 st1,
        Policy.validateDailyVolumeLimit w walletAddress tradeValueUsd st = (Returned r1, st1) ->
        Policy.isValid r1 = true ->
        (maxDailyVolumeUsd w
           <? running_total w walletAddress st + tradeValueUsd + tradeValueUsd)%float = true ->
        exists r2,
          Policy.validateDailyVolumeLimit w walletAddress tradeValueUsd st1 = (Returned r2, st1)
          /\ Policy.isValid r2 = false
          /\ Policy.reason r2 = Some "Daily volume limit exceeded").
Proof.
  split; [|split].
  - intros w walletAddress tradeValueUsd st running newTotal.
    rewrite validateDailyVolumeLimit_run. subst running newTotal. cbv zeta.
    destruct (_ <? _)%float; eexists; eexists; (split; [reflexivity|]);
      cbn [Policy.isValid Policy.details Policy.reason negb];
      (split; [reflexivity|]); (split; [reflexivity|]); split; try discriminate.
    + intros _. split; reflexivity.
    + intros _. split; [apply running_total_with_entry | reflexivity].
  - cbv zeta. eexists. eexists. eexists.
    split; [rewrite validateDailyVolumeLimit_run; vm_compute; reflexivity|].
    split; [reflexivity|]. split; [vm_compute; reflexivity|].
    split; [rewrite validateDailyVolumeLimit_run; vm_compute; reflexivity|].
    repeat split.
  - intros w walletAddress tradeValueUsd st r1 st1 Hrun Hvalid Hcross.
    rewrite validateDailyVolumeLimit_run in Hrun. cbv zeta in Hrun.
    destruct (_ <? _)%float in Hrun; injection Hrun as <- <-; [discriminate|].
    rewrite validateDailyVolumeLimit_run, running_total_with_entry. cbv zeta.
    rewrite Hcross. eexists. repeat split.
Qed.

Lemma daily_volume_accumulates_witness :
  let w := Sample.world Sample.env_dev in
  exists r1 st1 r2,
    Policy.validateDailyVolumeLimit w Sample.wallet 600 Sample.traded_9000 = (Returned r1, st1)
    /\ Policy.isValid r1 = true
    /\ Policy.validateDailyVolumeLimit w Sample.wallet 600 st1 = (Returned r2, st1)
    /\ Policy.isValid r2 = false.
Proof.
  intros w.
  destruct daily_volume_accumulates as (Hgeneral & _ & Hrepeat).
  destruct (Hgeneral w Sample.wallet 600%float Sample.traded_9000)
    as (r1 & st1 & Hrun1 & Hvalid1 & _).
  destruct (Hrepeat w Sample.wallet 600%float Sample.traded_9000 r1 st1 Hrun1)
    as (r2 & Hrun2 & Hinvalid2 & _).
  - rewrite Hvalid1. reflexivity.
  - reflexivity.
  - exists r1, st1, r2. split; [exact Hrun1|]. split; [rewrite Hvalid1; reflexivity|].
    split; [exact Hrun2 | exact Hinvalid2].
Defined.

(** The same through the whole policy: 500 and then 600 tokens of 18
    decimals, priced at the default of 1 USD. *)
Example guardrails_accumulate :
  let w := Sample.world Sample.env_dev in
  let first := Sample.intent Sample.USDC Sample.WETH "500000000000000000000" 50 in
  let second := Sample.intent Sample.USDC Sample.WETH "600000000000000000000" 50 in
  exists r1 st1 r2 st2,
    Policy.validateTradingGuardrails w first Sample.traded_9000 = (Returned r1, st1)
    /\ Policy.isValid r1 = true
    /\ running_total w Sample.wallet st1 = 9500%float
    /\ Policy.validateTradingGuardrails w second st1 = (Returned r2, st2)
    /\ Policy.reason r2 = Some "Daily volume limit exceeded"
    /\ Policy.details r2 = Some (Policy.VolumeDetails 9500 600 10100 10000)
    /\ dailyVolumeTracker st2 = dailyVolumeTracker st1.
Proof.
  cbv zeta. eexists. eexists. eexists. eexists.
  split; [rewrite guardrails_run; vm_compute; reflexivity|].
  split; [reflexivity|]. split; [vm_compute; reflexivity|].
  split; [rewrite guardrails_run; vm_compute; reflexivity|].
  repeat split.
Qed.

(** ** Frame: which ledger entries a validation can touch *)

Lemma list_ascii_of_string_app (s t : string) :
  list_ascii_of_string (s +:+ t) = (list_ascii_of_string s ++ list_ascii_of_string t)%list.
Proof. induction s as [|c s IH]; simpl; [reflexivity|]. f_equal. exact IH. Qed.

Lemma list_ascii_of_string_inj (s t : string) :
  list_ascii_of_string s = list_ascii_of_string t -> s = t.
Proof.
  intros H. rewrite <- (string_of_list_ascii_of_string s), H.
  apply string_of_list_ascii_of_string.
Qed.

(** An ISO day has 10 characters, or 13 of which the third is a digit. *)
Lemma iso_day_shape (d : string) :
  iso_day d = true ->
  length (list_ascii_of_string d) = 10%nat
  \/ exists c0 c1 c2 rest,
       list_ascii_of_string d = c0 :: c1 :: c2 :: rest
       /\ length rest = 10%nat /\ is_digit c2 = true.
Proof.
  unfold iso_day. generalize (list_ascii_of_string d) as l. intros l.
  do 10 (destruct l as [|? l]; [discriminate|]).
  destruct l as [|? l]; [intros _; by left|].
  do 2 (destruct l as [|? l]; [discriminate|]).
  destruct l as [|? l]; [|discriminate].
  intros H. right. do 4 eexists. split; [reflexivity|]. split; [reflexivity|].
    cbn [forallb] in H. rewrite !andb_true_iff in H. tauto.
Qed.

Lemma trackerKey_chars (walletAddress day : string) :
  list_ascii_of_string (Policy.trackerKey walletAddress day)
  = ((list_ascii_of_string walletAddress ++ ["-"%char]) ++ list_ascii_of_string day)%list.
Proof.
  unfold Policy.trackerKey. rewrite !list_ascii_of_string_app, <- app_assoc. reflexivity.
Qed.

(** Distinct (wallet, day) pairs have distinct keys. *)
Lemma trackerKey_inj (w1 d1 w2 d2 : string) :
  iso_day d1 = true -> iso_day d2 = true ->
  Policy.trackerKey w1 d1 = Policy.trackerKey w2 d2 -> w1 = w2 /\ d1 = d2.
Proof.
  intros H1 H2 Hkey. apply (f_equal list_ascii_of_string) in Hkey.
  rewrite !trackerKey_chars in Hkey.
  assert (forall c0 c1 c2 rest (l l' k : list ascii),
             is_digit c2 = true -> length rest = 10%nat -> length k = 10%nat ->
             ((l ++ ["-"%char]) ++ c0 :: c1 :: c2 :: rest)%list
             = ((l' ++ ["-"%char]) ++ k)%list -> False) as Hmix.
  { intros c0 c1 c2 rest l l' k Hd Hr Hk E.
    change (c0 :: c1 :: c2 :: rest) with (([c0; c1] ++ [c2]) ++ rest)%list in E.
    rewrite !app_assoc in E.
    apply app_inj_2 in E as [E _]; [|congruence].
    apply app_inj_tail in E as [_ ->]. discriminate. }
  destruct (iso_day_shape d1 H1) as [L1|(a0 & a1 & a2 & r1 & E1 & L1 & D1)],
           (iso_day_shape d2 H2) as [L2|(b0 & b1 & b2 & r2 & E2 & L2 & D2)].
  - apply app_inj_2 in Hkey as [Hw Hd]; [|congruence].
    apply app_inj_tail in Hw as [Hw _].
    split; apply list_ascii_of_string_inj; assumption.
  - exfalso. rewrite E2 in Hkey. symmetry in Hkey.
    exact (Hmix _ _ _ _ _ _ _ D2 L2 L1 Hkey).
  - exfalso. rewrite E1 in Hkey.
    exact (Hmix _ _ _ _ _ _ _ D1 L1 L2 Hkey).
  - apply app_inj_2 in Hkey as [Hw Hd]; [|rewrite E1, E2; cbn; congruence].
    apply app_inj_tail in Hw as [Hw _].
    split; apply list_ascii_of_string_inj; assumption.
Qed.

(** C9: a validation for wallet W on day D changes at most the ledger
    entry stored under the key of (W, D); the entry of any other wallet or
    of any other day is the same before and after the call. *)
Theorem validation_frame (w : World) (params : Policy.TradingParams) (st : State) :
  let st' := snd (Policy.validateTradingGuardrails w params st) in
  (forall key,
      key <> Policy.trackerKey (Policy.walletAddress params) (today w) ->
      dailyVolumeTracker st' !! key = dailyVolumeTracker st !! key)
  /\ (iso_day (today w) = true ->
      forall walletAddress day,
        iso_day day = true ->
        (walletAddress, day) <> (Policy.walletAddress params, today w) ->
        dailyVolumeTracker st' !! Policy.trackerKey walletAddress day
        = dailyVolumeTracker st !! Policy.trackerKey walletAddress day).
Proof.
  intros st'.
  assert (forall key,
             key <> Policy.trackerKey (Policy.walletAddress params) (today w) ->
             dailyVolumeTracker st' !! key = dailyVolumeTracker st !! key) as Hframe.
  { intros key Hkey. subst st'. rewrite guardrails_run. unfold guardrails_outcome.
    destruct (Policy.isValid (Policy.validateSlippage w _)); cbn [negb]; [|reflexivity].
    destruct (whitelist_answer w _ _); cbn [negb]; [|reflexivity].
    destruct (BigInt_of_string _) as [a|e]; [|reflexivity].
    cbv zeta. destruct (_ <? _)%float; [reflexivity|].
    destruct (a <=? 0); [|destruct (String.eqb _ _)];
      cbn [snd with_entry with_calls dailyVolumeTracker];
      by rewrite lookup_insert_ne. }
  split; [exact Hframe|].
  intros Htoday walletAddress day Hday Hother. apply Hframe.
  intros Hkey. apply Hother.
  destruct (trackerKey_inj _ _ _ _ Hday Htoday Hkey) as [-> ->]. reflexivity.
Qed.

Lemma validation_frame_witness :
  let w := Sample.world Sample.env_dev in
  let params := Sample.intent Sample.USDC Sample.WETH "500000000000000000000" 50 in
  let st' := snd (Policy.validateTradingGuardrails w params Sample.traded_9000) in
  dailyVolumeTracker st' !! Policy.trackerKey Sample.wallet "2024-04-30"
  = dailyVolumeTracker Sample.traded_9000 !! Policy.trackerKey Sample.wallet "2024-04-30"
  /\ dailyVolumeTracker st' !! Policy.trackerKey Sample.USDC "2024-05-01"
     = dailyVolumeTracker Sample.traded_9000 !! Policy.trackerKey Sample.USDC "2024-05-01".
Proof.
  intros w params st'.
  destruct (validation_frame w params Sample.traded_9000) as [_ Hframe].
  split; apply Hframe; try reflexivity; discriminate.
Defined.

(** ** The price used for the volume check *)

Lemma tokenInPrice_missing prices tokenIn :
  prices !! toLowerCase tokenIn = None -> Policy.tokenInPrice prices tokenIn = 1%float.
Proof. intros H. unfold Policy.tokenInPrice. by rewrite H. Qed.

Lemma tokenInPrice_zero prices tokenIn p :
  prices !! toLowerCase tokenIn = Some p -> (usd p =? 0)%float = true ->
  Policy.tokenInPrice prices tokenIn = 1%float.
Proof.
  intros H Hz. unfold Policy.tokenInPrice, number_or, truthy_number. by rewrite H, Hz.
Qed.

(** C10: when the price request succeeds but its answer has no entry for
    the lower-cased tokenIn address, or has one whose price is 0, the
    price used is 1: the validation returns what it returns, and leaves
    the ledger it leaves, with an oracle quoting the token at exactly
    1 USD, and the volume check is run on the trade value computed with
    the price 1. *)
Theorem default_price_when_missing_or_zero (w : World) (params : Policy.TradingParams)
    (st : State) (prices : gmap string TokenPrice) :
  let tokenIn := Policy.tokenIn params in
  let tokenOut := Policy.tokenOut params in
  token_price w (join_comma [tokenIn; tokenOut]) = Returned prices ->
  prices !! toLowerCase tokenIn = None
  \/ (exists p, prices !! toLowerCase tokenIn = Some p /\ (usd p =? 0)%float = true) ->
  Policy.tokenInPrice prices tokenIn = 1%float
  /\ Policy.validateTradingGuardrails w params st
     = Policy.validateTradingGuardrails
         (with_price_table w {[ toLowerCase tokenIn := {| usd := 1 |} ]}) params st
  /\ (forall amountInBigInt,
        slippage_outside w (Policy.slippageBps params) = false ->
        whitelist_answer w tokenIn tokenOut = true ->
        BigInt_of_string (Policy.amountIn params) = Returned amountInBigInt ->
        dailyVolumeTracker (snd (Policy.validateTradingGuardrails w params st))
        = dailyVolumeTracker
            (snd (Policy.validateDailyVolumeLimit w (Policy.walletAddress params)
                    (Policy.tradeValueUsd amountInBigInt 1) st))).
Proof.
  intros tokenIn tokenOut Hanswer Hprice. subst tokenIn tokenOut.
  assert (Policy.tokenInPrice prices (Policy.tokenIn params) = 1%float) as Hone.
  { destruct Hprice as [H|(p & H & Hz)];
      [by apply tokenInPrice_missing | by eapply tokenInPrice_zero]. }
  split; [exact Hone|].
  assert (Policy.tokenInPrice
            (price_answer w [Policy.tokenIn params; Policy.tokenOut params])
            (Policy.tokenIn params) = 1%float) as Hused.
  { unfold price_answer. by rewrite Hanswer. }
  split.
  2: { intros a Hs Hw Ha.
       rewrite guardrails_run, validateDailyVolumeLimit_run. unfold guardrails_outcome.
       rewrite validateSlippage_valid, Hs, Hw, Ha, Hused. cbn [negb]. cbv zeta.
       destruct (_ <? _)%float; [reflexivity|].
       destruct (a <=? 0); [|destruct (String.eqb _ _)]; reflexivity. }
  rewrite !guardrails_run. unfold guardrails_outcome.
  assert (Policy.tokenInPrice
            (price_answer w [Policy.tokenIn params; Policy.tokenOut params])
            (Policy.tokenIn params)
          = Policy.tokenInPrice
              (price_answer
                 (with_price_table w
                    {[ toLowerCase (Policy.tokenIn params) := {| usd := 1 |} ]})
                 [Policy.tokenIn params; Policy.tokenOut params])
              (Policy.tokenIn params)) as ->.
  { unfold price_answer. rewrite Hanswer, Hone. cbn [token_price with_price_table].
    unfold Policy.tokenInPrice. by rewrite lookup_singleton_eq. }
  reflexivity.
Qed.

Lemma default_price_when_missing_or_zero_witness :
  let w := Sample.world Sample.env_dev in
  let params := Sample.intent Sample.USDC Sample.WETH "500000000000000000000" 50 in
  Policy.tokenInPrice ∅ Sample.USDC = 1%float
  /\ Policy.validateTradingGuardrails w params Sample.fresh
     = Policy.validateTradingGuardrails
         (with_price_table w {[ toLowerCase Sample.USDC := {| usd := 1 |} ]})
         params Sample.fresh
  /\ dailyVolumeTracker (snd (Policy.validateTradingGuardrails w params Sample.fresh))
     = dailyVolumeTracker
         (snd (Policy.validateDailyVolumeLimit w Sample.wallet
                 (Policy.tradeValueUsd 500000000000000000000 1) Sample.fresh)).
Proof.
  intros w params.
  destruct (default_price_when_missing_or_zero w params Sample.fresh ∅)
    as (Hone & Hsame & Hvalue).
  - reflexivity.
  - left. reflexivity.
  - split; [exact Hone|]. split; [exact Hsame|].
    apply Hvalue; reflexivity.
Defined.

(** ** The executor, path by path *)

Lemma no_swap_call_app l1 l2 :
  no_swap_call (l1 ++ l2) = no_swap_call l1 && no_swap_call l2.
Proof. apply forallb_app. Qed.

Lemma no_swap_call_oracle l : forallb is_oracle_call l = true -> no_swap_call l = true.
Proof.
  unfold no_swap_call. rewrite !forallb_forall. intros H c Hc.
  specialize (H c Hc). by destruct c.
Qed.

Lemma no_swap_call_In l router sp :
  no_swap_call l = true -> ~ In (Call_exactInputSingle router sp) l.
Proof.
  unfold no_swap_call. rewrite forallb_forall. intros H Hin.
  specialize (H _ Hin). discriminate.
Qed.

Lemma calls_since_app st st' extra :
  calls st' = (calls st ++ extra)%list -> calls_since st st' = extra.
Proof. unfold calls_since. intros ->. by rewrite drop_app_length. Qed.

(** The calls of one validation are whitelist queries and price requests. *)
Lemma guardrails_trace w params st :
  exists extra,
    calls (snd (Policy.validateTradingGuardrails w params st)) = (calls st ++ extra)%list
    /\ forallb is_oracle_call extra = true.
Proof.
  rewrite guardrails_run. unfold guardrails_outcome.
  assert (forallb is_oracle_call
            (whitelist_calls w (Policy.tokenIn params) (Policy.tokenOut params)) = true) as Hq.
  { unfold whitelist_calls. by destruct (whitelist_configured w). }
  destruct (Policy.isValid (Policy.validateSlippage w _)); cbn [negb];
    [|exists []; split; [by rewrite app_nil_r | reflexivity]].
  destruct (whitelist_answer w _ _); cbn [negb]; [|by eexists].
  assert (forallb is_oracle_call
            (whitelist_calls w (Policy.tokenIn params) (Policy.tokenOut params)
               ++ [Call_token_price
                     (join_comma [Policy.tokenIn params; Policy.tokenOut params])]) = true)
    as Hp by (rewrite forallb_app, Hq; reflexivity).
  destruct (BigInt_of_string _) as [a|e]; [|by eexists].
  cbv zeta. destruct (_ <? _)%float; [by eexists|].
  destruct (a <=? 0); [|destruct (String.eqb _ _)]; by eexists.
Qed.

(** A validation always returns a decision. *)
Lemma guardrails_returns w params st :
  exists r, fst (Policy.validateTradingGuardrails w params st) = Returned r.
Proof.
  rewrite guardrails_run. unfold guardrails_outcome.
  destruct (Policy.isValid (Policy.validateSlippage w _)); cbn [negb]; [|by eexists].
  destruct (whitelist_answer w _ _); cbn [negb]; [|by eexists].
  destruct (BigInt_of_string _) as [a|e]; [|by eexists].
  cbv zeta. destruct (_ <? _)%float; [by eexists|].
  destruct (a <=? 0); [|destruct (String.eqb _ _)]; by eexists.
Qed.

Lemma initializeLitWallet_trace w st :
  exists out extra,
    Swap.initializeLitWallet w st = (out, with_calls st extra)
    /\ no_swap_call extra = true.
Proof.
  unfold Swap.initializeLitWallet, try_catch, bind, throw, ret. rewrite call_run.
  destruct (lit_connect w); [|by eexists; eexists].
  destruct (truthy_env _); cbn [negb]; [|by eexists; eexists].
  rewrite call_run, with_calls_app.
  destruct (pkp_init w); [|by eexists; eexists].
  rewrite call_run, with_calls_app.
  destruct (pkp_getAddress w); by eexists; eexists.
Qed.

Lemma getTokenInfo_trace w tokenAddress walletAddress st :
  exists out,
    Swap.getTokenInfo w tokenAddress walletAddress st
    = (out, with_calls st [Call_decimals tokenAddress;
                           Call_balanceOf tokenAddress walletAddress]).
Proof.
  unfold Swap.getTokenInfo, bind, Promise_all2, ret. rewrite !call_run, with_calls_app.
  destruct (erc20_decimals w tokenAddress), (erc20_balanceOf w tokenAddress walletAddress);
    by eexists.
Qed.

(** The two ways a run of [executeSwap] ends: before the router is
    called ([early]) and after ([late]). *)
Ltac early N1 Hc2 O2 :=
  eexists; eexists; eexists; split; [reflexivity|]; split;
  [ cbn [calls with_calls]; rewrite ?Hc2; cbn [calls with_calls];
    rewrite <- ?app_assoc; reflexivity
  | left; split; [by eexists|];
    rewrite ?no_swap_call_app, ?N1, ?(no_swap_call_oracle _ O2); reflexivity ].

Ltac late Hc2 Hminimum Hswap Nbefore after :=
  eexists; eexists; exists after; split; [reflexivity|]; split;
  [ repeat match goal with x := _ : list Call |- _ => subst x end;
    cbn [calls with_calls]; rewrite ?Hc2; cbn [calls with_calls];
    rewrite <- ?app_assoc; cbn [app]; reflexivity
  | right; eexists _, _, _, _, _;
    split; [reflexivity|]; split; [exact Hminimum|]; split; [reflexivity|];
    split; [reflexivity|]; split; [exact Nbefore|]; split; [reflexivity|];
    rewrite Hswap; unfold settled; cbn [negb] ].

(** Every run of [executeSwap] returns a result.  Either it stops before
    anything is handed to the router, with a failure result, or it hands
    the router exactly one swap, whose parameters and whose result are as
    [swapParams] and [settled] say. *)
Lemma executeSwap_cases w params st :
  exists r st' extra,
    Swap.executeSwap w params st = (Returned r, st')
    /\ calls st' = (calls st ++ extra)%list
    /\ ((exists message, r = Swap.failure message) /\ no_swap_call extra = true
        \/ exists amountInBigInt minimum router before after,
            BigInt_of_string (Swap.amountIn params) = Returned amountInBigInt
            /\ Swap.calculateMinAmountOut (Swap.estimatedAmountOut amountInBigInt)
                 (Swap.slippageBps params) = Returned minimum
            /\ UNISWAP_V3_ROUTER (env w) = Some router
            /\ extra = (before
                          ++ Call_exactInputSingle router
                               (swapParams w params amountInBigInt minimum) :: after)%list
            /\ no_swap_call before = true
            /\ no_swap_call after = true
            /\ r = settled amountInBigInt
                     (exactInputSingle w router
                        (swapParams w params amountInBigInt minimum))).
Proof.
  unfold Swap.executeSwap, try_catch.
  (* Step 1 *)
  unfold bind at 1.
  destruct (initializeLitWallet_trace w st) as (out1 & ex1 & -> & N1).
  destruct out1 as [wallet|e]; [|early N1 N1 N1].
  unfold bind at 1. rewrite call_run, with_calls_app.
  destruct (pkp_getAddress w) as [walletAddress|e]; [|early N1 N1 N1].
  (* Step 2 *)
  unfold bind at 1.
  match goal with
  | |- context [Policy.validateTradingGuardrails w ?pp ?s] =>
      destruct (guardrails_returns w pp s) as [pv Hpv];
      destruct (guardrails_trace w pp s) as (ex2 & Hc2 & O2);
      destruct (Policy.validateTradingGuardrails w pp s) as [out2 st2]
  end.
  cbn [fst snd] in Hpv, Hc2. subst out2.
  destruct (Policy.isValid pv); cbn [negb]; [|early N1 Hc2 O2].
  (* Step 3 *)
  unfold bind at 1.
  destruct (getTokenInfo_trace w (Swap.tokenIn params) walletAddress st2) as [out3 ->].
  destruct out3 as [tokenInInfo|e]; [|early N1 Hc2 O2].
  unfold bind at 1, lift at 1.
  destruct (BigInt_of_string (Swap.amountIn params)) as [amountInBigInt|e] eqn:Hamount;
    [|early N1 Hc2 O2].
  unfold bind at 1, lift at 1.
  destruct (BigInt_of_string (Swap.balance tokenInInfo)) as [balanceBigInt|e];
    [|early N1 Hc2 O2].
  destruct (balanceBigInt <? amountInBigInt); [early N1 Hc2 O2|].
  (* Step 4 *)
  destruct (UNISWAP_V3_ROUTER (env w)) as [router|] eqn:Hrouter;
    [destruct router as [|c router]|]; cbn [truthy_env negb default];
    [early N1 Hc2 O2| |early N1 Hc2 O2].
  set (routerAddress := String c router) in *.
  unfold bind at 1. rewrite call_run, with_calls_app.
  destruct (erc20_approve w _ _ _) as [approveTx|e]; [|early N1 Hc2 O2].
  unfold bind at 1. rewrite call_run, with_calls_app.
  destruct (Ethers.wait approveTx) as [approveReceipt|e]; [|early N1 Hc2 O2].
  (* Step 5 *)
  unfold bind at 1, lift at 1.
  destruct (Swap.calculateMinAmountOut _ _) as [minimum|e] eqn:Hminimum;
    [|early N1 Hc2 O2].
  (* Steps 6 and 7 *)
  unfold bind at 1. rewrite call_run, with_calls_app.
  fold (swapParams w params amountInBigInt minimum). cbn [id].
  set (before := (ex1 ++ [Call_pkp_getAddress] ++ ex2
                    ++ [Call_decimals (Swap.tokenIn params);
                        Call_balanceOf (Swap.tokenIn params) walletAddress;
                        Call_approve (Swap.tokenIn params) routerAddress amountInBigInt;
                        Call_wait (Ethers.tx_hash approveTx)])%list).
  assert (no_swap_call before = true) as Nbefore.
  { subst before. by rewrite !no_swap_call_app, N1, (no_swap_call_oracle _ O2). }
  destruct (exactInputSingle w routerAddress (swapParams w params amountInBigInt minimum)) as [swapTx|e] eqn:Hswap.
  - unfold bind at 1. rewrite call_run, with_calls_app.
    destruct (Ethers.wait swapTx) as [receipt|e] eqn:Hwait.
    + unfold bind at 1.
      destruct (String.eqb (Swap.actualAmountOut receipt) "0") eqn:Hzero; cbn [negb].
      * late Hc2 Hminimum Hswap Nbefore
          (before ++ Call_exactInputSingle routerAddress
               (swapParams w params amountInBigInt minimum)
             :: [Call_wait (Ethers.tx_hash swapTx)])%list.
        rewrite Hwait, Hzero. reflexivity.
      * unfold bind at 1, lift at 1.
        destruct (BigInt_of_string (Swap.actualAmountOut receipt)) as [actual|e] eqn:Hactual.
        -- unfold bind at 1, lift at 1.
           destruct (bigint_div _ _) as [ratio|e] eqn:Hratio.
           ++ late Hc2 Hminimum Hswap Nbefore
                (before ++ Call_exactInputSingle routerAddress
               (swapParams w params amountInBigInt minimum)
                   :: [Call_wait (Ethers.tx_hash swapTx)])%list.
              rewrite Hwait, Hzero, Hactual. cbn [negb]. rewrite Hratio. reflexivity.
           ++ late Hc2 Hminimum Hswap Nbefore
                (before ++ Call_exactInputSingle routerAddress
               (swapParams w params amountInBigInt minimum)
                   :: [Call_wait (Ethers.tx_hash swapTx)])%list.
              rewrite Hwait, Hzero, Hactual. cbn [negb]. rewrite Hratio. reflexivity.
        -- late Hc2 Hminimum Hswap Nbefore
             (before ++ Call_exactInputSingle routerAddress
               (swapParams w params amountInBigInt minimum)
                :: [Call_wait (Ethers.tx_hash swapTx)])%list.
           rewrite Hwait, Hzero, Hactual. reflexivity.
    + late Hc2 Hminimum Hswap Nbefore
        (before ++ Call_exactInputSingle routerAddress
               (swapParams w params amountInBigInt minimum)
           :: [Call_wait (Ethers.tx_hash swapTx)])%list.
      rewrite Hwait. reflexivity.
  - late Hc2 Hminimum Hswap Nbefore
      (before ++ [Call_exactInputSingle routerAddress
               (swapParams w params amountInBigInt minimum)])%list.
    reflexivity.
Qed.

(** ** The minimum output *)

Lemma multiplier_table :
  forallb multiplier_exact (map Z.of_nat (seq 0 (Z.to_nat 10001))) = true.
Proof. vm_compute. reflexivity. Qed.

Lemma slippageMultiplier_exact (s : Z) :
  0 <= s <= 10000 ->
  BigInt_of_number (10000 - Number_of_bigint s)%float = Returned (10000 - s).
Proof.
  intros Hs. pose proof multiplier_table as H. rewrite forallb_forall in H.
  specialize (H s). unfold multiplier_exact in H.
  destruct (BigInt_of_number _) as [k|e].
  - f_equal. apply Z.eqb_eq, H. apply in_map_iff. exists (Z.to_nat s).
    split; [apply Z2Nat.id; lia|]. apply in_seq. lia.
  - exfalso. assert (false = true) as [=]. apply H. apply in_map_iff. exists (Z.to_nat s).
    split; [apply Z2Nat.id; lia|]. apply in_seq. lia.
Qed.

(** The one swap a run hands to the router is the one [swapParams]
    describes. *)
Lemma submitted_swap w params st router sp :
  In (Call_exactInputSingle router sp)
     (calls_since st (snd (Swap.executeSwap w params st))) ->
  exists amountInBigInt minimum,
    BigInt_of_string (Swap.amountIn params) = Returned amountInBigInt
    /\ Swap.calculateMinAmountOut (Swap.estimatedAmountOut amountInBigInt)
         (Swap.slippageBps params) = Returned minimum
    /\ UNISWAP_V3_ROUTER (env w) = Some router
    /\ sp = swapParams w params amountInBigInt minimum
    /\ fst (Swap.executeSwap w params st)
       = Returned (settled amountInBigInt (exactInputSingle w router sp)).
Proof.
  destruct (executeSwap_cases w params st) as (r & st' & extra & -> & Hcalls & Hcases).
  cbn [fst snd]. rewrite (calls_since_app _ _ _ Hcalls). intros Hin.
  destruct Hcases as [[_ Hnone]|(a & m & router' & before & after & Ha & Hm & Hr & -> & Hb & Haf & ->)].
  - by apply no_swap_call_In in Hin.
  - apply in_app_or in Hin as [Hin|[Hin|Hin]].
    + by apply no_swap_call_In in Hin.
    + injection Hin as <- <-. by exists a, m.
    + by apply no_swap_call_In in Hin.
Qed.

(** C6: the minimum output is computed in two stages, the expected output
    amountIn * 98 / 100 and then expected * (10000 - slippageBps) / 10000,
    both with bigint division; with slippageBps = 300 and an estimated
    output of 1,000,000 it is 970000; and it is what [executeSwap] hands
    to the router as amountOutMinimum. *)
Theorem min_amount_out_two_stage :
  (forall amountInBigInt s,
      0 <= s <= 10000 ->
      Swap.estimatedAmountOut amountInBigInt = Z.quot (amountInBigInt * 98) 100
      /\ Swap.calculateMinAmountOut (Swap.estimatedAmountOut amountInBigInt)
           (Number_of_bigint s)
         = Returned (Z.quot (Z.quot (amountInBigInt * 98) 100 * (10000 - s)) 10000))
  /\ Swap.calculateMinAmountOut 1000000 300 = Returned 970000
  /\ (forall w params st router sp,
        In (Call_exactInputSingle router sp)
           (calls_since st (snd (Swap.executeSwap w params st))) ->
        exists amountInBigInt,
          BigInt_of_string (Swap.amountIn params) = Returned amountInBigInt
          /\ Router.amountIn sp = amountInBigInt
          /\ Swap.calculateMinAmountOut (Swap.estimatedAmountOut amountInBigInt)
               (Swap.slippageBps params) = Returned (Router.amountOutMinimum sp)).
Proof.
  split; [|split].
  - intros a s Hs. split; [reflexivity|].
    unfold Swap.calculateMinAmountOut. rewrite (slippageMultiplier_exact s Hs).
    reflexivity.
  - vm_compute. reflexivity.
  - intros w params st router sp Hin.
    destruct (submitted_swap w params st router sp Hin) as (a & m & Ha & Hm & _ & -> & _).
    exists a. repeat split; assumption.
Qed.

Lemma min_amount_out_two_stage_witness :
  Swap.calculateMinAmountOut (Swap.estimatedAmountOut 1000000) (Number_of_bigint 300)
  = Returned 950600
  /\ exists amountInBigInt,
       BigInt_of_string "1000000000000000000" = Returned amountInBigInt
       /\ Swap.calculateMinAmountOut (Swap.estimatedAmountOut amountInBigInt) 300
          = Returned 950600000000000000.
Proof.
  destruct min_amount_out_two_stage as (Hstages & _ & Hsent).
  split.
  - destruct (Hstages 1000000 300) as [_ H]; [lia|]. exact H.
  - destruct (Hsent (Sample.world Sample.env_dev)
                {| Swap.tokenIn := Sample.USDC; Swap.tokenOut := Sample.WETH;
                   Swap.amountIn := "1000000000000000000"; Swap.slippageBps := 300;
                   Swap.recipient := Sample.wallet |}
                Sample.fresh
                "0xE592427A0AEce92De3Edee1F18E0157C05861564"
                {| Router.tokenIn := Sample.USDC; Router.tokenOut := Sample.WETH;
                   Router.fee := 3000; Router.recipient := Sample.wallet;
                   Router.deadline := 1714559430;
                   Router.amountIn := 1000000000000000000;
                   Router.amountOutMinimum := 950600000000000000;
                   Router.sqrtPriceLimitX96 := 0 |})
      as (a & Ha & _ & Hmin).
    + vm_compute. do 9 right. left. reflexivity.
    + exists a. split; [exact Ha | exact Hmin].
Defined.

(** ** Reconciliation *)

(** C7: when the swap handed to the router is confirmed and its receipt
    has no Transfer log, [executeSwap] returns success with amountOut "0"
    (and an effective slippage of 0). *)
Theorem missing_transfer_log_still_success (w : World) (params : Swap.SwapParams)
    (st : State) (router : string) (sp : Router.ExactInputSingleParams)
    (swapTx : Ethers.TransactionResponse) (receipt : Ethers.TransactionReceipt) :
  In (Call_exactInputSingle router sp)
     (calls_since st (snd (Swap.executeSwap w params st))) ->
  exactInputSingle w router sp = Returned swapTx ->
  Ethers.wait swapTx = Returned receipt ->
  List.find Swap.is_Transfer (Ethers.logs receipt) = None ->
  fst (Swap.executeSwap w params st)
  = Returned {| Swap.success := true;
                Swap.txHash := Some (Ethers.hash receipt);
                Swap.amountOut := Some "0";
                Swap.gasUsed := option_map bigint_toString (Ethers.gasUsed receipt);
                Swap.effectiveSlippage := Some 0%float;
                Swap.error := None |}.
Proof.
  intros Hin Hswap Hwait Hnone.
  destruct (submitted_swap w params st router sp Hin) as (a & m & _ & _ & _ & _ & ->).
  rewrite Hswap. unfold settled. rewrite Hwait.
  unfold Swap.actualAmountOut. rewrite Hnone. reflexivity.
Qed.

Lemma missing_transfer_log_still_success_witness :
  exists r,
    fst (Swap.executeSwap (Sample.world Sample.env_dev)
           {| Swap.tokenIn := Sample.USDC; Swap.tokenOut := Sample.WETH;
              Swap.amountIn := "1000000000000000000"; Swap.slippageBps := 300;
              Swap.recipient := Sample.wallet |}
           Sample.fresh) = Returned r
    /\ Swap.success r = true
    /\ Swap.amountOut r = Some "0".
Proof.
  eexists. split.
  - apply (missing_transfer_log_still_success (Sample.world Sample.env_dev) _ Sample.fresh
             "0xE592427A0AEce92De3Edee1F18E0157C05861564"
             {| Router.tokenIn := Sample.USDC; Router.tokenOut := Sample.WETH;
                Router.fee := 3000; Router.recipient := Sample.wallet;
                Router.deadline := 1714559430;
                Router.amountIn := 1000000000000000000;
                Router.amountOutMinimum := 950600000000000000;
                Router.sqrtPriceLimitX96 := 0 |}
             Sample.tx_confirmed Sample.receipt_no_logs).
    + vm_compute. do 9 right. left. reflexivity.
    + reflexivity.
    + reflexivity.
    + reflexivity.
  - split; reflexivity.
Defined.

(** A Transfer log whose data is empty is reported as "0" as well. *)
Example empty_transfer_data :
  Swap.actualAmountOut
    {| Ethers.hash := "0xswap"; Ethers.gasUsed := None; Ethers.blockNumber := 1;
       Ethers.logs := [ {| Ethers.topics := [Swap.Transfer_topic]; Ethers.data := "" |} ] |}
  = "0".
Proof. reflexivity. Qed.

(** ** Failures are results *)

Lemma initializeLitWallet_fault w st e :
  lit_connect w = Thrown e \/ pkp_init w = Thrown e \/ pkp_getAddress w = Thrown e ->
  exists cause st',
    Swap.initializeLitWallet w st
    = (Thrown (ErrorObj ("Lit wallet initialization failed: " +:+ cause)), st').
Proof.
  intros Hfault.
  unfold Swap.initializeLitWallet, try_catch, bind, throw, ret. rewrite call_run.
  destruct (lit_connect w) as [[]|e1]; [|by eexists; eexists].
  destruct (truthy_env _); cbn [negb]; [|by eexists; eexists].
  rewrite call_run.
  destruct (pkp_init w) as [[]|e2]; [|by eexists; eexists].
  rewrite call_run.
  destruct (pkp_getAddress w) as [address|e3]; [|by eexists; eexists].
  by destruct Hfault as [|[|]].
Qed.

(** C8: whatever the input and whatever the collaborators answer or
    throw, [validateTradingGuardrails] returns a decision, valid without
    reason or invalid with one, and [executeSwap] returns a result,
    successful without error or failed with an error message: nothing is
    thrown to the caller.  In particular a fault while the wallet is set
    up, and a fault of the swap submission or of its confirmation, come
    back as failure results carrying the fault's message. *)
Theorem failures_are_typed_results :
  (forall w params st,
      exists r st',
        Policy.validateTradingGuardrails w params st = (Returned r, st')
        /\ (Policy.isValid r = true /\ Policy.reason r = None
            \/ Policy.isValid r = false /\ exists text, Policy.reason r = Some text))
  /\ (forall w params st,
        exists r st',
          Swap.executeSwap w params st = (Returned r, st')
          /\ (Swap.success r = true /\ Swap.error r = None
              \/ Swap.success r = false /\ exists message, Swap.error r = Some message))
  /\ (forall w params st e,
        lit_connect w = Thrown e \/ pkp_init w = Thrown e \/ pkp_getAddress w = Thrown e ->
        exists cause,
          fst (Swap.executeSwap w params st)
          = Returned (Swap.failure ("Lit wallet initialization failed: " +:+ cause)))
  /\ (forall w params st router sp e,
        In (Call_exactInputSingle router sp)
           (calls_since st (snd (Swap.executeSwap w params st))) ->
        exactInputSingle w router sp = Thrown e
        \/ (exists swapTx, exactInputSingle w router sp = Returned swapTx
                           /\ Ethers.wait swapTx = Thrown e) ->
        fst (Swap.executeSwap w params st) = Returned (Swap.failure (error_message e))).
Proof.
  split; [|split; [|split]].
  - intros w params st. rewrite guardrails_run. unfold guardrails_outcome.
    destruct (Policy.isValid (Policy.validateSlippage w _)) eqn:Hs; cbn [negb].
    + destruct (whitelist_answer w _ _); cbn [negb];
        [|eexists; eexists; split; [reflexivity|right; split; [reflexivity|by eexists]]].
      destruct (BigInt_of_string _) as [a|e];
        [|eexists; eexists; split; [reflexivity|right; split; [reflexivity|by eexists]]].
      cbv zeta. destruct (_ <? _)%float;
        [eexists; eexists; split; [reflexivity|right; split; [reflexivity|by eexists]]|].
      destruct (a <=? 0); [|destruct (String.eqb _ _)];
        eexists; eexists; (split; [reflexivity|]);
        first [left; split; reflexivity | right; split; [reflexivity|by eexists]].
    + eexists; eexists; split; [reflexivity|]. right. split; [exact Hs|].
      revert Hs. unfold Policy.validateSlippage.
      destruct (_ <? _)%float; [by eexists|]. destruct (_ <? _)%float; [by eexists|discriminate].
  - intros w params st.
    destruct (executeSwap_cases w params st) as (r & st' & extra & Hrun & _ & Hcases).
    exists r, st'. split; [exact Hrun|].
    destruct Hcases as [[[message ->] _]|(a & m & router & _ & _ & _ & _ & _ & _ & _ & _ & ->)].
    + right. split; [reflexivity|by eexists].
    + unfold settled.
      destruct (exactInputSingle w router _); [|right; split; [reflexivity|by eexists]].
      destruct (Ethers.wait _); [|right; split; [reflexivity|by eexists]].
      cbv zeta. destruct (negb _); [|left; split; reflexivity].
      destruct (BigInt_of_string _); [|right; split; [reflexivity|by eexists]].
      destruct (bigint_div _ _); [left; split; reflexivity|].
      right; split; [reflexivity|by eexists].
  - intros w params st e Hfault.
    destruct (initializeLitWallet_fault w st e Hfault) as (cause & st' & Hinit).
    exists cause. unfold Swap.executeSwap, try_catch. unfold bind at 1.
    rewrite Hinit. reflexivity.
  - intros w params st router sp e Hin Hfault.
    destruct (submitted_swap w params st router sp Hin) as (a & m & _ & _ & _ & _ & ->).
    unfold settled.
    destruct Hfault as [->|(swapTx & -> & ->)]; reflexivity.
Qed.

Lemma failures_are_typed_results_witness :
  let w := Sample.world_whitelist_down in
  let w' :=
    {| env := env w; now_iso := now_iso w; now_ms := now_ms w;
       isWhitelisted := isWhitelisted w; token_price := token_price w;
       lit_connect := Thrown (ErrorObj "network unreachable");
       pkp_init := pkp_init w; pkp_getAddress := pkp_getAddress w;
       erc20_decimals := erc20_decimals w; erc20_balanceOf := erc20_balanceOf w;
       erc20_approve := erc20_approve w; exactInputSingle := exactInputSingle w |} in
  let params :=
    {| Swap.tokenIn := Sample.USDC; Swap.tokenOut := Sample.WETH;
       Swap.amountIn := "1000000000000000000"; Swap.slippageBps := 300;
       Swap.recipient := Sample.wallet |} in
  (exists r st', Swap.executeSwap w params Sample.fresh = (Returned r, st')
                 /\ Swap.success r = false)
  /\ exists cause,
       fst (Swap.executeSwap w' params Sample.fresh)
       = Returned (Swap.failure ("Lit wallet initialization failed: " +:+ cause)).
Proof.
  intros w w' params.
  destruct failures_are_typed_results as (_ & Hswap & Hwallet & _).
  split.
  - destruct (Hswap w params Sample.fresh) as (r & st' & Hrun & Hshape).
    exists r, st'. split; [exact Hrun|].
    assert (fst (Swap.executeSwap w params Sample.fresh)
            = Returned (Swap.failure
                          "Policy validation failed: One or both tokens not whitelisted"))
      as Hvalue by (vm_compute; reflexivity).
    rewrite Hrun in Hvalue. cbn [fst] in Hvalue. injection Hvalue as ->. reflexivity.
  - apply (Hwallet w' params Sample.fresh (ErrorObj "network unreachable")).
    left. reflexivity.
Defined.

(** A missing router address is reported as a failure too. *)
Example missing_router_is_a_failure :
  let e := {| TOKEN_WHITELIST_CONTRACT := None;
              MAX_DAILY_VOLUME_USD := None;
              MAX_SLIPPAGE_BPS := None;
              LIT_PKP_PUBLIC_KEY := Some "0x04pkp";
              UNISWAP_V3_ROUTER := None |} in
  fst (Swap.executeSwap (Sample.world e)
         {| Swap.tokenIn := Sample.USDC; Swap.tokenOut := Sample.WETH;
            Swap.amountIn := "1000000000000000000"; Swap.slippageBps := 300;
            Swap.recipient := Sample.wallet |}
         Sample.fresh)
  = Returned (Swap.failure "UNISWAP_V3_ROUTER not configured").
Proof. vm_compute. reflexivity. Qed.

(** * Further properties of the policy, the executor, the tool and the agent *)
(** * Further properties of the policy *)

(** ** Comparisons of binary64 numbers *)

Lemma SFltb_false_SFleb (a b : spec_float) :
  a <> S754_nan -> b <> S754_nan -> SFltb b a = false -> SFleb a b = true.
Proof.
  unfold SFltb, SFleb.
  destruct a as [ | [] | | [] ma ea], b as [ | [] | | [] mb eb];
    cbn [SFcompare]; try congruence; try reflexivity; intros _ _;
    change (PosDef.Pos.compare_cont Eq) with Pos.compare;
    destruct (Z.compare_spec ea eb), (Z.compare_spec eb ea);
    try discriminate; try reflexivity; try lia;
    destruct (Pos.compare_spec ma mb), (Pos.compare_spec mb ma);
    cbn [CompOpp]; try discriminate; try reflexivity; try lia.
Qed.

Lemma SFleb_SFltb_false (a b : spec_float) :
  SFleb a b = true -> SFltb b a = false.
Proof.
  unfold SFltb, SFleb.
  destruct a as [ | [] | | [] ma ea], b as [ | [] | | [] mb eb];
    cbn [SFcompare]; try congruence; try reflexivity;
    change (PosDef.Pos.compare_cont Eq) with Pos.compare;
    destruct (Z.compare_spec ea eb), (Z.compare_spec eb ea);
    try discriminate; try reflexivity; try lia;
    destruct (Pos.compare_spec ma mb), (Pos.compare_spec mb ma);
    cbn [CompOpp]; try discriminate; try reflexivity; try lia.
Qed.

Lemma is_nan_Prim2SF (x : number) : PrimFloat.is_nan x = false -> Prim2SF x <> S754_nan.
Proof.
  unfold PrimFloat.is_nan. rewrite FloatAxioms.eqb_spec. intros H E. rewrite E in H. discriminate.
Qed.

Lemma leb_not_ltb (a b : number) : (a <=? b)%float = true -> (b <? a)%float = false.
Proof. rewrite FloatAxioms.leb_spec, FloatAxioms.ltb_spec. apply SFleb_SFltb_false. Qed.

Lemma not_ltb_leb (a b : number) :
  PrimFloat.is_nan a = false -> PrimFloat.is_nan b = false ->
  (b <? a)%float = false -> (a <=? b)%float = true.
Proof.
  intros Ha Hb. rewrite FloatAxioms.leb_spec, FloatAxioms.ltb_spec.
  apply SFltb_false_SFleb; by apply is_nan_Prim2SF.
Qed.

(** ** The slippage interval *)

(** X1: the slippage check accepts exactly the closed interval from 1 to the
    configured maximum: a tolerance with 1 <= s <= maxSlippageBps is
    accepted, both ends included, and an accepted tolerance lies in that
    interval provided neither it nor the maximum is NaN (every comparison
    with NaN is false, so a NaN tolerance passes both tests of the code). *)
Theorem slippage_interval_is_closed (w : World) (s : number) :
  ((1 <=? s)%float = true -> (s <=? maxSlippageBps w)%float = true ->
   Policy.isValid (Policy.validateSlippage w s) = true)
  /\ (Policy.isValid (Policy.validateSlippage w s) = true ->
      PrimFloat.is_nan s = false -> PrimFloat.is_nan (maxSlippageBps w) = false ->
      (1 <=? s)%float = true /\ (s <=? maxSlippageBps w)%float = true).
Proof.
  rewrite validateSlippage_valid. unfold slippage_outside. split.
  - intros Hlow Hhigh. by rewrite (leb_not_ltb _ _ Hlow), (leb_not_ltb _ _ Hhigh).
  - intros Hin Hs Hmax.
    destruct (_ <? s)%float eqn:Hhigh; [discriminate|].
    destruct (s <? 1)%float eqn:Hlow; [discriminate|].
    split; by apply not_ltb_leb.
Qed.

Lemma slippage_interval_is_closed_witness :
  Policy.isValid (Policy.validateSlippage (Sample.world Sample.env_dev) 1) = true
  /\ Policy.isValid (Policy.validateSlippage (Sample.world Sample.env_dev) 300) = true
  /\ (1 <=? 150)%float = true.
Proof.
  destruct (slippage_interval_is_closed (Sample.world Sample.env_dev) 1) as [Hone _].
  destruct (slippage_interval_is_closed (Sample.world Sample.env_dev) 300) as [Hmax _].
  destruct (slippage_interval_is_closed (Sample.world Sample.env_dev) 150) as [_ Hmid].
  split; [apply Hone; reflexivity|]. split; [apply Hmax; reflexivity|].
  apply Hmid; reflexivity.
Defined.

(** ** What a valid decision guarantees *)

(** X2: [validateTradingGuardrails] answers [isValid = true] exactly when
    the slippage is inside its bounds, the whitelist answers yes, the two
    tokens differ, the amount parses to a positive integer and the running
    total plus the trade value does not exceed the daily limit; after such an
    answer the wallet's running total for the day is the old total plus the
    trade value. *)
Theorem valid_decision_means_every_check_passed (w : World)
    (params : Policy.TradingParams) (st : State) :
  let tokenIn := Policy.tokenIn params in
  let tokenOut := Policy.tokenOut params in
  let walletAddress := Policy.walletAddress params in
  ((exists r st',
       Policy.validateTradingGuardrails w params st = (Returned r, st')
       /\ Policy.isValid r = true)
   <-> slippage_outside w (Policy.slippageBps params) = false
       /\ whitelist_answer w tokenIn tokenOut = true
       /\ tokenIn <> tokenOut
       /\ exists a,
           BigInt_of_string (Policy.amountIn params) = Returned a
           /\ 0 < a
           /\ (maxDailyVolumeUsd w
                 <? running_total w walletAddress st + intent_value w params a)%float = false)
  /\ (forall r st' a,
        Policy.validateTradingGuardrails w params st = (Returned r, st') ->
        Policy.isValid r = true ->
        BigInt_of_string (Policy.amountIn params) = Returned a ->
        running_total w walletAddress st'
        = (running_total w walletAddress st + intent_value w params a)%float).
Proof.
  intros tokenIn tokenOut walletAddress. subst tokenIn tokenOut walletAddress.
  rewrite guardrails_run. unfold guardrails_outcome, intent_value.
  rewrite validateSlippage_valid.
  destruct (slippage_outside w _) eqn:Hs; cbn [negb].
  { split; [split|].
    - intros (r & st' & [= <- <-] & Hvalid).
      rewrite validateSlippage_valid, Hs in Hvalid. discriminate.
    - intros [[=] _].
    - intros r st' a [= <- <-] Hvalid.
      rewrite validateSlippage_valid, Hs in Hvalid. discriminate. }
  destruct (whitelist_answer w _ _); cbn [negb].
  2: { split; [split|].
       - intros (r & st' & [= <- <-] & [=]).
       - intros (_ & [=] & _).
       - intros r st' a [= <- <-] [=]. }
  destruct (BigInt_of_string _) as [a|e].
  2: { split; [split|].
       - intros (r & st' & [= <- <-] & [=]).
       - intros (_ & _ & _ & a & [=] & _).
       - intros r st' a [= <- <-] [=]. }
  cbv zeta. destruct (_ <? _)%float eqn:Hvolume.
  { split; [split|].
    - intros (r & st' & [= <- <-] & [=]).
    - intros (_ & _ & _ & a' & [= <-] & _ & Hv). rewrite Hv in Hvolume. discriminate.
    - intros r st' a' [= <- <-] [=]. }
  destruct (Z.leb_spec a 0).
  { split; [split|].
    - intros (r & st' & [= <- <-] & [=]).
    - intros (_ & _ & _ & a' & [= <-] & Hpos & _). lia.
    - intros r st' a' [= <- <-] [=]. }
  destruct (String.eqb_spec (Policy.tokenIn params) (Policy.tokenOut params)) as [Heq|Hne].
  { split; [split|].
    - intros (r & st' & [= <- <-] & [=]).
    - intros (_ & _ & Hne & _). by destruct Hne.
    - intros r st' a' [= <- <-] [=]. }
  split; [split|].
  - intros _. repeat split; [exact Hne|]. exists a. repeat split; [lia|exact Hvolume].
  - intros _. eexists. eexists. split; reflexivity.
  - intros r st' a' [= <- <-] _ [= <-]. apply running_total_with_entry.
Qed.

Lemma valid_decision_means_every_check_passed_witness :
  let w := Sample.world Sample.env_dev in
  let params := Sample.intent Sample.USDC Sample.WETH "500000000000000000000" 50 in
  (exists r st',
      Policy.validateTradingGuardrails w params Sample.traded_9000 = (Returned r, st')
      /\ Policy.isValid r = true
      /\ running_total w Sample.wallet st' = 9500%float)
  /\ Sample.USDC <> Sample.WETH.
Proof.
  intros w params.
  destruct (valid_decision_means_every_check_passed w params Sample.traded_9000)
    as [[Hchecks Hvalid] Hledger].
  assert (exists r st',
             Policy.validateTradingGuardrails w params Sample.traded_9000 = (Returned r, st')
             /\ Policy.isValid r = true) as (r & st' & Hrun & Hr).
  { apply Hvalid. split; [reflexivity|]. split; [reflexivity|]. split; [discriminate|].
    exists 500000000000000000000. split; [reflexivity|]. split; [lia|].
    vm_compute. reflexivity. }
  split.
  - exists r, st'. split; [exact Hrun|]. split; [exact Hr|].
    pose proof (Hledger r st' 500000000000000000000 Hrun Hr) as Htotal.
    specialize (Htotal eq_refl).
    etransitivity; [exact Htotal|].
    vm_compute. reflexivity.
  - destruct Hchecks as (_ & _ & Hne & _); [|exact Hne].
    exists r, st'. split; [exact Hrun | exact Hr].
Defined.
(** ** The ledger stays within the limit *)

(** X3: if no total stored in the ledger exceeds the daily limit, none
    does after a call of [validateTradingGuardrails], whatever the intent and
    whatever the decision. *)
Theorem ledger_stays_within_limit (w : World) (params : Policy.TradingParams)
    (st : State) :
  within_limit (maxDailyVolumeUsd w) st ->
  within_limit (maxDailyVolumeUsd w) (snd (Policy.validateTradingGuardrails w params st)).
Proof.
  intros Hst. rewrite guardrails_run. unfold guardrails_outcome.
  destruct (Policy.isValid (Policy.validateSlippage w _)); cbn [negb]; [|exact Hst].
  destruct (whitelist_answer w _ _); cbn [negb]; [|exact Hst].
  destruct (BigInt_of_string _) as [a|e]; [|exact Hst].
  cbv zeta. destruct (_ <? _)%float eqn:Hvolume; [exact Hst|].
  assert (within_limit (maxDailyVolumeUsd w)
            (with_entry
               (with_calls st
                  (whitelist_calls w (Policy.tokenIn params) (Policy.tokenOut params)
                     ++ [Call_token_price
                           (join_comma [Policy.tokenIn params; Policy.tokenOut params])]))
               (Policy.trackerKey (Policy.walletAddress params) (today w))
               {| date := today w;
                  volume :=
                    running_total w (Policy.walletAddress params) st
                    + Policy.tradeValueUsd a
                        (Policy.tokenInPrice
                           (price_answer w
                              [Policy.tokenIn params; Policy.tokenOut params])
                           (Policy.tokenIn params)) |})) as Hcommitted.
  { intros key entry. cbn [with_entry with_calls dailyVolumeTracker].
    rewrite lookup_insert. case_decide as Hkey.
    - intros [= <-]. exact Hvolume.
    - apply Hst. }
  destruct (a <=? 0); [|destruct (String.eqb _ _)]; exact Hcommitted.
Qed.

Lemma ledger_stays_within_limit_witness :
  within_limit 10000
    (snd (Policy.validateTradingGuardrails (Sample.world Sample.env_dev)
            (Sample.intent Sample.USDC Sample.WETH "500000000000000000000" 50)
            Sample.traded_9000)).
Proof.
  apply (ledger_stays_within_limit (Sample.world Sample.env_dev)
           (Sample.intent Sample.USDC Sample.WETH "500000000000000000000" 50)
           Sample.traded_9000).
  intros key entry Hentry.
  unfold Sample.traded_9000 in Hentry. cbn [dailyVolumeTracker] in Hentry.
  apply lookup_singleton_Some in Hentry as [_ <-]. reflexivity.
Defined.

(** ** The price table when the oracle fails *)

Lemma default_prices_lookup (addresses : list string) (table : gmap string TokenPrice)
    (key : string) :
  fold_left (fun prices address => <[toLowerCase address := {| usd := 1 |}]> prices)
            addresses table !! key
  = if existsb (fun address => String.eqb (toLowerCase address) key) addresses
    then Some {| usd := 1 |}
    else table !! key.
Proof.
  revert table. induction addresses as [|address rest IH]; intros table; [reflexivity|].
  cbn [fold_left existsb]. rewrite IH.
  destruct (existsb _ rest); [by rewrite orb_true_r|]. rewrite orb_false_r.
  destruct (String.eqb_spec (toLowerCase address) key) as [->|Hne].
  - by rewrite lookup_insert_eq.
  - by rewrite lookup_insert_ne.
Qed.

(** X4: when the price request fails, [getTokenPrices] still returns,
    after that one request: the table it returns holds the price 1 under the
    lower-cased form of every requested address and nothing else, so the
    policy prices each requested token at 1 USD. *)
Theorem price_oracle_failure_defaults_to_one (w : World) (tokenAddresses : list string)
    (st : State) (e : thrown) :
  token_price w (join_comma tokenAddresses) = Thrown e ->
  exists prices,
    Policy.getTokenPrices w tokenAddresses st
    = (Returned prices, with_calls st [Call_token_price (join_comma tokenAddresses)])
    /\ (forall address,
          In address tokenAddresses ->
          prices !! toLowerCase address = Some {| usd := 1 |}
          /\ Policy.tokenInPrice prices address = 1%float)
    /\ (forall key,
          (forall address, In address tokenAddresses -> toLowerCase address <> key) ->
          prices !! key = None).
Proof.
  intros Hfail. eexists. split.
  { rewrite getTokenPrices_run. unfold price_answer. rewrite Hfail. reflexivity. }
  split.
  - intros address Hin.
    assert (fold_left
              (fun prices address => <[toLowerCase address := {| usd := 1 |}]> prices)
              tokenAddresses (∅ : gmap string TokenPrice) !! toLowerCase address
            = Some {| usd := 1 |}) as Hlookup.
    { rewrite default_prices_lookup.
      assert (existsb (fun a => String.eqb (toLowerCase a) (toLowerCase address))
                tokenAddresses = true) as ->; [|reflexivity].
      apply existsb_exists. exists address. split; [exact Hin | apply String.eqb_refl]. }
    split; [exact Hlookup|]. unfold Policy.tokenInPrice. rewrite Hlookup. reflexivity.
  - intros key Hother. rewrite default_prices_lookup.
    destruct (existsb _ tokenAddresses) eqn:Hex; [|apply lookup_empty].
    apply existsb_exists in Hex as (address & Hin & Heq).
    apply String.eqb_eq in Heq. by destruct (Hother address Hin).
Qed.

Lemma price_oracle_failure_defaults_to_one_witness :
  let w := with_price_table (Sample.world Sample.env_dev) ∅ in
  let down :=
    {| env := env w; now_iso := now_iso w; now_ms := now_ms w;
       isWhitelisted := isWhitelisted w;
       token_price := fun _ => Thrown (ErrorObj "timeout of 10000ms exceeded");
       lit_connect := lit_connect w; pkp_init := pkp_init w;
       pkp_getAddress := pkp_getAddress w;
       erc20_decimals := erc20_decimals w; erc20_balanceOf := erc20_balanceOf w;
       erc20_approve := erc20_approve w; exactInputSingle := exactInputSingle w |} in
  exists prices st',
    Policy.getTokenPrices down [Sample.USDC; Sample.WETH] Sample.fresh = (Returned prices, st')
    /\ Policy.tokenInPrice prices Sample.USDC = 1%float.
Proof.
  intros w down.
  destruct (price_oracle_failure_defaults_to_one down [Sample.USDC; Sample.WETH]
              Sample.fresh (ErrorObj "timeout of 10000ms exceeded") eq_refl)
    as (prices & Hrun & Hone & _).
  exists prices. eexists. split; [exact Hrun|].
  apply Hone. left. reflexivity.
Defined.

(** ** The whitelist needs both tokens *)

(** X5: with a whitelist contract configured and both queries answered,
    the intent is rejected with "One or both tokens not whitelisted", after
    exactly the two queries and nothing else, as soon as one of the two tokens
    is not listed; when both are listed the decision is never that
    rejection. *)
Theorem whitelist_needs_both_tokens (w : World) (params : Policy.TradingParams)
    (st : State) (inListed outListed : bool) :
  let tokenIn := Policy.tokenIn params in
  let tokenOut := Policy.tokenOut params in
  whitelist_configured w = true ->
  slippage_outside w (Policy.slippageBps params) = false ->
  isWhitelisted w tokenIn = Returned inListed ->
  isWhitelisted w tokenOut = Returned outListed ->
  (inListed && outListed = false ->
   Policy.validateTradingGuardrails w params st
   = (Returned {| Policy.isValid := false;
                  Policy.reason := Some "One or both tokens not whitelisted";
                  Policy.details := Some (Policy.TokensDetails tokenIn tokenOut) |},
      with_calls st [Call_isWhitelisted tokenIn; Call_isWhitelisted tokenOut]))
  /\ (inListed && outListed = true ->
      exists r st',
        Policy.validateTradingGuardrails w params st = (Returned r, st')
        /\ Policy.reason r <> Some "One or both tokens not whitelisted").
Proof.
  intros tokenIn tokenOut Hon Hs Hin Hout. subst tokenIn tokenOut.
  rewrite guardrails_run. unfold guardrails_outcome.
  rewrite validateSlippage_valid, Hs. cbn [negb].
  unfold whitelist_answer, whitelist_calls. rewrite Hon, Hin, Hout.
  split; intros ->; cbn [negb]; [reflexivity|].
  destruct (BigInt_of_string _) as [a|e];
    [|eexists; eexists; split; [reflexivity|discriminate]].
  cbv zeta. destruct (_ <? _)%float;
    [eexists; eexists; split; [reflexivity|discriminate]|].
  destruct (a <=? 0); [|destruct (String.eqb _ _)];
    eexists; eexists; (split; [reflexivity|discriminate]).
Qed.

Lemma whitelist_needs_both_tokens_witness :
  let w := Sample.world Sample.env_prod in
  let only_usdc :=
    {| env := env w; now_iso := now_iso w; now_ms := now_ms w;
       isWhitelisted := fun token => Returned (String.eqb token Sample.USDC);
       token_price := token_price w;
       lit_connect := lit_connect w; pkp_init := pkp_init w;
       pkp_getAddress := pkp_getAddress w;
       erc20_decimals := erc20_decimals w; erc20_balanceOf := erc20_balanceOf w;
       erc20_approve := erc20_approve w; exactInputSingle := exactInputSingle w |} in
  exists r st',
    Policy.validateTradingGuardrails only_usdc
      (Sample.intent Sample.USDC Sample.WETH "1000000" 50) Sample.fresh = (Returned r, st')
    /\ Policy.reason r = Some "One or both tokens not whitelisted".
Proof.
  intros w only_usdc.
  destruct (whitelist_needs_both_tokens only_usdc
              (Sample.intent Sample.USDC Sample.WETH "1000000" 50) Sample.fresh
              true false eq_refl eq_refl eq_refl eq_refl) as [Hreject _].
  eexists. eexists. split; [apply Hreject; reflexivity | reflexivity].
Defined.

(** ** An amount that is not an integer literal *)

(** X6: an amount that [BigInt] cannot parse does not make the policy
    throw: once slippage and whitelist have passed, the decision is a
    rejection with reason "Validation error occurred" that carries the
    message of the error, the ledger is left as it was, and the whitelist and
    price requests have been made. *)
Theorem unparsable_amount_is_a_validation_error (w : World)
    (params : Policy.TradingParams) (st : State) (e : thrown) :
  let tokenIn := Policy.tokenIn params in
  let tokenOut := Policy.tokenOut params in
  slippage_outside w (Policy.slippageBps params) = false ->
  whitelist_answer w tokenIn tokenOut = true ->
  BigInt_of_string (Policy.amountIn params) = Thrown e ->
  Policy.validateTradingGuardrails w params st
  = (Returned {| Policy.isValid := false;
                 Policy.reason := Some "Validation error occurred";
                 Policy.details := Some (Policy.ErrorDetails (error_message e)) |},
     with_calls st (whitelist_calls w tokenIn tokenOut
                      ++ [Call_token_price (join_comma [tokenIn; tokenOut])])).
Proof.
  intros tokenIn tokenOut Hs Hw Ha. subst tokenIn tokenOut.
  rewrite guardrails_run. unfold guardrails_outcome.
  rewrite validateSlippage_valid, Hs, Hw, Ha. reflexivity.
Qed.

Lemma unparsable_amount_is_a_validation_error_witness :
  exists r st',
    Policy.validateTradingGuardrails (Sample.world Sample.env_dev)
      (Sample.intent Sample.USDC Sample.WETH "1.5" 50) Sample.traded_9000 = (Returned r, st')
    /\ Policy.reason r = Some "Validation error occurred"
    /\ dailyVolumeTracker st' = dailyVolumeTracker Sample.traded_9000.
Proof.
  eexists. eexists. split.
  - apply (unparsable_amount_is_a_validation_error (Sample.world Sample.env_dev)
             (Sample.intent Sample.USDC Sample.WETH "1.5" 50) Sample.traded_9000
             (ErrorObj "Cannot convert 1.5 to a BigInt")); reflexivity.
  - split; reflexivity.
Defined.

(** ** The day and the ledger keys *)

Lemma is_digit_not_T (c : ascii) : is_digit c = true -> Ascii.eqb c "T" = false.
Proof. destruct (Ascii.eqb_spec c "T") as [->|]; [discriminate|reflexivity]. Qed.

Lemma before_T_app (d rest : string) :
  forallb (fun c => negb (Ascii.eqb c "T")) (list_ascii_of_string d) = true ->
  before_T (d +:+ String "T" rest) = d.
Proof.
  induction d as [|c d IH]; cbn [list_ascii_of_string forallb]; [reflexivity|].
  intros [Hc Hd]%andb_prop. simpl. apply negb_true_iff in Hc. rewrite Hc.
  f_equal. by apply IH.
Qed.

Lemma iso_day_no_T (d : string) :
  iso_day d = true ->
  forallb (fun c => negb (Ascii.eqb c "T")) (list_ascii_of_string d) = true.
Proof.
  unfold iso_day. generalize (list_ascii_of_string d) as l. intros l.
  do 10 (destruct l as [|? l]; [discriminate|]).
  destruct l as [|? l].
  - cbn [forallb]. intros Hshape. rewrite !andb_true_iff in Hshape.
    destruct Hshape as [[(?&?&?&?&?&?&?&?&_) H1%Ascii.eqb_eq] H2%Ascii.eqb_eq]. subst.
    repeat match goal with
           | H : is_digit ?c = true |- _ => rewrite (is_digit_not_T c H); clear H
           end. reflexivity.
  - do 2 (destruct l as [|? l]; [discriminate|]).
    destruct l as [|? l]; [|discriminate].
    cbn [forallb]. intros Hshape. rewrite !andb_true_iff, orb_true_iff in Hshape.
    destruct Hshape
      as [[[Hsign (?&?&?&?&?&?&?&?&?&?&_)] H1%Ascii.eqb_eq] H2%Ascii.eqb_eq]. subst.
    repeat match goal with
           | H : is_digit ?c = true |- _ => rewrite (is_digit_not_T c H); clear H
           end.
    destruct Hsign as [->%Ascii.eqb_eq| ->%Ascii.eqb_eq]; reflexivity.
Qed.

(** X7: the day under which volume is booked is the part of the ISO
    timestamp before its "T": for a timestamp made of a calendar day, a "T"
    and a time, [today] is that calendar day. *)
Theorem today_is_the_date_part (w : World) (day rest : string) :
  now_iso w = day +:+ "T" +:+ rest ->
  iso_day day = true ->
  today w = day /\ iso_day (today w) = true.
Proof.
  intros Hnow Hday. unfold today. rewrite Hnow.
  change ("T" +:+ rest) with (String "T" rest).
  rewrite before_T_app by (by apply iso_day_no_T). by split.
Qed.

Lemma today_is_the_date_part_witness :
  today (Sample.world Sample.env_dev) = "2024-05-01"
  /\ iso_day (today (Sample.world Sample.env_dev)) = true.
Proof.
  exact (today_is_the_date_part (Sample.world Sample.env_dev) "2024-05-01" "10:20:30.000Z"
           eq_refl eq_refl).
Defined.

(** X8: the ledger key, wallet address and day joined by "-", separates
    distinct (wallet, day) pairs as long as the days are calendar days as
    [toISOString] prints them; without that shape two different pairs can
    share a key, as "0xa-2024", "05-01" and "0xa", "2024-05-01" do. *)
Theorem ledger_keys_do_not_collide :
  (forall wallet1 day1 wallet2 day2,
      iso_day day1 = true -> iso_day day2 = true ->
      (wallet1, day1) <> (wallet2, day2) ->
      Policy.trackerKey wallet1 day1 <> Policy.trackerKey wallet2 day2)
  /\ Policy.trackerKey "0xa-2024" "05-01" = Policy.trackerKey "0xa" "2024-05-01".
Proof.
  split; [|reflexivity].
  intros wallet1 day1 wallet2 day2 H1 H2 Hne Hkey. apply Hne.
  destruct (trackerKey_inj _ _ _ _ H1 H2 Hkey) as [-> ->]. reflexivity.
Qed.

Lemma ledger_keys_do_not_collide_witness :
  Policy.trackerKey Sample.wallet "2024-05-01" <> Policy.trackerKey Sample.wallet "2024-05-02"
  /\ Policy.trackerKey Sample.USDC "2024-05-01" <> Policy.trackerKey Sample.WETH "2024-05-01".
Proof.
  destruct ledger_keys_do_not_collide as [Hinj _].
  split; apply Hinj; try reflexivity; discriminate.
Defined.
(** * Further properties of the executor *)

(** ** Bounds of the minimum output *)

Lemma calculateMinAmountOut_integer (expected s : Z) :
  0 <= s <= 10000 ->
  Swap.calculateMinAmountOut expected (Number_of_bigint s)
  = Returned (Z.quot (expected * (10000 - s)) 10000).
Proof.
  intros Hs. unfold Swap.calculateMinAmountOut.
  rewrite (slippageMultiplier_exact s Hs). reflexivity.
Qed.

(** X9: for a non-negative amount and a slippage between 0 and 10000
    basis points, [calculateMinAmountOut] returns, and the minimum handed to
    the router lies between 0 and the estimated output, which itself does not
    exceed the amount put in; a larger tolerance never gives a larger
    minimum. *)
Theorem min_amount_out_bounds (amountInBigInt s : Z) :
  0 <= amountInBigInt ->
  0 <= s <= 10000 ->
  exists minimum,
    Swap.calculateMinAmountOut (Swap.estimatedAmountOut amountInBigInt) (Number_of_bigint s)
    = Returned minimum
    /\ 0 <= minimum <= Swap.estimatedAmountOut amountInBigInt
    /\ Swap.estimatedAmountOut amountInBigInt <= amountInBigInt
    /\ (forall s' minimum',
          s <= s' <= 10000 ->
          Swap.calculateMinAmountOut (Swap.estimatedAmountOut amountInBigInt)
            (Number_of_bigint s') = Returned minimum' ->
          minimum' <= minimum).
Proof.
  intros Ha Hs. eexists. split; [by apply calculateMinAmountOut_integer|].
  unfold Swap.estimatedAmountOut.
  assert (0 <= Z.quot (amountInBigInt * 98) 100 <= amountInBigInt) as Hest.
  { rewrite Z.quot_div_nonneg by lia. split.
    - apply Z.div_pos; lia.
    - apply Z.div_le_upper_bound; lia. }
  generalize dependent (Z.quot (amountInBigInt * 98) 100). intros expected Hest.
  split; [|split; [lia|]].
  - rewrite (Z.quot_div_nonneg (expected * (10000 - s)) 10000) by nia. split.
    + apply Z.div_pos; nia.
    + apply Z.div_le_upper_bound; nia.
  - intros s' minimum' Hs'. rewrite calculateMinAmountOut_integer by lia.
    intros [= <-].
    rewrite (Z.quot_div_nonneg (expected * (10000 - s')) 10000),
      (Z.quot_div_nonneg (expected * (10000 - s)) 10000) by nia.
    apply Z.div_le_mono; nia.
Qed.

Lemma min_amount_out_bounds_witness :
  exists minimum,
    Swap.calculateMinAmountOut (Swap.estimatedAmountOut 1000000) (Number_of_bigint 300)
    = Returned minimum
    /\ 0 <= minimum <= 1000000.
Proof.
  destruct (min_amount_out_bounds 1000000 300) as (minimum & Hrun & Hm & He & _);
    [lia|lia|].
  exists minimum. split; [exact Hrun|]. lia.
Defined.
(** ** The executor runs as [swap_outcome] says *)

Lemma initializeLitWallet_run w st :
  Swap.initializeLitWallet w st
  = (fst (lit_outcome w), with_calls st (snd (lit_outcome w))).
Proof.
  unfold Swap.initializeLitWallet, lit_outcome, try_catch, bind, throw, ret.
  rewrite call_run.
  destruct (lit_connect w); [|reflexivity].
  destruct (truthy_env _); cbn [negb]; [|reflexivity].
  rewrite call_run, with_calls_app.
  destruct (pkp_init w); [|reflexivity].
  rewrite call_run, with_calls_app.
  destruct (pkp_getAddress w); reflexivity.
Qed.

Lemma getTokenInfo_run w tokenAddress walletAddress st :
  Swap.getTokenInfo w tokenAddress walletAddress st
  = (match erc20_decimals w tokenAddress, erc20_balanceOf w tokenAddress walletAddress with
     | Returned decimals, Returned balance =>
         Returned {| Swap.decimals := Number_of_bigint decimals;
                     Swap.balance := bigint_toString balance |}
     | Thrown e, _ => Thrown e
     | Returned _, Thrown e => Thrown e
     end,
     with_calls st [Call_decimals tokenAddress; Call_balanceOf tokenAddress walletAddress]).
Proof.
  unfold Swap.getTokenInfo, bind, Promise_all2, ret. rewrite !call_run, with_calls_app.
  destruct (erc20_decimals w tokenAddress), (erc20_balanceOf w tokenAddress walletAddress);
    reflexivity.
Qed.

Lemma executeSwap_run w params st :
  Swap.executeSwap w params st = swap_outcome w params st.
Proof.
  unfold Swap.executeSwap, swap_outcome, try_catch.
  unfold bind at 1. rewrite initializeLitWallet_run.
  destruct (lit_outcome w) as [[wallet|e] started]; cbn [fst snd]; [|reflexivity].
  unfold bind at 1. rewrite call_run, with_calls_app.
  destruct (pkp_getAddress w) as [walletAddress|e]; [|reflexivity].
  unfold bind at 1. fold (policy_params params walletAddress).
  destruct (Policy.validateTradingGuardrails w _ _) as [[policyValidation|e] checked];
    [|reflexivity].
  destruct (Policy.isValid policyValidation); cbn [negb]; [|reflexivity].
  unfold bind at 1. rewrite getTokenInfo_run.
  destruct (erc20_decimals w _) as [decimals|e]; [|reflexivity].
  destruct (erc20_balanceOf w _ _) as [balance|e]; [|reflexivity].
  unfold bind at 1, lift at 1.
  destruct (BigInt_of_string (Swap.amountIn params)) as [amountInBigInt|e]; [|reflexivity].
  unfold bind at 1, lift at 1. cbn [Swap.balance]. rewrite BigInt_of_toString.
  destruct (balance <? amountInBigInt); [reflexivity|].
  destruct (truthy_env (UNISWAP_V3_ROUTER (env w))); cbn [negb]; [|reflexivity].
  unfold bind at 1. rewrite call_run, with_calls_app.
  destruct (erc20_approve w _ _ _) as [approveTx|e]; [|reflexivity].
  unfold bind at 1. rewrite call_run, with_calls_app.
  destruct (Ethers.wait approveTx) as [approveReceipt|e];
    [|rewrite <- ?app_assoc; reflexivity].
  unfold bind at 1, lift at 1.
  destruct (Swap.calculateMinAmountOut _ _) as [minimum|e];
    [|rewrite <- ?app_assoc; reflexivity].
  unfold bind at 1. rewrite call_run, with_calls_app.
  fold (swapParams w params amountInBigInt minimum).
  rewrite <- ?app_assoc. cbn [app]. unfold settled.
  destruct (exactInputSingle w _ _) as [swapTx|e]; [|reflexivity].
  unfold bind at 1. rewrite call_run, with_calls_app.
  rewrite <- ?app_assoc. cbn [app].
  destruct (Ethers.wait swapTx) as [receipt|e]; [|reflexivity].
  unfold bind at 1. cbv zeta.
  destruct (negb (String.eqb (Swap.actualAmountOut receipt) "0")); [|reflexivity].
  unfold bind at 1, lift at 1.
  destruct (BigInt_of_string (Swap.actualAmountOut receipt)) as [actual|e]; [|reflexivity].
  unfold bind at 1, lift at 1.
  destruct (bigint_div _ _) as [ratio|e]; reflexivity.
Qed.
(** ** What a valid decision tells *)

Lemma valid_decision_inversion w params st r st' :
  Policy.validateTradingGuardrails w params st = (Returned r, st') ->
  Policy.isValid r = true ->
  slippage_outside w (Policy.slippageBps params) = false
  /\ whitelist_answer w (Policy.tokenIn params) (Policy.tokenOut params) = true
  /\ Policy.tokenIn params <> Policy.tokenOut params
  /\ exists a,
       BigInt_of_string (Policy.amountIn params) = Returned a
       /\ 0 < a
       /\ (maxDailyVolumeUsd w
             <? running_total w (Policy.walletAddress params) st
                + intent_value w params a)%float = false
       /\ st' = with_entry
                  (with_calls st
                     (whitelist_calls w (Policy.tokenIn params) (Policy.tokenOut params)
                        ++ [Call_token_price
                              (join_comma [Policy.tokenIn params; Policy.tokenOut params])]))
                  (Policy.trackerKey (Policy.walletAddress params) (today w))
                  {| date := today w;
                     volume := running_total w (Policy.walletAddress params) st
                               + intent_value w params a |}.
Proof.
  rewrite guardrails_run. unfold guardrails_outcome, intent_value.
  destruct (Policy.isValid (Policy.validateSlippage w _)) eqn:Hs; cbn [negb].
  2: { intros [= <- <-] Hvalid. rewrite Hvalid in Hs. discriminate. }
  rewrite validateSlippage_valid in Hs. apply negb_true_iff in Hs.
  destruct (whitelist_answer w _ _); cbn [negb]; [|intros [= <- <-]; discriminate].
  destruct (BigInt_of_string _) as [a|e]; [|intros [= <- <-]; discriminate].
  cbv zeta. destruct (_ <? _)%float eqn:Hvolume; [intros [= <- <-]; discriminate|].
  destruct (Z.leb_spec a 0); [intros [= <- <-]; discriminate|].
  destruct (String.eqb_spec (Policy.tokenIn params) (Policy.tokenOut params));
    [intros [= <- <-]; discriminate|].
  intros [= <- <-] _. repeat split; try assumption.
  exists a. repeat split; assumption.
Qed.

(** ** The policy gates the executor *)

Lemma lit_outcome_calls w :
  forallb (fun c => negb (is_chain_call c)) (snd (lit_outcome w)) = true.
Proof.
  unfold lit_outcome. destruct (lit_connect w); [|reflexivity].
  destruct (truthy_env _); cbn [negb]; [|reflexivity].
  destruct (pkp_init w); [|reflexivity]. destruct (pkp_getAddress w); reflexivity.
Qed.

Lemma lit_outcome_ready w walletAddress :
  wallet_ready w walletAddress ->
  lit_outcome w
  = (Returned Swap.pkpWallet, [Call_lit_connect; Call_pkp_init; Call_pkp_getAddress]).
Proof.
  intros ([u1 H1] & H2 & [u2 H3] & H4). unfold lit_outcome.
  rewrite H1, H2, H3, H4. reflexivity.
Qed.

Lemma lit_outcome_returned w wallet started :
  lit_outcome w = (Returned wallet, started) ->
  started = [Call_lit_connect; Call_pkp_init; Call_pkp_getAddress]
  /\ exists walletAddress, wallet_ready w walletAddress.
Proof.
  unfold lit_outcome, wallet_ready.
  destruct (lit_connect w) as [u1|]; [|discriminate].
  destruct (truthy_env _); cbn [negb]; [|discriminate].
  destruct (pkp_init w) as [u2|]; [|discriminate].
  destruct (pkp_getAddress w) as [walletAddress|]; [|discriminate].
  intros [= <- <-]. split; [reflexivity|]. exists walletAddress. eauto 10.
Qed.

(** The ledger a validation leaves does not depend on the calls made
    before it. *)
Lemma guardrails_ledger_calls w params st extra :
  dailyVolumeTracker (snd (Policy.validateTradingGuardrails w params (with_calls st extra)))
  = dailyVolumeTracker (snd (Policy.validateTradingGuardrails w params st)).
Proof.
  rewrite !guardrails_run. unfold guardrails_outcome.
  rewrite running_total_with_calls.
  destruct (Policy.isValid (Policy.validateSlippage w _)); cbn [negb]; [|reflexivity].
  destruct (whitelist_answer w _ _); cbn [negb]; [|reflexivity].
  destruct (BigInt_of_string _) as [a|e]; [|reflexivity].
  cbv zeta. destruct (_ <? _)%float; [reflexivity|].
  destruct (a <=? 0); [|destruct (String.eqb _ _)]; reflexivity.
Qed.

Lemma no_chain_call_In (l : list Call) (c : Call) :
  forallb (fun c => negb (is_chain_call c)) l = true -> In c l -> is_chain_call c = false.
Proof.
  rewrite forallb_forall. intros H Hin. specialize (H c Hin). by apply negb_true_iff.
Qed.

Lemma no_chain_call_oracle (l : list Call) :
  forallb is_oracle_call l = true ->
  forallb (fun c => negb (is_chain_call c)) l = true.
Proof.
  rewrite !forallb_forall. intros H c Hc. specialize (H c Hc). by destruct c.
Qed.

Lemma executeSwap_gate (w : World) (params : Swap.SwapParams) (st : State) (c : Call) :
  In c (calls_since st (snd (Swap.executeSwap w params st))) ->
  is_chain_call c = true ->
  exists walletAddress r checked,
    wallet_ready w walletAddress
    /\ Policy.validateTradingGuardrails w (policy_params params walletAddress)
         (with_calls st wallet_calls) = (Returned r, checked)
    /\ Policy.isValid r = true.
Proof.
  rewrite executeSwap_run. unfold swap_outcome.
  pose proof (lit_outcome_calls w) as Hlit.
  destruct (lit_outcome w) as [[wallet|e] started] eqn:Hstarted; cbn [fst snd] in *.
  2: { rewrite (calls_since_app st _ started) by reflexivity.
       intros Hin Hc. rewrite (no_chain_call_In _ _ Hlit Hin) in Hc. discriminate. }
  destruct (lit_outcome_returned _ _ _ Hstarted) as [-> [walletAddress Hready]].
  pose proof Hready as (_ & _ & _ & Haddress). rewrite Haddress.
  change ([Call_lit_connect; Call_pkp_init; Call_pkp_getAddress] ++ [Call_pkp_getAddress])%list
    with wallet_calls.
  destruct (guardrails_trace w (policy_params params walletAddress)
              (with_calls st wallet_calls)) as (oracle & Hcalls & Horacle).
  destruct (Policy.validateTradingGuardrails w _ _) as [[r|e] checked] eqn:Hpolicy;
    cbn [snd] in Hcalls.
  2: { cbn [snd]. rewrite (calls_since_app st checked (wallet_calls ++ oracle))
         by (rewrite Hcalls; cbn [calls with_calls]; by rewrite app_assoc).
       intros Hin Hc. apply in_app_or in Hin as [Hin|Hin].
       - rewrite (no_chain_call_In wallet_calls c eq_refl Hin) in Hc. discriminate.
       - rewrite (no_chain_call_In _ _ (no_chain_call_oracle _ Horacle) Hin) in Hc.
         discriminate. }
  destruct (Policy.isValid r) eqn:Hvalid in |- *; cbn [negb].
  - intros _ _. exists walletAddress, r, checked.
    split; [exact Hready|]. split; [exact Hpolicy | exact Hvalid].
  - cbn [snd]. rewrite (calls_since_app st checked (wallet_calls ++ oracle))
      by (rewrite Hcalls; cbn [calls with_calls]; by rewrite app_assoc).
    intros Hin Hc. apply in_app_or in Hin as [Hin|Hin].
    + rewrite (no_chain_call_In wallet_calls c eq_refl Hin) in Hc. discriminate.
    + rewrite (no_chain_call_In _ _ (no_chain_call_oracle _ Horacle) Hin) in Hc.
      discriminate.
Qed.

(** X10: [executeSwap] touches the chain (reading decimals or balance,
    approving, swapping, waiting for a transaction) only after the wallet was
    obtained and the policy answered [isValid = true] for this very intent and
    the wallet's address; in particular the slippage lies in its bounds, the
    whitelist said yes, the tokens differ and the amount is a positive
    integer. *)
Theorem chain_calls_need_a_valid_decision (w : World) (params : Swap.SwapParams)
    (st : State) (c : Call) :
  In c (calls_since st (snd (Swap.executeSwap w params st))) ->
  is_chain_call c = true ->
  exists walletAddress r checked,
    wallet_ready w walletAddress
    /\ Policy.validateTradingGuardrails w (policy_params params walletAddress)
         (with_calls st wallet_calls) = (Returned r, checked)
    /\ Policy.isValid r = true
    /\ slippage_outside w (Swap.slippageBps params) = false
    /\ whitelist_answer w (Swap.tokenIn params) (Swap.tokenOut params) = true
    /\ Swap.tokenIn params <> Swap.tokenOut params
    /\ exists a, BigInt_of_string (Swap.amountIn params) = Returned a /\ 0 < a.
Proof.
  intros Hin Hc.
  destruct (executeSwap_gate w params st c Hin Hc)
    as (walletAddress & r & checked & Hready & Hrun & Hvalid).
  exists walletAddress, r, checked.
  split; [exact Hready|]. split; [exact Hrun|]. split; [exact Hvalid|].
  destruct (valid_decision_inversion _ _ _ _ _ Hrun Hvalid)
    as (Hs & Hw & Hne & a & Ha & Hpos & _).
  split; [exact Hs|]. split; [exact Hw|]. split; [exact Hne|].
  exists a. split; [exact Ha | exact Hpos].
Qed.
Lemma chain_calls_need_a_valid_decision_witness :
  exists walletAddress r checked,
    wallet_ready (Sample.world Sample.env_dev) walletAddress
    /\ Policy.validateTradingGuardrails (Sample.world Sample.env_dev)
         (policy_params (sample_swap "1000000000000000000") walletAddress)
         (with_calls Sample.fresh wallet_calls) = (Returned r, checked)
    /\ Policy.isValid r = true.
Proof.
  destruct (chain_calls_need_a_valid_decision (Sample.world Sample.env_dev)
              (sample_swap "1000000000000000000") Sample.fresh
              (Call_decimals Sample.USDC))
    as (walletAddress & r & checked & Hready & Hrun & Hvalid & _).
  - vm_compute. do 5 right. left. reflexivity.
  - reflexivity.
  - exists walletAddress, r, checked.
    split; [exact Hready|]. split; [exact Hrun | exact Hvalid].
Defined.

(** ** The balance check *)

(** X11: when the policy has accepted the intent and the wallet's balance
    of the input token is below the amount, [executeSwap] returns the failure
    "Insufficient balance. Required: <amount>, Available: <balance>" right
    after reading decimals and balance: nothing is approved and nothing is
    swapped, while the volume the policy booked stays booked. *)
Theorem insufficient_balance_stops_before_approval (w : World) (params : Swap.SwapParams)
    (st : State) (walletAddress : string) (r : Policy.PolicyValidationResult)
    (checked : State) (decimals balance amountInBigInt : Z) :
  let tokenIn := Swap.tokenIn params in
  wallet_ready w walletAddress ->
  Policy.validateTradingGuardrails w (policy_params params walletAddress)
    (with_calls st wallet_calls) = (Returned r, checked) ->
  Policy.isValid r = true ->
  erc20_decimals w tokenIn = Returned decimals ->
  erc20_balanceOf w tokenIn walletAddress = Returned balance ->
  BigInt_of_string (Swap.amountIn params) = Returned amountInBigInt ->
  balance < amountInBigInt ->
  Swap.executeSwap w params st
  = (Returned (Swap.failure ("Insufficient balance. Required: " +:+ Swap.amountIn params
                               +:+ ", Available: " +:+ bigint_toString balance)),
     with_calls checked [Call_decimals tokenIn; Call_balanceOf tokenIn walletAddress]).
Proof.
  intros tokenIn Hready Hpolicy Hvalid Hdecimals Hbalance Hamount Hless. subst tokenIn.
  rewrite executeSwap_run. unfold swap_outcome.
  rewrite (lit_outcome_ready w walletAddress Hready).
  destruct Hready as (_ & _ & _ & ->).
  change ([Call_lit_connect; Call_pkp_init; Call_pkp_getAddress] ++ [Call_pkp_getAddress])%list
    with wallet_calls.
  rewrite Hpolicy, Hvalid, Hdecimals, Hbalance, Hamount. cbn [negb].
  assert ((balance <? amountInBigInt) = true) as -> by lia. reflexivity.
Qed.

Lemma insufficient_balance_stops_before_approval_witness :
  exists st',
    Swap.executeSwap (with_balance (Sample.world Sample.env_dev) 999)
      (sample_swap "1000000000000000000") Sample.fresh
    = (Returned (Swap.failure
                   "Insufficient balance. Required: 1000000000000000000, Available: 999"),
       st')
    /\ no_swap_call (calls st') = true.
Proof.
  eexists. split.
  - eapply (insufficient_balance_stops_before_approval
              (with_balance (Sample.world Sample.env_dev) 999)
              (sample_swap "1000000000000000000") Sample.fresh Sample.wallet _ _ 18 999
              1000000000000000000).
    + repeat split; try (eexists; reflexivity).
    + rewrite guardrails_run. vm_compute. reflexivity.
    + reflexivity.
    + reflexivity.
    + reflexivity.
    + reflexivity.
    + lia.
  - reflexivity.
Defined.

(** ** The ledger after a swap request *)

Lemma executeSwap_ledger_ready (w : World) (params : Swap.SwapParams) (st : State)
    (walletAddress : string) :
  wallet_ready w walletAddress ->
  dailyVolumeTracker (snd (Swap.executeSwap w params st))
  = dailyVolumeTracker
      (snd (Policy.validateTradingGuardrails w (policy_params params walletAddress) st)).
Proof.
  rewrite executeSwap_run. unfold swap_outcome.
  - intros Hready.
    rewrite (lit_outcome_ready w walletAddress Hready).
    destruct Hready as (_ & _ & _ & ->).
    rewrite <- (guardrails_ledger_calls w (policy_params params walletAddress) st
                  ([Call_lit_connect; Call_pkp_init; Call_pkp_getAddress]
                     ++ [Call_pkp_getAddress])).
    destruct (Policy.validateTradingGuardrails w _ _) as [[r|e] checked]; [|reflexivity].
    destruct (Policy.isValid r); cbn [negb]; [|reflexivity].
    destruct (erc20_decimals w _); [|reflexivity].
    destruct (erc20_balanceOf w _ _) as [balance|]; [|reflexivity].
    destruct (BigInt_of_string _) as [amount|]; [|reflexivity].
    destruct (balance <? amount); [reflexivity|].
    destruct (truthy_env _); cbn [negb]; [|reflexivity].
    destruct (erc20_approve w _ _ _) as [approveTx|]; [|reflexivity].
    destruct (Ethers.wait approveTx); [|reflexivity].
    destruct (Swap.calculateMinAmountOut _ _); reflexivity.
Qed.

(** X12: [executeSwap] changes the volume ledger only through the policy:
    with the wallet available the ledger it leaves is the one a single call of
    [validateTradingGuardrails] for the wallet's address leaves, whether or
    not the swap then succeeds; with the wallet unavailable the ledger is
    unchanged. *)
Theorem executor_ledger_is_the_policy_ledger (w : World) (params : Swap.SwapParams)
    (st : State) :
  (forall walletAddress,
      wallet_ready w walletAddress ->
      dailyVolumeTracker (snd (Swap.executeSwap w params st))
      = dailyVolumeTracker
          (snd (Policy.validateTradingGuardrails w (policy_params params walletAddress) st)))
  /\ ((forall walletAddress, ~ wallet_ready w walletAddress) ->
      dailyVolumeTracker (snd (Swap.executeSwap w params st)) = dailyVolumeTracker st).
Proof.
  split; [intros walletAddress; apply executeSwap_ledger_ready|].
  rewrite executeSwap_run. unfold swap_outcome.
  - intros Hnever.
    destruct (lit_outcome w) as [[wallet|e] started] eqn:Hstarted; [|reflexivity].
    destruct (lit_outcome_returned _ _ _ Hstarted) as [_ [walletAddress Hready]].
    by destruct (Hnever walletAddress).
Qed.

Lemma executor_ledger_is_the_policy_ledger_witness :
  let w := with_balance (Sample.world Sample.env_dev) 999 in
  exists r,
    fst (Swap.executeSwap w (sample_swap "1000000000000000000") Sample.fresh) = Returned r
    /\ Swap.success r = false
    /\ running_total w Sample.wallet
         (snd (Swap.executeSwap w (sample_swap "1000000000000000000") Sample.fresh))
       = 1%float.
Proof.
  intros w. eexists. split; [vm_compute; reflexivity|]. split; [reflexivity|].
  destruct (executor_ledger_is_the_policy_ledger w (sample_swap "1000000000000000000")
              Sample.fresh) as [Hledger _].
  unfold running_total. rewrite (Hledger Sample.wallet).
  - rewrite guardrails_run. vm_compute. reflexivity.
  - repeat split; try (eexists; reflexivity).
Defined.

(** ** What is handed to the router *)

(** X13: whenever [executeSwap] submits a swap to the router, it is the
    only swap of the run and it comes right after the approval of exactly the
    amount swapped, for that router, has been sent and confirmed; the amount
    is the parsed request amount and does not exceed the wallet's balance, and
    tokens, recipient, fee tier 3000, a deadline 600 seconds ahead and no
    price limit are those of the request. *)
Theorem swap_follows_a_confirmed_approval (w : World) (params : Swap.SwapParams)
    (st : State) (router : string) (sp : Router.ExactInputSingleParams) :
  In (Call_exactInputSingle router sp)
     (calls_since st (snd (Swap.executeSwap w params st))) ->
  exists before after approveTx approveReceipt walletAddress balance,
    calls_since st (snd (Swap.executeSwap w params st))
    = (before
         ++ [Call_approve (Swap.tokenIn params) router (Router.amountIn sp);
             Call_wait (Ethers.tx_hash approveTx);
             Call_exactInputSingle router sp]
         ++ after)%list
    /\ no_swap_call before = true
    /\ no_swap_call after = true
    /\ erc20_approve w (Swap.tokenIn params) router (Router.amountIn sp) = Returned approveTx
    /\ Ethers.wait approveTx = Returned approveReceipt
    /\ BigInt_of_string (Swap.amountIn params) = Returned (Router.amountIn sp)
    /\ wallet_ready w walletAddress
    /\ erc20_balanceOf w (Swap.tokenIn params) walletAddress = Returned balance
    /\ Router.amountIn sp <= balance
    /\ Router.tokenIn sp = Swap.tokenIn params
    /\ Router.tokenOut sp = Swap.tokenOut params
    /\ Router.recipient sp = Swap.recipient params
    /\ Router.fee sp = 3000
    /\ Router.deadline sp = now_ms w / 1000 + 600
    /\ Router.sqrtPriceLimitX96 sp = 0.
Proof.
  rewrite executeSwap_run. unfold swap_outcome.
  pose proof (lit_outcome_calls w) as Hlit.
  destruct (lit_outcome w) as [[wallet|e] started] eqn:Hstarted; cbn [fst snd] in *.
  2: { rewrite (calls_since_app st _ started) by reflexivity.
       intros Hin. discriminate (no_chain_call_In _ _ Hlit Hin). }
  destruct (lit_outcome_returned _ _ _ Hstarted) as [-> [walletAddress Hready]].
  pose proof Hready as (_ & _ & _ & Haddress). rewrite Haddress.
  change ([Call_lit_connect; Call_pkp_init; Call_pkp_getAddress] ++ [Call_pkp_getAddress])%list
    with wallet_calls.
  destruct (guardrails_trace w (policy_params params walletAddress)
              (with_calls st wallet_calls)) as (oracle & Hcalls & Horacle).
  pose proof (no_chain_call_oracle _ Horacle) as Hquiet.
  destruct (Policy.validateTradingGuardrails w _ _) as [[r|e] checked]; cbn [snd] in Hcalls.
  2: { cbn [snd]. rewrite (calls_since_app st checked (wallet_calls ++ oracle))
         by (rewrite Hcalls; cbn [calls with_calls]; by rewrite app_assoc).
       intros Hin. apply in_app_or in Hin as [Hin|Hin];
         [discriminate (no_chain_call_In wallet_calls _ eq_refl Hin)
         |discriminate (no_chain_call_In _ _ Hquiet Hin)]. }
  assert (forall tail,
             calls_since st (with_calls checked tail) = (wallet_calls ++ oracle ++ tail)%list)
    as Hsince.
  { intros tail. apply calls_since_app. cbn [calls with_calls]. rewrite Hcalls.
    cbn [calls with_calls]. by rewrite <- !app_assoc. }
  assert (forall tail c,
             In c (wallet_calls ++ oracle ++ tail) -> is_chain_call c = true -> In c tail)
    as Htail.
  { intros tail c Hin Hc. apply in_app_or in Hin as [Hin|Hin].
    - rewrite (no_chain_call_In wallet_calls c eq_refl Hin) in Hc. discriminate.
    - apply in_app_or in Hin as [Hin|Hin]; [|exact Hin].
      rewrite (no_chain_call_In _ _ Hquiet Hin) in Hc. discriminate. }
  destruct (Policy.isValid r); cbn [negb].
  2: { cbn [snd]. rewrite <- (with_calls_nil checked), Hsince, app_nil_r.
       intros Hin. apply in_app_or in Hin as [Hin|Hin];
         [discriminate (no_chain_call_In wallet_calls _ eq_refl Hin)
         |discriminate (no_chain_call_In _ _ Hquiet Hin)]. }
  destruct (erc20_decimals w _) as [decimals|e].
  2: { cbn [snd]. rewrite Hsince. intros Hin.
       apply Htail in Hin; [|reflexivity]. by destruct Hin as [|[|[]]]. }
  destruct (erc20_balanceOf w _ _) as [balance|e] eqn:Hbalance.
  2: { cbn [snd]. rewrite Hsince. intros Hin.
       apply Htail in Hin; [|reflexivity]. by destruct Hin as [|[|[]]]. }
  destruct (BigInt_of_string _) as [a|e] eqn:Hamount.
  2: { cbn [snd]. rewrite Hsince. intros Hin.
       apply Htail in Hin; [|reflexivity]. by destruct Hin as [|[|[]]]. }
  destruct (Z.ltb_spec balance a).
  { cbn [snd]. rewrite Hsince. intros Hin.
    apply Htail in Hin; [|reflexivity]. by destruct Hin as [|[|[]]]. }
  destruct (UNISWAP_V3_ROUTER (env w)) as [[|ch routerAddress]|]; cbn [truthy_env negb default].
  1, 3: cbn [snd]; rewrite Hsince; intros Hin;
        (apply Htail in Hin; [|reflexivity]); by destruct Hin as [|[|[]]].
  cbn [id].
  destruct (erc20_approve w _ _ _) as [approveTx|e] eqn:Happrove.
  2: { cbn [snd]. rewrite Hsince. intros Hin.
       apply Htail in Hin; [|reflexivity]. by destruct Hin as [|[|[|[]]]]. }
  destruct (Ethers.wait approveTx) as [approveReceipt|e] eqn:Hwait.
  2: { cbn [snd]. rewrite Hsince. intros Hin.
       apply Htail in Hin; [|reflexivity]. by destruct Hin as [|[|[|[|[]]]]]. }
  destruct (Swap.calculateMinAmountOut _ _) as [minimum|e].
  2: { cbn [snd]. rewrite Hsince. intros Hin.
       apply Htail in Hin; [|reflexivity]. by destruct Hin as [|[|[|[|[]]]]]. }
  cbn [snd]. rewrite Hsince. intros Hin.
  apply Htail in Hin; [|reflexivity].
  cbn [app In] in Hin.
  assert (Call_exactInputSingle (String ch routerAddress)
            (swapParams w params a minimum) = Call_exactInputSingle router sp) as [= <- <-].
  { do 4 (destruct Hin as [Hin|Hin]; [discriminate Hin|]).
    destruct Hin as [Hin|Hin]; [exact Hin|].
    destruct (exactInputSingle w _ _); [|destruct Hin].
    destruct Hin as [Hin|[]]. discriminate Hin. }
  exists (wallet_calls ++ oracle
            ++ [Call_decimals (Swap.tokenIn params);
                Call_balanceOf (Swap.tokenIn params) walletAddress])%list,
    (match exactInputSingle w (String ch routerAddress) (swapParams w params a minimum) with
     | Returned swapTx => [Call_wait (Ethers.tx_hash swapTx)]
     | Thrown _ => []
     end), approveTx, approveReceipt, walletAddress, balance.
  split; [cbn [app swapParams Router.amountIn]; rewrite <- !app_assoc; reflexivity|].
  split.
  { rewrite !no_swap_call_app, (no_swap_call_oracle _ Horacle). reflexivity. }
  split; [by destruct (exactInputSingle w _ _)|].
  cbn [swapParams Router.amountIn Router.tokenIn Router.tokenOut Router.recipient
         Router.fee Router.deadline Router.sqrtPriceLimitX96].
  split; [exact Happrove|]. split; [exact Hwait|]. split; [reflexivity|].
  split; [exact Hready|]. split; [exact Hbalance|]. split; [lia|].
  repeat split.
Qed.

Lemma swap_follows_a_confirmed_approval_witness :
  exists before after approveTx,
    calls_since Sample.fresh
      (snd (Swap.executeSwap (Sample.world Sample.env_dev)
              (sample_swap "1000000000000000000") Sample.fresh))
    = (before
         ++ [Call_approve Sample.USDC "0xE592427A0AEce92De3Edee1F18E0157C05861564"
               1000000000000000000;
             Call_wait (Ethers.tx_hash approveTx);
             Call_exactInputSingle "0xE592427A0AEce92De3Edee1F18E0157C05861564"
               (swapParams (Sample.world Sample.env_dev)
                  (sample_swap "1000000000000000000")
                  1000000000000000000 950600000000000000)]
         ++ after)%list.
Proof.
  destruct (swap_follows_a_confirmed_approval (Sample.world Sample.env_dev)
              (sample_swap "1000000000000000000") Sample.fresh
              "0xE592427A0AEce92De3Edee1F18E0157C05861564"
              (swapParams (Sample.world Sample.env_dev)
                 (sample_swap "1000000000000000000")
                 1000000000000000000 950600000000000000))
    as (before & after & approveTx & _ & _ & _ & Hcalls & _).
  - vm_compute. do 9 right. left. reflexivity.
  - exists before, after, approveTx. exact Hcalls.
Defined.

(** ** Reading the amount received *)

(** X14: when the swap confirms and its receipt holds a Transfer log,
    the reported [amountOut] is the data of the first such log, later ones are
    ignored, and the reported slippage is 10000 times (estimated - actual)
    over estimated, in integer division, divided by 100, where estimated is
    98% of the amount put in. *)
Theorem amount_out_is_the_first_transfer_log (w : World) (params : Swap.SwapParams)
    (st : State) (router : string) (sp : Router.ExactInputSingleParams)
    (swapTx : Ethers.TransactionResponse) (receipt : Ethers.TransactionReceipt)
    (log : Ethers.Log) (actual : Z) :
  let estimated := Swap.estimatedAmountOut (Router.amountIn sp) in
  In (Call_exactInputSingle router sp)
     (calls_since st (snd (Swap.executeSwap w params st))) ->
  exactInputSingle w router sp = Returned swapTx ->
  Ethers.wait swapTx = Returned receipt ->
  List.find Swap.is_Transfer (Ethers.logs receipt) = Some log ->
  Ethers.data log <> "" ->
  Ethers.data log <> "0" ->
  BigInt_of_string (Ethers.data log) = Returned actual ->
  estimated <> 0 ->
  fst (Swap.executeSwap w params st)
  = Returned {| Swap.success := true;
                Swap.txHash := Some (Ethers.hash receipt);
                Swap.amountOut := Some (Ethers.data log);
                Swap.gasUsed := option_map bigint_toString (Ethers.gasUsed receipt);
                Swap.effectiveSlippage :=
                  Some (Number_of_bigint (Z.quot ((estimated - actual) * 10000) estimated)
                        / 100)%float;
                Swap.error := None |}.
Proof.
  intros estimated Hin Hswap Hwait Hfind Hdata Hzero Hactual Hest. subst estimated.
  destruct (submitted_swap w params st router sp Hin) as (a & m & _ & _ & _ & -> & ->).
  cbn [swapParams Router.amountIn] in *.
  rewrite Hswap. unfold settled. rewrite Hwait. cbv zeta.
  assert (Swap.actualAmountOut receipt = Ethers.data log) as ->.
  { unfold Swap.actualAmountOut. rewrite Hfind. by destruct (Ethers.data log). }
  destruct (String.eqb_spec (Ethers.data log) "0") as [Heq|_]; [by destruct Hzero|].
  cbn [negb]. rewrite Hactual. unfold bigint_div.
  destruct (Z.eqb_spec (Swap.estimatedAmountOut a) 0) as [Heq|_]; [by destruct Hest|].
  reflexivity.
Qed.

Lemma amount_out_is_the_first_transfer_log_witness :
  exists r,
    fst (Swap.executeSwap (with_receipt (Sample.world Sample.env_dev) receipt_two_transfers)
           (sample_swap "1000000000000000000") Sample.fresh) = Returned r
    /\ Swap.success r = true
    /\ Swap.amountOut r = Some "0x0de0b6b3a7640000".
Proof.
  eexists. split.
  - apply (amount_out_is_the_first_transfer_log
             (with_receipt (Sample.world Sample.env_dev) receipt_two_transfers)
             (sample_swap "1000000000000000000") Sample.fresh
             "0xE592427A0AEce92De3Edee1F18E0157C05861564"
             (swapParams (Sample.world Sample.env_dev)
                (sample_swap "1000000000000000000")
                1000000000000000000 950600000000000000)
             {| Ethers.tx_hash := "0xswap"; Ethers.wait := Returned receipt_two_transfers |}
             receipt_two_transfers
             {| Ethers.topics := [Swap.Transfer_topic]; Ethers.data := "0x0de0b6b3a7640000" |}
             1000000000000000000).
    + vm_compute. do 9 right. left. reflexivity.
    + reflexivity.
    + reflexivity.
    + reflexivity.
    + discriminate.
    + discriminate.
    + reflexivity.
    + vm_compute. discriminate.
  - split; reflexivity.
Defined.

(** X15: a swap of one base unit is submitted with a minimum output of
    0, since 98% of 1 rounds down to 0, and, when it confirms with a Transfer
    log, the division by that estimate throws: [executeSwap] reports the
    failure "Division by zero" although the swap went through. *)
Theorem one_unit_swap_is_reported_as_failed (w : World) (params : Swap.SwapParams)
    (st : State) (router : string) (sp : Router.ExactInputSingleParams)
    (swapTx : Ethers.TransactionResponse) (receipt : Ethers.TransactionReceipt)
    (log : Ethers.Log) (actual : Z) :
  In (Call_exactInputSingle router sp)
     (calls_since st (snd (Swap.executeSwap w params st))) ->
  Router.amountIn sp = 1 ->
  exactInputSingle w router sp = Returned swapTx ->
  Ethers.wait swapTx = Returned receipt ->
  List.find Swap.is_Transfer (Ethers.logs receipt) = Some log ->
  Ethers.data log <> "" ->
  Ethers.data log <> "0" ->
  BigInt_of_string (Ethers.data log) = Returned actual ->
  Router.amountOutMinimum sp = 0
  /\ fst (Swap.executeSwap w params st) = Returned (Swap.failure "Division by zero").
Proof.
  intros Hin Hone Hswap Hwait Hfind Hdata Hzero Hactual.
  destruct (submitted_swap w params st router sp Hin) as (a & m & _ & Hm & _ & -> & ->).
  cbn [swapParams Router.amountIn Router.amountOutMinimum] in *. subst a.
  split.
  { revert Hm. unfold Swap.calculateMinAmountOut.
    destruct (BigInt_of_number _); [|discriminate]. by intros [= <-]. }
  rewrite Hswap. unfold settled. rewrite Hwait. cbv zeta.
  assert (Swap.actualAmountOut receipt = Ethers.data log) as ->.
  { unfold Swap.actualAmountOut. rewrite Hfind. by destruct (Ethers.data log). }
  destruct (String.eqb_spec (Ethers.data log) "0") as [Heq|_]; [by destruct Hzero|].
  cbn [negb]. rewrite Hactual. reflexivity.
Qed.

Lemma one_unit_swap_is_reported_as_failed_witness :
  fst (Swap.executeSwap (with_receipt (Sample.world Sample.env_dev) receipt_two_transfers)
         (sample_swap "1") Sample.fresh)
  = Returned (Swap.failure "Division by zero").
Proof.
  apply (one_unit_swap_is_reported_as_failed
           (with_receipt (Sample.world Sample.env_dev) receipt_two_transfers)
           (sample_swap "1") Sample.fresh
           "0xE592427A0AEce92De3Edee1F18E0157C05861564"
           (swapParams (Sample.world Sample.env_dev) (sample_swap "1") 1 0)
           {| Ethers.tx_hash := "0xswap"; Ethers.wait := Returned receipt_two_transfers |}
           receipt_two_transfers
           {| Ethers.topics := [Swap.Transfer_topic]; Ethers.data := "0x0de0b6b3a7640000" |}
           1000000000000000000).
  - vm_compute. do 9 right. left. reflexivity.
  - reflexivity.
  - reflexivity.
  - reflexivity.
  - reflexivity.
  - discriminate.
  - discriminate.
  - reflexivity.
Defined.

(** ** When the wallet cannot be obtained *)

(** X16: when the wallet cannot be obtained, [executeSwap] returns a
    failure whose message starts with "Lit wallet initialization failed: ",
    having made only Lit and PKP calls: the policy is not consulted and the
    ledger is untouched.  A missing LIT_PKP_PUBLIC_KEY is noticed only after
    the connection to the Lit network has been made. *)
Theorem unavailable_wallet_is_reported_before_the_policy (w : World)
    (params : Swap.SwapParams) (st : State) :
  (forall walletAddress, ~ wallet_ready w walletAddress) ->
  exists m made,
    Swap.executeSwap w params st
    = (Returned (Swap.failure ("Lit wallet initialization failed: " +:+ m)),
       with_calls st made)
    /\ (forall c, In c made ->
                  c = Call_lit_connect \/ c = Call_pkp_init \/ c = Call_pkp_getAddress)
    /\ ((exists u, lit_connect w = Returned u) ->
        truthy_env (LIT_PKP_PUBLIC_KEY (env w)) = false ->
        m = "LIT_PKP_PUBLIC_KEY not configured" /\ made = [Call_lit_connect]).
Proof.
  intros Hnever. rewrite executeSwap_run. unfold swap_outcome, lit_outcome, wallet_ready in *.
  destruct (lit_connect w) as [u1|e1].
  2: { exists (error_message e1), [Call_lit_connect]. split; [reflexivity|]. split.
       - intros c [<-|[]]. by left.
       - by intros [u [=]]. }
  destruct (truthy_env (LIT_PKP_PUBLIC_KEY (env w))) eqn:Hkey; cbn [negb].
  2: { exists "LIT_PKP_PUBLIC_KEY not configured", [Call_lit_connect].
       split; [reflexivity|]. split.
       - intros c [<-|[]]. by left.
       - intros _ _. split; reflexivity. }
  destruct (pkp_init w) as [u2|e2].
  2: { exists (error_message e2), [Call_lit_connect; Call_pkp_init].
       split; [reflexivity|]. split.
       - intros c [<-|[<-|[]]]; [by left | by right; left].
       - intros _ [=]. }
  destruct (pkp_getAddress w) as [walletAddress|e3].
  { destruct (Hnever walletAddress). split; [by exists u1|]. split; [reflexivity|].
    split; [by exists u2 | reflexivity]. }
  exists (error_message e3), [Call_lit_connect; Call_pkp_init; Call_pkp_getAddress].
  split; [reflexivity|]. split.
  - intros c [<-|[<-|[<-|[]]]]; [by left | by right; left | by right; right].
  - intros _ [=].
Qed.

Lemma unavailable_wallet_is_reported_before_the_policy_witness :
  Swap.executeSwap (Sample.world env_no_key) (sample_swap "1000000000000000000") Sample.fresh
  = (Returned (Swap.failure
                 "Lit wallet initialization failed: LIT_PKP_PUBLIC_KEY not configured"),
     with_calls Sample.fresh [Call_lit_connect]).
Proof.
  destruct (unavailable_wallet_is_reported_before_the_policy (Sample.world env_no_key)
              (sample_swap "1000000000000000000") Sample.fresh)
    as (m & made & Hrun & _ & Hkey).
  - intros walletAddress (_ & Hconfigured & _). discriminate Hconfigured.
  - destruct Hkey as [-> ->]; [by exists tt | reflexivity | exact Hrun].
Defined.

(** ** The tool wrapper *)

Lemma executeSwap_eta (w : World) (inputData : Swap.SwapParams) :
  Swap.executeSwap w
    {| Swap.tokenIn := Swap.tokenIn inputData;
       Swap.tokenOut := Swap.tokenOut inputData;
       Swap.amountIn := Swap.amountIn inputData;
       Swap.slippageBps := Swap.slippageBps inputData;
       Swap.recipient := Swap.recipient inputData |}
  = Swap.executeSwap w inputData.
Proof. destruct inputData; reflexivity. Qed.

(** X17: the tool's [execute] leaves the state as it was, no call made
    and no volume booked, and throws an error whose message starts with
    "Vincent swap failed: ", unless the two tokens and the recipient are
    0x-prefixed 40-digit hexadecimal addresses, the tokens differ and the
    amount parses to a positive integer. *)
Theorem tool_checks_input_before_any_effect (w : World) (inputData : Swap.SwapParams)
    (st : State) :
  (Tool.is_address (Swap.tokenIn inputData) = true
   /\ Tool.is_address (Swap.tokenOut inputData) = true
   /\ Tool.is_address (Swap.recipient inputData) = true
   /\ Swap.tokenIn inputData <> Swap.tokenOut inputData
   /\ exists a, BigInt_of_string (Swap.amountIn inputData) = Returned a /\ 0 < a)
  \/ exists m,
       Tool.execute w inputData st
       = (Thrown (ErrorObj ("Vincent swap failed: " +:+ m)), st).
Proof.
  unfold Tool.execute, try_catch.
  destruct (negb (truthy_string (Swap.tokenIn inputData)) || _ || _ || _);
    [right; eexists; reflexivity|].
  destruct (String.eqb_spec (Swap.tokenIn inputData) (Swap.tokenOut inputData)) as [|Hne];
    [right; eexists; reflexivity|].
  destruct (Tool.is_address (Swap.tokenIn inputData)); cbn [negb];
    [|right; eexists; reflexivity].
  destruct (Tool.is_address (Swap.tokenOut inputData)); cbn [negb];
    [|right; eexists; reflexivity].
  destruct (Tool.is_address (Swap.recipient inputData)); cbn [negb];
    [|right; eexists; reflexivity].
  unfold bind at 1, lift.
  destruct (BigInt_of_string (Swap.amountIn inputData)) as [a|e];
    [|right; eexists; reflexivity].
  destruct (Z.leb_spec a 0); [right; eexists; reflexivity|].
  left. repeat split; try assumption. exists a. split; [reflexivity | assumption].
Qed.

(** X18: when the tool's [execute] returns an output, [executeSwap] ran
    on the same input and returned a successful result with a non-empty
    transaction hash; hash, gas used and slippage of the output are those of
    that result, and the amount out is the result's, or "0" when it has
    none. *)
Theorem tool_returns_only_a_confirmed_swap (w : World) (inputData : Swap.SwapParams)
    (st st' : State) (out : Tool.Output) :
  Tool.execute w inputData st = (Returned out, st') ->
  exists result,
    Swap.executeSwap w inputData st = (Returned result, st')
    /\ Swap.success result = true
    /\ Swap.txHash result = Some (Tool.txHash out)
    /\ Tool.txHash out <> ""
    /\ Tool.gasUsed out = Swap.gasUsed result
    /\ Tool.effectiveSlippage out = Swap.effectiveSlippage result
    /\ Tool.amountOut out = string_or (Swap.amountOut result) "0".
Proof.
  unfold Tool.execute, try_catch.
  destruct (negb (truthy_string (Swap.tokenIn inputData)) || _ || _ || _);
    [discriminate|].
  destruct (String.eqb (Swap.tokenIn inputData) (Swap.tokenOut inputData));
    [discriminate|].
  destruct (Tool.is_address (Swap.tokenIn inputData)); cbn [negb]; [|discriminate].
  destruct (Tool.is_address (Swap.tokenOut inputData)); cbn [negb]; [|discriminate].
  destruct (Tool.is_address (Swap.recipient inputData)); cbn [negb]; [|discriminate].
  unfold bind at 1, lift.
  destruct (BigInt_of_string (Swap.amountIn inputData)) as [a|e]; [|discriminate].
  destruct (a <=? 0); [discriminate|].
  unfold bind. rewrite executeSwap_eta.
  destruct (Swap.executeSwap w inputData st) as [[result|e] st1]; [|discriminate].
  destruct (Swap.success result) eqn:Hsuccess; cbn [negb orb]; [|discriminate].
  destruct (Swap.txHash result) as [[|c hash]|] eqn:Hhash; cbn [truthy_env negb];
    try discriminate.
  intros [= <- <-]. exists result. cbn. rewrite Hhash.
  repeat split; try reflexivity; try assumption. discriminate.
Qed.

Lemma is_address_truthy (s : string) : Tool.is_address s = true -> truthy_string s = true.
Proof. destruct s; [discriminate | reflexivity]. Qed.

Lemma positive_amount_truthy (s : string) (a : Z) :
  BigInt_of_string s = Returned a -> 0 < a -> truthy_string s = true.
Proof. destruct s; [|reflexivity]. vm_compute. intros [= <-]. discriminate. Qed.

(** X19: for a well-formed input and an available wallet, a rejection by
    the policy reaches the caller of the tool as a thrown error with the
    message "Vincent swap failed: Policy validation failed: <reason>", and
    the state left is the one the policy left. *)
Theorem tool_throws_the_policy_rejection (w : World) (inputData : Swap.SwapParams)
    (st checked : State) (walletAddress reason : string) (a : Z)
    (r : Policy.PolicyValidationResult) :
  Tool.is_address (Swap.tokenIn inputData) = true ->
  Tool.is_address (Swap.tokenOut inputData) = true ->
  Tool.is_address (Swap.recipient inputData) = true ->
  Swap.tokenIn inputData <> Swap.tokenOut inputData ->
  BigInt_of_string (Swap.amountIn inputData) = Returned a ->
  0 < a ->
  wallet_ready w walletAddress ->
  Policy.validateTradingGuardrails w (policy_params inputData walletAddress)
    (with_calls st wallet_calls) = (Returned r, checked) ->
  Policy.isValid r = false ->
  Policy.reason r = Some reason ->
  Tool.execute w inputData st
  = (Thrown (ErrorObj ("Vincent swap failed: Policy validation failed: " +:+ reason)),
     checked).
Proof.
  intros HtokenIn HtokenOut Hrecipient Hne Hamount Hpos Hready Hpolicy Hvalid Hreason.
  unfold Tool.execute, try_catch.
  rewrite (is_address_truthy _ HtokenIn), (is_address_truthy _ HtokenOut),
    (is_address_truthy _ Hrecipient), (positive_amount_truthy _ _ Hamount Hpos).
  cbn [negb orb].
  destruct (String.eqb_spec (Swap.tokenIn inputData) (Swap.tokenOut inputData));
    [contradiction|].
  rewrite HtokenIn, HtokenOut, Hrecipient. cbn [negb].
  unfold bind at 1, lift. rewrite Hamount.
  assert ((a <=? 0) = false) as -> by lia.
  unfold bind. rewrite executeSwap_eta, executeSwap_run. unfold swap_outcome.
  rewrite (lit_outcome_ready w walletAddress Hready).
  destruct Hready as (_ & _ & _ & ->).
  change ([Call_lit_connect; Call_pkp_init; Call_pkp_getAddress] ++ [Call_pkp_getAddress])%list
    with wallet_calls.
  rewrite Hpolicy, Hvalid, Hreason. reflexivity.
Qed.

Lemma tool_throws_the_policy_rejection_witness :
  exists checked,
    Tool.execute (Sample.world Sample.env_dev) (sample_swap "20000000000000000000000")
      Sample.fresh
    = (Thrown (ErrorObj
                 "Vincent swap failed: Policy validation failed: Daily volume limit exceeded"),
       checked)
    /\ dailyVolumeTracker checked = dailyVolumeTracker Sample.fresh.
Proof.
  eexists. split.
  - eapply (tool_throws_the_policy_rejection (Sample.world Sample.env_dev)
              (sample_swap "20000000000000000000000") Sample.fresh _ Sample.wallet
              "Daily volume limit exceeded" 20000000000000000000000).
    + reflexivity.
    + reflexivity.
    + reflexivity.
    + discriminate.
    + reflexivity.
    + lia.
    + repeat split; try (eexists; reflexivity).
    + rewrite guardrails_run. vm_compute. reflexivity.
    + reflexivity.
    + reflexivity.
  - reflexivity.
Defined.

Lemma tool_returns_only_a_confirmed_swap_witness :
  exists out st' result,
    Tool.execute (Sample.world Sample.env_dev) (sample_swap "1000000000000000000")
      Sample.fresh = (Returned out, st')
    /\ Swap.executeSwap (Sample.world Sample.env_dev) (sample_swap "1000000000000000000")
         Sample.fresh = (Returned result, st')
    /\ Swap.success result = true
    /\ Tool.txHash out = "0xswap"
    /\ Tool.amountOut out = "0".
Proof.
  assert (exists out st',
             Tool.execute (Sample.world Sample.env_dev) (sample_swap "1000000000000000000")
               Sample.fresh = (Returned out, st')
             /\ Tool.txHash out = "0xswap" /\ Tool.amountOut out = "0")
    as (out & st' & Hrun & Hhash & Hout).
  { eexists. eexists. split; [vm_compute; reflexivity|]. split; reflexivity. }
  destruct (tool_returns_only_a_confirmed_swap _ _ _ _ _ Hrun)
    as (result & Hswap & Hsuccess & _).
  exists out, st', result.
  split; [exact Hrun|]. split; [exact Hswap|]. split; [exact Hsuccess|].
  split; [exact Hhash | exact Hout].
Defined.

(** ** The standalone agent *)

Lemma reportTrade_state (ae : Agent.AgentEnv) (result : Swap.SwapResult)
    (s : Agent.Signal) (st : State) :
  Agent.reportTrade ae result s st = (Returned tt, st).
Proof.
  unfold Agent.reportTrade, try_catch.
  destruct (negb (truthy_env _) || negb (truthy_env _)); [reflexivity|].
  unfold bind, lift, ret. by destruct (Agent.recall_post ae) as [[]|].
Qed.

Lemma tradeParams_amount (ae : Agent.AgentEnv) (s : Agent.Signal) :
  BigInt_of_string (Swap.amountIn (Agent.tradeParams ae s))
  = Returned (if String.eqb (Agent.signal s) "BUY" then 1000000000
              else 500000000000000000).
Proof.
  unfold Agent.tradeParams. cbn [Swap.amountIn].
  destruct (String.eqb (Agent.signal s) "BUY"); vm_compute; reflexivity.
Qed.

(** X20: the standalone agent validates a trade itself and then calls
    [executeSwap], which validates it again.  When the agent's own validation
    accepts and the wallet's address is the configured recipient, the trade
    value v is booked once by that validation; the second validation books it
    again, leaving the day's total at old + v + v, unless old + v + v exceeds
    the limit, in which case the total stays at old + v and no chain call is
    made: a trade that fits the limit once but not twice is never executed. *)
Theorem agent_counts_an_accepted_trade_twice (w : World) (ae : Agent.AgentEnv)
    (s : Agent.Signal) (st st1 : State) (r : Policy.PolicyValidationResult) :
  let params := Agent.tradeParams ae s in
  let account := Swap.recipient params in
  let intent := policy_params params account in
  let v := intent_value w intent
             (if String.eqb (Agent.signal s) "BUY" then 1000000000
              else 500000000000000000) in
  let total := running_total w account st in
  let final := snd (Agent.executeTrade w ae s st) in
  wallet_ready w account ->
  Policy.validateTradingGuardrails w intent st = (Returned r, st1) ->
  Policy.isValid r = true ->
  running_total w account st1 = (total + v)%float
  /\ if (maxDailyVolumeUsd w <? total + v + v)%float
     then running_total w account final = (total + v)%float
          /\ forall c, In c (calls_since st1 final) -> is_chain_call c = false
     else running_total w account final = (total + v + v)%float.
Proof.
  intros params account intent v total final Hready Hrun Hvalid.
  destruct (valid_decision_inversion _ _ _ _ _ Hrun Hvalid)
    as (Hs & Hw & Hne & a & Ha & Hpos & Hvolume & Hst1).
  unfold intent in Ha. cbn [policy_params Policy.amountIn] in Ha.
  unfold params in Ha. rewrite tradeParams_amount in Ha. injection Ha as <-.
  fold v in Hvolume, Hst1.
  change (Policy.walletAddress intent) with account in Hvolume, Hst1.
  fold total in Hvolume, Hst1.
  assert (running_total w account st1 = (total + v)%float) as Htotal1.
  { rewrite Hst1. apply running_total_with_entry. }
  split; [exact Htotal1|].
  assert (final = snd (Swap.executeSwap w params st1)) as Hfinal.
  { unfold final, Agent.executeTrade, try_catch, bind.
    fold params account intent. rewrite Hrun, Hvalid. cbn [negb].
    destruct (Swap.executeSwap w params st1) as [[result|e] st2]; [|reflexivity].
    destruct (Swap.success result); [|reflexivity].
    by rewrite reportTrade_state. }
  assert (forall extra,
             Policy.validateTradingGuardrails w intent (with_calls st1 extra)
             = guardrails_outcome w intent (with_calls st1 extra)) as Hagain
    by (intros; apply guardrails_run).
  assert (dailyVolumeTracker final
          = dailyVolumeTracker (snd (Policy.validateTradingGuardrails w intent st1)))
    as Hledger by (rewrite Hfinal; by apply executeSwap_ledger_ready).
  assert (running_total w account final
          = running_total w account (snd (Policy.validateTradingGuardrails w intent st1)))
    as Hrunning by (unfold running_total; by rewrite Hledger).
  rewrite Hrunning, guardrails_run. unfold guardrails_outcome.
  rewrite validateSlippage_valid, Hs, Hw. cbn [negb].
  change (Policy.amountIn intent) with (Swap.amountIn (Agent.tradeParams ae s)).
  rewrite tradeParams_amount. cbv zeta.
  change (Policy.walletAddress intent) with account.
  fold (intent_value w intent
          (if String.eqb (Agent.signal s) "BUY" then 1000000000
           else 500000000000000000)).
  fold v. rewrite Htotal1.
  destruct (maxDailyVolumeUsd w <? total + v + v)%float eqn:Hover.
  - split; [exact Htotal1|].
    intros c Hin. destruct (is_chain_call c) eqn:Hc; [exfalso | reflexivity].
    rewrite Hfinal in Hin.
    destruct (executeSwap_gate w params st1 c Hin Hc)
      as (walletAddress & r2 & checked & Hready2 & Hrun2 & Hvalid2).
    assert (walletAddress = account) as ->.
    { destruct Hready as (_ & _ & _ & Haddress), Hready2 as (_ & _ & _ & Haddress2).
      rewrite Haddress in Haddress2. by injection Haddress2. }
    fold intent in Hrun2.
    destruct (valid_decision_inversion _ _ _ _ _ Hrun2 Hvalid2)
      as (_ & _ & _ & a2 & Ha2 & _ & Hvolume2 & _).
    change (Policy.amountIn intent) with (Swap.amountIn (Agent.tradeParams ae s)) in Ha2.
    rewrite tradeParams_amount in Ha2. injection Ha2 as <-.
    fold v in Hvolume2.
    change (Policy.walletAddress intent) with account in Hvolume2.
    rewrite running_total_with_calls, Htotal1 in Hvolume2.
    rewrite Hvolume2 in Hover. discriminate.
  - assert ((500000000000000000 <=? 0) = false) as H500 by reflexivity.
    assert ((1000000000 <=? 0) = false) as H1000 by reflexivity.
    destruct (String.eqb (Agent.signal s) "BUY"); rewrite ?H500, ?H1000;
      (destruct (String.eqb_spec (Policy.tokenIn intent) (Policy.tokenOut intent));
       [contradiction|]); cbn [snd]; apply running_total_with_entry.
Qed.

Lemma agent_counts_an_accepted_trade_twice_witness :
  let w := Sample.world Sample.env_dev in
  running_total w Sample.wallet (snd (Agent.executeTrade w sample_agent sell Sample.fresh))
  = 1%float.
Proof.
  intros w.
  assert (exists r st1,
             Policy.validateTradingGuardrails w
               (policy_params (Agent.tradeParams sample_agent sell) Sample.wallet)
               Sample.fresh = (Returned r, st1)
             /\ Policy.isValid r = true) as (r & st1 & Hrun & Hvalid).
  { eexists. eexists. split; [rewrite guardrails_run; vm_compute; reflexivity|].
    reflexivity. }
  destruct (agent_counts_an_accepted_trade_twice w sample_agent sell Sample.fresh st1 r)
    as [_ Htwice].
  - repeat split; try (eexists; reflexivity).
  - exact Hrun.
  - exact Hvalid.
  - exact Htwice.
Defined.
